(** * Fingerprint enrollment coordination: a model of enrollmentService.js

    The enrollment service of the gym application talks to an ESP32
    fingerprint scanner through Firestore documents only: it writes a
    command document to the device's single-slot mailbox, listens to the
    changes of that document, and creates the member record once the
    device has reported a fingerprint id.

    This file embeds the service's functions (validateMemberData,
    checkDeviceStatus, generateGymMemberId, getErrorType,
    waitForEnrollmentCompletion, createMemberAndStartEnrollment and
    cancelEnrollment) and proves the properties claimed of them.

    Conventions of the model.
    - A JavaScript string is a [string] whose characters are the code units
      below 256 (Latin-1).
    - A JavaScript number that the code counts with or prints is an
      integer ([Z]); NaN, where the code can produce it, is [None]. The
      printed form, [Js.numberToString], is the one JavaScript gives a safe
      integer ([Js.isSafeInteger]); a statement that rests on the printed
      form of a number the device supplies says so.
    - A number that the code only compares (the Age of the form) is a
      [Js.Number]: NaN, an infinity or a rational.
    - A field that may be missing is an [option]; [None] stands for
      undefined and null alike.
    - Everything the code takes from its environment (clock, random
      token, refusals of the store, the documents the listener delivers) is
      an explicit argument. *)

From Stdlib Require Import ZArith QArith Lia Ascii String Sorted.
From stdpp Require Import gmap strings pretty.

Local Open Scope Z_scope.

(** ** JavaScript strings and numbers *)

Module Js.

(** WhiteSpace and LineTerminator code units below 256: what
    [String.prototype.trim] strips and what [\s] matches. *)
Definition isWhiteSpace (c : ascii) : bool :=
  match c with
  | "009" | "010" | "011" | "012" | "013" | " " | "160" => true
  | _ => false
  end%char.

(** The code unit of a character. *)
Definition code (c : ascii) : Z := Z.of_N (N_of_ascii c).

(** [\d]: the code units 0x30 to 0x39. *)
Definition isDigit (c : ascii) : bool := (48 <=? code c) && (code c <=? 57).

Fixpoint trimStart (s : string) : string :=
  match s with
  | String c s' => if isWhiteSpace c then trimStart s' else s
  | EmptyString => EmptyString
  end.

Definition trimEnd (s : string) : string :=
  String.rev (trimStart (String.rev s)).

Definition trim (s : string) : string := trimEnd (trimStart s).

(** [s.toLowerCase()] on Latin-1: A-Z and the accented capitals
    (0xC0-0xDE except the multiplication sign 0xD7) move up by 32. *)
Definition lowerChar (c : ascii) : ascii :=
  let n := N_of_ascii c in
  if ((65 <=? n) && (n <=? 90))%N then ascii_of_N (n + 32)
  else if ((192 <=? n) && (n <=? 222) && negb (n =? 215))%N
       then ascii_of_N (n + 32)
       else c.

Fixpoint toLowerCase (s : string) : string :=
  match s with
  | String c s' => String (lowerChar c) (toLowerCase s')
  | EmptyString => EmptyString
  end.

(** [s.includes(sub)] *)
Fixpoint includes (s sub : string) : bool :=
  String.prefix sub s
  || match s with
     | String _ s' => includes s' sub
     | EmptyString => false
     end.

Fixpoint drop (n : nat) (s : string) : string :=
  match n, s with
  | S n', String _ s' => drop n' s'
  | _, _ => s
  end.

(** [s.slice(start)], start possibly negative (counted from the end). *)
Definition slice (start : Z) (s : string) : string :=
  let len := Z.of_nat (String.length s) in
  let from := if start <? 0 then Z.max (len + start) 0 else Z.min start len in
  drop (Z.to_nat from) s.

Fixpoint repeatTo (n : nat) (fill cur : string) : string :=
  match n with
  | O => EmptyString
  | S n' =>
      match cur with
      | String c cur' => String c (repeatTo n' fill cur')
      | EmptyString =>
          match fill with
          | String c fill' => String c (repeatTo n' fill fill')
          | EmptyString => EmptyString
          end
      end
  end.

(** [s.padStart(target, fill)] *)
Definition padStart (target : nat) (fill s : string) : string :=
  let len := String.length s in
  if (target <=? len)%nat then s
  else repeatTo (target - len) fill fill +:+ s.

(** [Number.isSafeInteger(n)]: the integers every one of which is a
    double of its own, from -(2^53 - 1) to 2^53 - 1. *)
Definition MAX_SAFE_INTEGER : Z := 9007199254740991.

Definition isSafeInteger (n : Z) : bool :=
  (- MAX_SAFE_INTEGER <=? n) && (n <=? MAX_SAFE_INTEGER).

(** [Number.prototype.toString()] of a safe integer: plain decimal digits,
    with a minus sign for a negative one. (Beyond the safe integers
    JavaScript prints the shortest digits that read back as the same
    double, and from 10^21 on an exponent form; the decimal form below is
    not what it prints there.) *)
Definition numberToString (n : Z) : string := pretty n.

(** The value of a decimal digit. *)
Definition digitValue (c : ascii) : option Z :=
  if isDigit c then Some (code c - 48) else None.

(** The value of a hexadecimal digit: a-f and A-F count 10 to 15. *)
Definition hexValue (c : ascii) : option Z :=
  if (97 <=? code c) && (code c <=? 102) then Some (code c - 87)
  else if (65 <=? code c) && (code c <=? 70) then Some (code c - 55)
  else digitValue c.

(** The longest prefix of digits, read in the given radix. *)
Fixpoint parseDigits (digit : ascii -> option Z) (radix : Z)
         (acc : option Z) (s : string) : option Z :=
  match s with
  | String c s' =>
      match digit c with
      | Some d =>
          parseDigits digit radix (Some (radix * default 0 acc + d)) s'
      | None => acc
      end
  | EmptyString => acc
  end.

Definition parseUnsigned (s : string) : option Z :=
  match s with
  | String "0" (String "x" s') | String "0" (String "X" s') =>
      parseDigits hexValue 16 None s'
  | _ => parseDigits digitValue 10 None s
  end.

(** [parseInt(s)]: leading white space is skipped, a sign is read, then
    digits up to the first character that is not one; [None] is NaN. *)
Definition parseInt (s : string) : option Z :=
  match trimStart s with
  | String "-" s' => Z.opp <$> parseUnsigned s'
  | String "+" s' => parseUnsigned s'
  | s' => parseUnsigned s'
  end.

(** Truthiness of an optional string and of an optional number. *)
Definition truthyString (s : option string) : bool :=
  match s with
  | Some (String _ _) => true
  | _ => false
  end.

Definition truthyNumber (n : option Z) : bool :=
  match n with
  | Some n => negb (n =? 0)
  | None => false
  end.

(** A number as a comparison sees it: NaN, an infinity, or a finite value
    (a rational, as every finite double is). *)
Inductive Number :=
| NaN
| Infinity (negative : bool)
| Finite (q : Q).

(** The number of an integer. *)
Definition integer (n : Z) : Number := Finite (inject_Z n).

(** [x < y]: false as soon as one side is NaN. *)
Definition lessThan (x y : Number) : bool :=
  match x, y with
  | Finite a, Finite b => negb (Qle_bool b a)
  | Infinity true, Finite _ => true
  | Infinity true, Infinity false => true
  | Finite _, Infinity false => true
  | _, _ => false
  end.

(** Truthiness of a number: 0 and NaN are falsy. *)
Definition truthy (x : Number) : bool :=
  match x with
  | NaN => false
  | Infinity _ => true
  | Finite q => negb (Qeq_bool q 0)
  end.

(** [s || fallback] for an optional string. *)
Definition orElse (s : option string) (fallback : string) : string :=
  match s with
  | Some (String c s') => String c s'
  | _ => fallback
  end.

(** How a template literal prints a possibly missing string. *)
Definition show (s : option string) : string := default "undefined" s.

End Js.

(** ** Documents and the store *)

(** The value of the form's Age field. The enrollment form keeps it as the
    text of a number input, other callers may pass a number.
    [AgeNumber x] is the number [x]. [AgeNumeral x] is a text that is not
    empty (the empty text is a missing age) and that a comparison reads as
    [x]: [x] is [Number(text)], which is NaN for a text that is not a
    numeral ("abc"), 0 for a blank one, a fraction for "1.5". The code
    looks at such a text in two ways only: it is truthy, and it is compared
    as [x]. *)
Inductive AgeValue :=
| AgeNumber (x : Js.Number)
| AgeNumeral (x : Js.Number).

(** memberData, the object the form hands over. *)
Record MemberData := {
  Name : option string;
  Age : option AgeValue;
  Phone_Number : option string;
  gymMemberId : option string;
  otherFields : list (string * string)
}.

(** gyms/{gymId}/devices/{deviceId} *)
Module Device.
Record t := {
  last_seen : option Z;        (* Timestamp, in ms; None when absent *)
  status : option string;
  location : option string;
  version : option string;
  capabilities : list (string * bool);
  uptime_seconds : option Z
}.
End Device.

(** gyms/{gymId}/devices/{deviceId}/commands/enroll, the mailbox *)
Module Command.
Record t := {
  status : option string;
  tempId : option string;
  memberName : option string;
  timestamp : option Z;
  requestedBy : option string;
  fingerprintId : option Z;
  message : option string;
  cancelledBy : option string
}.
End Command.

(** gyms/{gymId}/members/{id} *)
Module Member.
Record t := {
  data : MemberData;           (* ...enhancedMemberData *)
  fingerprintId : option Z;    (* parseInt(...), None for NaN *)
  id : string;
  createdAt : Z;
  updatedAt : Z;
  enrollmentStatus : string;
  enrolledBy : string;
  enrollmentDate : Z
}.
End Member.

(** A write the service has sent to the store and the store has accepted. *)
Inductive Write :=
| SetCommand (gymId deviceId : string) (doc : Command.t)
| UpdateCommand (gymId deviceId : string) (doc : Command.t)
| SetMember (gymId id : string) (doc : Member.t).

(** The three collections the service touches, and the journal of its
    accepted writes, oldest first. *)
Record Store := {
  devices : gmap (string * string) Device.t;
  commands : gmap (string * string) Command.t;
  members : gmap (string * string) Member.t;
  journal : list Write
}.

(** What the environment decides during one call of
    createMemberAndStartEnrollment: the clock readings, the random token,
    the server's write times, and which store operation fails (with the
    message of the error it throws). *)
Record Env := {
  now_checkDevice : Z;           (* new Date() in checkDeviceStatus *)
  now_generateId : Z;            (* Date.now() in generateGymMemberId *)
  now_tempId : Z;                (* Date.now() for the token *)
  now_error : Z;                 (* new Date() in the catch block *)
  random : string;               (* Math.random().toString(36).substr(2, 9) *)
  serverTime_command : Z;        (* serverTimestamp() of the command *)
  serverTime_member : Z;         (* serverTimestamp() of the member *)
  getDoc_error : option string;
  getDocs_error : option string;
  setDoc_command_error : option string;
  setDoc_member_error : option string
}.

(** What the listener of the mailbox is called with: a snapshot of the
    document (None when it does not exist) or an error. *)
Inductive ListenerEvent :=
| Snapshot (doc : option Command.t)
| ListenerError (msg : string).

(** ** A small monad: the store is threaded, an Error may be thrown.
    An Error is its message. *)

Definition M (A : Type) : Type := Store -> (string + A) * Store.

Definition ret {A} (a : A) : M A := fun st => (inr a, st).
Definition throw {A} (msg : string) : M A := fun st => (inl msg, st).
Definition bind {A B} (m : M A) (k : A -> M B) : M B :=
  fun st =>
    match m st with
    | (inr a, st') => k a st'
    | (inl e, st') => (inl e, st')
    end.
(** try { m } catch (error) { h error } *)
Definition try_catch {A} (m : M A) (h : string -> M A) : M A :=
  fun st =>
    match m st with
    | (inl e, st') => h e st'
    | r => r
    end.

Notation "'let*' x := m 'in' k" := (bind m (fun x => k))
  (at level 10, x name, m at level 100, k at level 200).

(** ** The store's operations, as the service uses them *)

Definition getDoc_device (fault : option string) (gymId deviceId : string)
  : M (option Device.t) :=
  fun st =>
    match fault with
    | Some e => (inl e, st)
    | None => (inr (devices st !! (gymId, deviceId)), st)
    end.

(** getDocs(collection(db, "gyms", gymId, "members")): the members of one
    gym. *)
Definition membersOf (gymId : string) (st : Store)
  : gmap (string * string) Member.t :=
  filter (fun kv => kv.1.1 = gymId) (members st).

Definition getDocs_members (fault : option string) (gymId : string)
  : M (gmap (string * string) Member.t) :=
  fun st =>
    match fault with
    | Some e => (inl e, st)
    | None => (inr (membersOf gymId st), st)
    end.

Definition setDoc_command (fault : option string) (gymId deviceId : string)
           (doc : Command.t) : M unit :=
  fun st =>
    match fault with
    | Some e => (inl e, st)
    | None =>
        (inr tt,
         {| devices := devices st;
            commands := <[(gymId, deviceId) := doc]> (commands st);
            members := members st;
            journal := journal st ++ [SetCommand gymId deviceId doc] |})
    end.

Definition setDoc_member (fault : option string) (gymId id : string)
           (doc : Member.t) : M unit :=
  fun st =>
    match fault with
    | Some e => (inl e, st)
    | None =>
        (inr tt,
         {| devices := devices st;
            commands := commands st;
            members := <[(gymId, id) := doc]> (members st);
            journal := journal st ++ [SetMember gymId id doc] |})
    end.

(** updateDoc merges fields into an existing document and fails when there
    is none. *)
Definition updateDoc_command (fault : option string) (gymId deviceId : string)
           (merge : Command.t -> Command.t) : M unit :=
  fun st =>
    match fault with
    | Some e => (inl e, st)
    | None =>
        match commands st !! (gymId, deviceId) with
        | None => (inl "No document to update", st)
        | Some old =>
            (inr tt,
             {| devices := devices st;
                commands := <[(gymId, deviceId) := merge old]> (commands st);
                members := members st;
                journal :=
                  journal st ++ [UpdateCommand gymId deviceId (merge old)] |})
        end
    end.

(** ** Utility functions *)

Fixpoint join (sep : string) (l : list string) : string :=
  match l with
  | [] => ""
  | [x] => x
  | x :: l' => x +:+ sep +:+ join sep l'
  end.

(** memberData[field] for the text fields. *)
Definition textField (memberData : MemberData) (field : string)
  : option string :=
  if bool_decide (field = "Name") then Name memberData
  else if bool_decide (field = "Phone_Number") then Phone_Number memberData
  else if bool_decide (field = "gymMemberId") then gymMemberId memberData
  else snd <$> List.find (fun kv => bool_decide (kv.1 = field))
                         (otherFields memberData).

Definition ageTruthy (a : option AgeValue) : bool :=
  match a with
  | Some (AgeNumber x) => Js.truthy x
  | Some (AgeNumeral _) => true
  | None => false
  end.

(** The number the comparisons [Age < 1] and [Age > 120] see. *)
Definition ageToNumber (a : AgeValue) : Js.Number :=
  match a with
  | AgeNumber x => x
  | AgeNumeral x => x
  end.

Definition phoneChar (c : ascii) : bool :=
  Js.isDigit c || Js.isWhiteSpace c
  || match c with
     | "-" | "+" | "(" | ")" => true
     | _ => false
     end%char.

Fixpoint allChars (p : ascii -> bool) (s : string) : bool :=
  match s with
  | String c s' => p c && allChars p s'
  | EmptyString => true
  end.

(** /^[\d\s\-\+\(\)]+$/.test(s) *)
Definition phonePattern (s : string) : bool :=
  match s with
  | EmptyString => false
  | _ => allChars phoneChar s
  end.

Definition requiredFields : list string := ["Name"].

(** validateMemberData: [inl msg] is [throw new Error(msg)]. *)
Definition validateMemberData (memberData : MemberData) : string + unit :=
  let missingFields :=
    List.filter
      (fun field =>
         negb (Js.truthyString (textField memberData field))
         || bool_decide (Js.trim (default "" (textField memberData field)) = ""))
      requiredFields in
  if (0 <? length missingFields)%nat
  then inl ("Missing required fields: " +:+ join ", " missingFields)
  else
    let name := default "" (Name memberData) in
    if (String.length name <? 2)%nat
    then inl "Name must be at least 2 characters long"
    else if (50 <? String.length name)%nat
    then inl "Name must be less than 50 characters long"
    else if ageTruthy (Age memberData)
            && from_option
                 (fun a => Js.lessThan (ageToNumber a) (Js.integer 1)
                           || Js.lessThan (Js.integer 120) (ageToNumber a))
                 false (Age memberData)
    then inl "Age must be between 1 and 120"
    else if Js.truthyString (Phone_Number memberData)
            && negb (phonePattern (default "" (Phone_Number memberData)))
    then inl "Phone number contains invalid characters"
    else inr tt.

(** generateGymMemberId: FN001, FN002, ...; a time-based id when the
    members cannot be read. *)
Definition generateGymMemberId (env : Env) (gymId : string) : M string :=
  try_catch
    (let* snapshot := getDocs_members (getDocs_error env) gymId in
     let memberCount := Z.of_nat (size snapshot) + 1 in
     ret ("FN" +:+ Js.padStart 3 "0" (Js.numberToString memberCount)))
    (fun _ =>
       ret ("FN" +:+ Js.slice (-6) (Js.numberToString (now_generateId env)))).

(** getErrorType, on the error's message. *)
Definition getErrorType (error_message : string) : string :=
  let message := Js.toLowerCase error_message in
  if Js.includes message "timeout" then "timeout"
  else if Js.includes message "device" && Js.includes message "offline"
  then "device_offline"
  else if Js.includes message "firebase" || Js.includes message "firestore"
  then "database_error"
  else if Js.includes message "network" || Js.includes message "connection"
  then "network_error"
  else if Js.includes message "validation" || Js.includes message "required"
  then "validation_error"
  else if Js.includes message "cancelled" then "user_cancelled"
  else if Js.includes message "sensor" || Js.includes message "fingerprint"
  then "hardware_error"
  else "unknown_error".

(** ** Device management *)

Module DeviceInfo.
Record t := {
  location : option string;
  version : option string;
  capabilities : list (string * bool);
  uptime : option Z
}.
End DeviceInfo.

Module DeviceStatus.
Record t := {
  available : bool;
  reason : string;
  deviceInfo : option DeviceInfo.t
}.
End DeviceStatus.

(** A device not seen for longer than this many ms counts as offline. *)
Definition OFFLINE_AFTER : Z := 120000.

(** checkDeviceStatus. [timeDiff] is [now - lastSeen]; it is NaN ([None])
    when the document has no last_seen, and every comparison with NaN is
    false. *)
Definition checkDeviceStatus (env : Env) (gymId deviceId : string)
  : M DeviceStatus.t :=
  try_catch
    (let* deviceDoc := getDoc_device (getDoc_error env) gymId deviceId in
     match deviceDoc with
     | None =>
         ret {| DeviceStatus.available := false;
                DeviceStatus.reason :=
                  "Device not found - check device ID and ensure ESP32 is registered";
                DeviceStatus.deviceInfo := None |}
     | Some deviceData =>
         let lastSeen := Device.last_seen deviceData in
         let now := now_checkDevice env in
         let timeDiff := (fun seen => now - seen) <$> lastSeen in
         if from_option (fun d => OFFLINE_AFTER <? d) false timeDiff
         then
           ret {| DeviceStatus.available := false;
                  DeviceStatus.reason :=
                    "Device offline - last seen "
                    +:+ Js.numberToString (default 0 timeDiff / 1000)
                    +:+ "s ago";
                  DeviceStatus.deviceInfo := None |}
         else if negb (bool_decide (Device.status deviceData = Some "online"))
         then
           ret {| DeviceStatus.available := false;
                  DeviceStatus.reason :=
                    "Device status: " +:+ Js.show (Device.status deviceData);
                  DeviceStatus.deviceInfo := None |}
         else
           ret {| DeviceStatus.available := true;
                  DeviceStatus.reason := "Device is online and ready";
                  DeviceStatus.deviceInfo :=
                    Some {| DeviceInfo.location := Device.location deviceData;
                            DeviceInfo.version := Device.version deviceData;
                            DeviceInfo.capabilities :=
                              Device.capabilities deviceData;
                            DeviceInfo.uptime :=
                              Device.uptime_seconds deviceData |} |}
     end)
    (fun error_message =>
       ret {| DeviceStatus.available := false;
              DeviceStatus.reason :=
                "Error checking device: " +:+ error_message;
              DeviceStatus.deviceInfo := None |}).

(** getAvailableDevices, the isOnline flag of one listed device:
    [timeDiff = lastSeen ? now - lastSeen : Infinity] and
    [isOnline: timeDiff < 120000]. A device without last_seen is listed as
    not online. *)
Definition getAvailableDevices_isOnline (now : Z) (deviceData : Device.t)
  : bool :=
  match Device.last_seen deviceData with
  | Some lastSeen => now - lastSeen <? OFFLINE_AFTER
  | None => false
  end.

(** ** Waiting for the device *)

(** What waitForEnrollmentCompletion resolves with. *)
Module WaitResult.
Record t := {
  success : bool;
  fingerprintId : string;
  memberName : option string;
  message : string;
  enrollmentTime : option Z;
  deviceId : string
}.
End WaitResult.

(** The promise of waitForEnrollmentCompletion with its timer and its
    listener. [settled] is None while the promise is pending, [inr r] once
    resolved with [r], [inl msg] once rejected with [new Error(msg)]. *)
Record WaitState := {
  settled : option (string + WaitResult.t);
  timeout_armed : bool;
  subscribed : bool
}.

(** setTimeout(..., 180000) *)
Definition ENROLLMENT_TIMEOUT : Z := 180000.

Definition waiting : WaitState :=
  {| settled := None; timeout_armed := true; subscribed := true |}.

Definition clearTimeout (st : WaitState) : WaitState :=
  {| settled := settled st; timeout_armed := false;
     subscribed := subscribed st |}.

Definition unsubscribe (st : WaitState) : WaitState :=
  {| settled := settled st; timeout_armed := timeout_armed st;
     subscribed := false |}.

(** resolve and reject settle a pending promise and do nothing to a settled
    one. *)
Definition settle (o : string + WaitResult.t) (st : WaitState) : WaitState :=
  match settled st with
  | None =>
      {| settled := Some o; timeout_armed := timeout_armed st;
         subscribed := subscribed st |}
  | Some _ => st
  end.

Definition resolve (r : WaitResult.t) : WaitState -> WaitState :=
  settle (inr r).
Definition reject (msg : string) : WaitState -> WaitState :=
  settle (inl msg).

(** The timer's callback. An armed timer runs it once. *)
Definition onTimeout (st : WaitState) : WaitState :=
  if timeout_armed st
  then
    reject "Enrollment timeout - ESP32 device did not respond within 3 minutes"%string
           (unsubscribe
              {| settled := settled st; timeout_armed := false;
                 subscribed := subscribed st |})
  else st.

(** The listener's snapshot callback. *)
Definition onSnapshot (deviceId tempId : string) (doc : option Command.t)
           (st : WaitState) : WaitState :=
  match doc with
  | Some data =>
      if bool_decide (Command.tempId data = Some tempId)
      then
        if bool_decide (Command.status data = Some "completed")
           && Js.truthyNumber (Command.fingerprintId data)
        then
          resolve
            {| WaitResult.success := true;
               WaitResult.fingerprintId :=
                 Js.numberToString (default 0 (Command.fingerprintId data));
               WaitResult.memberName := Command.memberName data;
               WaitResult.message :=
                 Js.orElse (Command.message data)
                           "Enrollment completed successfully";
               WaitResult.enrollmentTime := Command.timestamp data;
               WaitResult.deviceId := deviceId |}
            (unsubscribe (clearTimeout st))
        else if bool_decide (Command.status data = Some "failed")
        then
          reject (Js.orElse (Command.message data)
                            "Enrollment failed - unknown error")
                 (unsubscribe (clearTimeout st))
        else if bool_decide (Command.status data = Some "in_progress")
        then st
        else if bool_decide (Command.status data = Some "cancelled")
        then reject "Enrollment was cancelled" (unsubscribe (clearTimeout st))
        else st
      else st
  | None => st
  end.

(** The listener's error callback. The code clears the timer and rejects;
    Firestore itself ends a listener after calling its error callback. *)
Definition onError (msg : string) (st : WaitState) : WaitState :=
  unsubscribe
    (reject ("Firebase connection error: " +:+ msg) (clearTimeout st)).

(** A listener that has been closed is not called any more. *)
Definition deliver (deviceId tempId : string) (e : ListenerEvent)
           (st : WaitState) : WaitState :=
  if subscribed st
  then
    match e with
    | Snapshot doc => onSnapshot deviceId tempId doc st
    | ListenerError msg => onError msg st
    end
  else st.

(** The events arrive in order, each with the time in ms since the timer
    was armed. The timer's callback runs before the first event that is due
    at or after 180000 ms, and at the latest when nothing more arrives. *)
Fixpoint waitLoop (deviceId tempId : string) (st : WaitState)
         (events : list (Z * ListenerEvent)) : WaitState :=
  match events with
  | [] => onTimeout st
  | (t, e) :: rest =>
      let st := if ENROLLMENT_TIMEOUT <=? t then onTimeout st else st in
      waitLoop deviceId tempId (deliver deviceId tempId e st) rest
  end.

Definition waitForEnrollmentCompletion (gymId deviceId tempId : string)
           (events : list (Z * ListenerEvent)) : WaitState :=
  waitLoop deviceId tempId waiting events.

(** [await] of that promise. A promise the loop has left pending would
    never return; [waitLoop_settles] below shows there is none. *)
Definition await (st : WaitState) : M WaitResult.t :=
  match settled st with
  | Some (inr r) => ret r
  | Some (inl msg) => throw msg
  | None => throw "pending"
  end.

(** ** The enrollment workflow *)

(** What createMemberAndStartEnrollment resolves with:
    {...result, memberId, gymMemberId, message}. *)
Module EnrollmentResult.
Record t := {
  success : bool;
  fingerprintId : string;
  memberName : option string;
  enrollmentTime : option Z;
  deviceId : string;
  memberId : string;
  gymMemberId : string;
  message : string
}.
End EnrollmentResult.

(** What it rejects with: the object built in its catch block. *)
Module EnhancedError.
Record t := {
  message : string;
  type : string;
  timestamp : Z;
  gymId : string;
  deviceId : string;
  memberName : option string
}.
End EnhancedError.

Inductive Outcome :=
| Resolved (result : EnrollmentResult.t)
| Rejected (error : EnhancedError.t).

Definition lift {A} (r : string + A) : M A :=
  match r with
  | inl msg => throw msg
  | inr a => ret a
  end.

(** `temp_${Date.now()}_${Math.random().toString(36).substr(2, 9)}` *)
Definition tempEnrollmentId (env : Env) : string :=
  "temp_" +:+ Js.numberToString (now_tempId env) +:+ "_" +:+ random env.

Definition enrollmentCommand (env : Env) (memberData : MemberData)
  : Command.t :=
  {| Command.status := Some "pending";
     Command.tempId := Some (tempEnrollmentId env);
     Command.memberName := Name memberData;
     Command.timestamp := Some (serverTime_command env);
     Command.requestedBy := Some "react_app";
     Command.fingerprintId := None;
     Command.message := None;
     Command.cancelledBy := None |}.

(** {...memberData, gymMemberId} *)
Definition enhance (memberData : MemberData) (gymMemberId' : string)
  : MemberData :=
  {| Name := Name memberData;
     Age := Age memberData;
     Phone_Number := Phone_Number memberData;
     gymMemberId := Some gymMemberId';
     otherFields := otherFields memberData |}.

Definition finalMemberData (env : Env) (enhancedMemberData : MemberData)
           (deviceId : string) (result : WaitResult.t) : Member.t :=
  {| Member.data := enhancedMemberData;
     Member.fingerprintId := Js.parseInt (WaitResult.fingerprintId result);
     Member.id := WaitResult.fingerprintId result;
     Member.createdAt := serverTime_member env;
     Member.updatedAt := serverTime_member env;
     Member.enrollmentStatus := "completed";
     Member.enrolledBy := deviceId;
     Member.enrollmentDate := serverTime_member env |}.

(** The try block of createMemberAndStartEnrollment. [events] is what the
    listener of the mailbox is called with while this call waits. *)
Definition enrollmentSteps (env : Env) (gymId : string)
           (memberData : MemberData) (deviceId : string)
           (events : list (Z * ListenerEvent)) : M EnrollmentResult.t :=
  let* _ := lift (validateMemberData memberData) in
  let* deviceStatus := checkDeviceStatus env gymId deviceId in
  if negb (DeviceStatus.available deviceStatus)
  then throw ("Device " +:+ deviceId +:+ " is not available: "
              +:+ DeviceStatus.reason deviceStatus)
  else
    let* gymMemberId' :=
      (if Js.truthyString (gymMemberId memberData)
       then ret (default "" (gymMemberId memberData))
       else generateGymMemberId env gymId) in
    let enhancedMemberData := enhance memberData gymMemberId' in
    let* _ := setDoc_command (setDoc_command_error env) gymId deviceId
                             (enrollmentCommand env memberData) in
    let* result :=
      await (waitForEnrollmentCompletion gymId deviceId
                                         (tempEnrollmentId env) events) in
    if WaitResult.success result
       && Js.truthyString (Some (WaitResult.fingerprintId result))
    then
      let final := finalMemberData env enhancedMemberData deviceId result in
      let* _ := setDoc_member (setDoc_member_error env) gymId
                              (WaitResult.fingerprintId result) final in
      ret {| EnrollmentResult.success := WaitResult.success result;
             EnrollmentResult.fingerprintId := WaitResult.fingerprintId result;
             EnrollmentResult.memberName := WaitResult.memberName result;
             EnrollmentResult.enrollmentTime :=
               WaitResult.enrollmentTime result;
             EnrollmentResult.deviceId := WaitResult.deviceId result;
             EnrollmentResult.memberId := WaitResult.fingerprintId result;
             EnrollmentResult.gymMemberId :=
               default "" (gymMemberId (Member.data final));
             EnrollmentResult.message :=
               "Member " +:+ Js.show (Name memberData)
               +:+ " enrolled successfully with Fingerprint ID: "
               +:+ WaitResult.fingerprintId result |}
    else
      throw (Js.orElse (Some (WaitResult.message result))
                       "Enrollment failed on the device.").

Definition enhancedError (env : Env) (gymId : string)
           (memberData : MemberData) (deviceId : string)
           (error_message : string) : EnhancedError.t :=
  {| EnhancedError.message := error_message;
     EnhancedError.type := getErrorType error_message;
     EnhancedError.timestamp := now_error env;
     EnhancedError.gymId := gymId;
     EnhancedError.deviceId := deviceId;
     EnhancedError.memberName := Name memberData |}.

(** createMemberAndStartEnrollment: how the returned promise settles, and
    the store after it. *)
Definition createMemberAndStartEnrollment (env : Env) (gymId : string)
           (memberData : MemberData) (deviceId : string)
           (events : list (Z * ListenerEvent)) (st : Store)
  : Outcome * Store :=
  match enrollmentSteps env gymId memberData deviceId events st with
  | (inr result, st') => (Resolved result, st')
  | (inl error_message, st') =>
      (Rejected (enhancedError env gymId memberData deviceId error_message),
       st')
  end.

(** cancelEnrollment: [inl msg] is the Error it throws. *)
Definition cancelEnrollment (updateDoc_error : option string)
           (serverTime : Z) (gymId deviceId : string) : M unit :=
  try_catch
    (updateDoc_command updateDoc_error gymId deviceId
       (fun old =>
          {| Command.status := Some "cancelled";
             Command.tempId := Command.tempId old;
             Command.memberName := Command.memberName old;
             Command.timestamp := Some serverTime;
             Command.requestedBy := Command.requestedBy old;
             Command.fingerprintId := Command.fingerprintId old;
             Command.message := Command.message old;
             Command.cancelledBy := Some "react_app" |}))
    (fun _ => throw "Failed to cancel enrollment").

(** * The vocabulary of the properties *)

(** ** States of the wait *)

(** While the promise is pending the timer is armed and the listener is
    open; once it is settled both are gone. *)
Definition consistent (st : WaitState) : Prop :=
  match settled st with
  | None => timeout_armed st = true /\ subscribed st = true
  | Some _ => timeout_armed st = false /\ subscribed st = false
  end.

(** The state of a promise that has settled with [o]. *)
Definition finished (o : string + WaitResult.t) : WaitState :=
  {| settled := Some o; timeout_armed := false; subscribed := false |}.

(** The message of the Error the timer rejects with. *)
Definition timeoutMessage : string :=
  "Enrollment timeout - ESP32 device did not respond within 3 minutes".

(** ** The steps before the wait *)

(** The status checkDeviceStatus returns. *)
Definition deviceStatusOf (env : Env) (gymId deviceId : string) (st : Store)
  : DeviceStatus.t :=
  match (checkDeviceStatus env gymId deviceId st).1 with
  | inr deviceStatus => deviceStatus
  | inl msg =>
      {| DeviceStatus.available := false; DeviceStatus.reason := msg;
         DeviceStatus.deviceInfo := None |}
  end.

(** The gymMemberId the call gives the member: the caller's when it is
    supplied (and not empty), a generated one otherwise. *)
Definition gymMemberIdOf (env : Env) (gymId : string) (memberData : MemberData)
           (st : Store) : string :=
  if Js.truthyString (gymMemberId memberData)
  then default "" (gymMemberId memberData)
  else match (generateGymMemberId env gymId st).1 with
       | inr id => id
       | inl msg => msg
       end.

(** The call gets as far as writing the command: the data is valid, the
    device is available and the store takes the command. *)
Definition commandIssued (env : Env) (gymId : string) (memberData : MemberData)
           (deviceId : string) (st : Store) : bool :=
  bool_decide (validateMemberData memberData = inr tt)
  && DeviceStatus.available (deviceStatusOf env gymId deviceId st)
  && bool_decide (setDoc_command_error env = None).

(** The store once the command is written. *)
Definition withCommand (env : Env) (gymId : string) (memberData : MemberData)
           (deviceId : string) (st : Store) : Store :=
  {| devices := devices st;
     commands :=
       <[(gymId, deviceId) := enrollmentCommand env memberData]> (commands st);
     members := members st;
     journal :=
       journal st
       ++ [SetCommand gymId deviceId (enrollmentCommand env memberData)] |}.

(** ** Decimal digits *)

(** A digit that can start the decimal form of a positive number. *)
Definition leadingDigit (c : ascii) : bool :=
  (49 <=? Js.code c) && (Js.code c <=? 57).

(** ** Deliveries *)

(** The deliveries that are due before the timer: the events up to the
    first one at or after 180000 ms. *)
Fixpoint dueBeforeTimeout (events : list (Z * ListenerEvent))
  : list ListenerEvent :=
  match events with
  | (t, e) :: rest =>
      if ENROLLMENT_TIMEOUT <=? t then [] else e :: dueBeforeTimeout rest
  | [] => []
  end.

(** The statuses that end an attempt. *)
Definition terminalStatus (status : option string) : Prop :=
  status = Some "completed" \/ status = Some "failed"
  \/ status = Some "cancelled".

(** Neither a listener error nor an update that carries this tempId and a
    terminal status. *)
Definition uneventful (tempId : string) (e : ListenerEvent) : Prop :=
  match e with
  | ListenerError _ => False
  | Snapshot None => True
  | Snapshot (Some d) =>
      ~ (Command.tempId d = Some tempId /\ terminalStatus (Command.status d))
  end.

(** The deliveries in [before] all come before the timer and none of them
    settles the promise: the attempt is still in flight after them. *)
Definition stillWaiting (deviceId tempId : string)
           (before : list (Z * ListenerEvent)) : Prop :=
  Forall (fun te => te.1 < ENROLLMENT_TIMEOUT
                    /\ settled (deliver deviceId tempId te.2 waiting) = None)
         before.

(** The wait right after the deliveries of [events], before anything else
    happens: the timer has run only if one of them was due at or after
    180000 ms. waitLoop is this, followed by the timer as the backstop. *)
Fixpoint waitAfter (deviceId tempId : string) (st : WaitState)
         (events : list (Z * ListenerEvent)) : WaitState :=
  match events with
  | [] => st
  | (t, e) :: rest =>
      let st := if ENROLLMENT_TIMEOUT <=? t then onTimeout st else st in
      waitAfter deviceId tempId (deliver deviceId tempId e st) rest
  end.

(** The document cancelEnrollment leaves in the mailbox. *)
Definition cancelled (serverTime : Z) (old : Command.t) : Command.t :=
  {| Command.status := Some "cancelled";
     Command.tempId := Command.tempId old;
     Command.memberName := Command.memberName old;
     Command.timestamp := Some serverTime;
     Command.requestedBy := Command.requestedBy old;
     Command.fingerprintId := Command.fingerprintId old;
     Command.message := Command.message old;
     Command.cancelledBy := Some "react_app" |}.

(** ** What validation accepts *)

(** A name that is there, is not blank, and has 2 to 50 characters. *)
Definition nameAccepted (memberData : MemberData) : Prop :=
  exists name,
    Name memberData = Some name
    /\ Js.trim name <> ""
    /\ (2 <= String.length name <= 50)%nat.

(** The age check as the code makes it. A missing age passes. So does
    whatever reads as NaN (the number NaN, a text that is not a numeral),
    since no comparison with NaN holds, and the number 0, which JavaScript
    takes for a missing value. Any other age, whole or not, must lie
    within 1 to 120; the text 0 and the infinities do not pass. *)
Definition ageAccepted (memberData : MemberData) : Prop :=
  match Age memberData with
  | None => True
  | Some a =>
      match ageToNumber a with
      | Js.NaN => True
      | Js.Infinity _ => False
      | Js.Finite q =>
          (1 <= q <= 120)%Q
          \/ ((q == 0)%Q /\ exists x, a = AgeNumber x)
      end
  end.

(** No phone number, or one made of digits, white space, and the
    characters - + ( ) only. *)
Definition phoneAccepted (memberData : MemberData) : Prop :=
  match Phone_Number memberData with
  | None | Some "" => True
  | Some phone => allChars phoneChar phone = true
  end.

(** ** What the listener observes *)

(** The updates the snapshot callback is called with: those delivered
    while the listener is open. *)
Fixpoint observedFrom (deviceId tempId : string) (st : WaitState)
         (events : list (Z * ListenerEvent)) : list Command.t :=
  match events with
  | [] => []
  | (t, e) :: rest =>
      let st := if ENROLLMENT_TIMEOUT <=? t then onTimeout st else st in
      (if subscribed st
       then match e with
            | Snapshot (Some d) => [d]
            | _ => []
            end
       else [])
      ++ observedFrom deviceId tempId (deliver deviceId tempId e st) rest
  end.

(** The updates the listener of waitForEnrollmentCompletion observes. *)
Definition observed (gymId deviceId tempId : string)
           (events : list (Z * ListenerEvent)) : list Command.t :=
  observedFrom deviceId tempId waiting events.

(** An update for this attempt that says completed and carries a
    fingerprint id JavaScript takes for present: a number other than 0. *)
Definition completedWithId (tempId : string) (d : Command.t) : Prop :=
  Command.tempId d = Some tempId
  /\ Command.status d = Some "completed"
  /\ exists fid, Command.fingerprintId d = Some fid /\ fid <> 0.

(** Every fingerprint id the listener is handed is a safe integer, as the
    slot numbers of a sensor are: the ids whose printed form is plain
    decimal digits. *)
Definition safeIds (events : list (Z * ListenerEvent)) : Prop :=
  Forall (fun te =>
            match te.2 with
            | Snapshot (Some d) =>
                from_option Js.isSafeInteger true (Command.fingerprintId d)
                = true
            | _ => True
            end)
         events.

(** What the wait resolves with on such an update. *)
Definition resultOf (deviceId : string) (d : Command.t) : WaitResult.t :=
  {| WaitResult.success := true;
     WaitResult.fingerprintId :=
       Js.numberToString (default 0 (Command.fingerprintId d));
     WaitResult.memberName := Command.memberName d;
     WaitResult.message :=
       Js.orElse (Command.message d) "Enrollment completed successfully";
     WaitResult.enrollmentTime := Command.timestamp d;
     WaitResult.deviceId := deviceId |}.

(** ** Writes of one call *)

(** The writes one call has made: what it has added to the journal. *)
Definition callWrites (before after : Store) : list Write :=
  drop (length (journal before)) (journal after).

(** The updates the attempt's own listener has observed; none when the
    call never got to open it. *)
Definition subscriptionObserved (env : Env) (gymId : string)
           (memberData : MemberData) (deviceId : string)
           (events : list (Z * ListenerEvent)) (st : Store)
  : list Command.t :=
  if commandIssued env gymId memberData deviceId st
  then observed gymId deviceId (tempEnrollmentId env) events
  else [].

(** The call has written a Member document. *)
Definition memberPersisted (gymId : string) (before after : Store) : Prop :=
  exists id doc, In (SetMember gymId id doc) (callWrites before after).

(** ** Scenarios *)

(** A quiet store: every operation succeeds. *)
Definition sample_env : Env :=
  {| now_checkDevice := 1700000060000;
     now_generateId := 1700000060001;
     now_tempId := 1700000060002;
     now_error := 1700000240000;
     random := "k3j9x0q2a";
     serverTime_command := 1700000060010;
     serverTime_member := 1700000100000;
     getDoc_error := None;
     getDocs_error := None;
     setDoc_command_error := None;
     setDoc_member_error := None |}.

(** A scanner that reported a minute ago. *)
Definition online_device : Device.t :=
  {| Device.last_seen := Some 1700000000000;
     Device.status := Some "online";
     Device.location := Some "Front desk";
     Device.version := Some "1.0";
     Device.capabilities := [("enrollment", true)];
     Device.uptime_seconds := Some 500 |}.

(** A scanner whose document says online and has no last_seen. *)
Definition silent_device : Device.t :=
  {| Device.last_seen := None;
     Device.status := Some "online";
     Device.location := Some "Back door";
     Device.version := Some "1.0";
     Device.capabilities := [];
     Device.uptime_seconds := None |}.

(** A gym with one scanner, no pending command and no members yet. *)
Definition sample_store : Store :=
  {| devices := {[ ("gym1", "dev1") := online_device ]};
     commands := ∅;
     members := ∅;
     journal := [] |}.

(** The same gym with the silent scanner. *)
Definition silent_store : Store :=
  {| devices := {[ ("gym1", "dev1") := silent_device ]};
     commands := ∅;
     members := ∅;
     journal := [] |}.

(** The form as filled in for Alice. *)
Definition alice : MemberData :=
  {| Name := Some "Alice";
     Age := Some (AgeNumeral (Js.integer 30));
     Phone_Number := Some "+94 (77) 123-4567";
     gymMemberId := None;
     otherFields := [("Address", "12 Lake Road")] |}.

(** Alice with a gymMemberId chosen by the caller. *)
Definition alice_numbered : MemberData :=
  {| Name := Some "Alice";
     Age := Some (AgeNumeral (Js.integer 30));
     Phone_Number := None;
     gymMemberId := Some "7";
     otherFields := [] |}.



(** What the device writes back into the mailbox of the sample attempt. *)
Definition device_update (tempId status : string) (fingerprintId : option Z)
           (message : option string) : Command.t :=
  {| Command.status := Some status;
     Command.tempId := Some tempId;
     Command.memberName := Some "Alice";
     Command.timestamp := Some 1700000090000;
     Command.requestedBy := Some "react_app";
     Command.fingerprintId := fingerprintId;
     Command.message := message;
     Command.cancelledBy := None |}.

(** The tempId of the sample attempt. *)
Definition sample_tempId : string := "temp_1700000060002_k3j9x0q2a".

(** ** Three claims in the words of the specification *)

(** An update for this attempt that says completed and carries a
    fingerprint id that is not null. *)
Definition completedNonNull (tempId : string) (d : Command.t) : Prop :=
  Command.tempId d = Some tempId
  /\ Command.status d = Some "completed"
  /\ Command.fingerprintId d <> None.

(** C1 as it is written: a member is written exactly when the listener
    has observed such an update. *)
Definition finalize_iff_nonnull (env : Env) (gymId : string)
           (memberData : MemberData) (deviceId : string)
           (events : list (Z * ListenerEvent)) (st : Store) : Prop :=
  memberPersisted gymId st
    (createMemberAndStartEnrollment env gymId memberData deviceId events st).2
  <-> exists d,
        In d (subscriptionObserved env gymId memberData deviceId events st)
        /\ completedNonNull (tempEnrollmentId env) d.

(** C5 as it is written: an observed update of the attempt with status
    completed and a fingerprint id present makes the call write the member
    and resolve. *)
Definition present_id_finalizes (env : Env) (gymId : string)
           (memberData : MemberData) (deviceId : string)
           (events : list (Z * ListenerEvent)) (st : Store)
           (d : Command.t) : Prop :=
  commandIssued env gymId memberData deviceId st = true ->
  In d (observed gymId deviceId (tempEnrollmentId env) events) ->
  completedNonNull (tempEnrollmentId env) d ->
  let run :=
    createMemberAndStartEnrollment env gymId memberData deviceId events st in
  memberPersisted gymId st run.2 /\ exists result, run.1 = Resolved result.

(** C9 as it is written: the gymMemberId of a successful enrollment is
    never the string form of its fingerprint id. *)
Definition gymMemberId_never_fingerprintId (env : Env) (gymId : string)
           (memberData : MemberData) (deviceId : string)
           (events : list (Z * ListenerEvent)) (st : Store) : Prop :=
  forall result,
    (createMemberAndStartEnrollment env gymId memberData deviceId events st).1
    = Resolved result ->
    EnrollmentResult.gymMemberId result
    <> EnrollmentResult.fingerprintId result.

(** * More of the service, and its callers *)

(** ** Array.prototype.sort with a comparator *)

(** [insertSorted cmp x l] puts [x] in front of the first element it does
    not have to follow. *)
Fixpoint insertSorted {A : Type} (cmp : A -> A -> Z) (x : A) (l : list A)
  : list A :=
  match l with
  | [] => [x]
  | y :: l' =>
      if cmp x y <=? 0 then x :: y :: l' else y :: insertSorted cmp x l'
  end.

(** [l.sort(cmp)] for a consistent comparator (one that orders the
    elements, as localeCompare and a difference of dates do): the sort is
    stable, so elements the comparator takes for equal keep their order. *)
Definition sortBy {A : Type} (cmp : A -> A -> Z) (l : list A) : list A :=
  foldr (insertSorted cmp) [] l.

(** ** Listing the devices *)

(** One element of the array getAvailableDevices returns. [timeDiff] is in
    seconds; None is Infinity, the value for a device without last_seen. *)
Module DeviceEntry.
Record t := {
  id : string;
  location : string;
  status : string;
  isOnline : bool;
  lastSeen : option Z;
  timeDiff : option Z;
  capabilities : list (string * bool);
  version : string
}.
End DeviceEntry.

(** The body of the forEach of getAvailableDevices, for the document
    [doc.1] with the data [doc.2]. *)
Definition deviceEntry (now : Z) (doc : string * Device.t) : DeviceEntry.t :=
  let deviceData := doc.2 in
  let lastSeen := Device.last_seen deviceData in
  let timeDiff := (fun seen => now - seen) <$> lastSeen in
  {| DeviceEntry.id := doc.1;
     DeviceEntry.location :=
       Js.orElse (Device.location deviceData) "Unknown Location";
     DeviceEntry.status := Js.orElse (Device.status deviceData) "unknown";
     DeviceEntry.isOnline := getAvailableDevices_isOnline now deviceData;
     DeviceEntry.lastSeen := lastSeen;
     DeviceEntry.timeDiff := (fun d => d / 1000) <$> timeDiff;
     DeviceEntry.capabilities := Device.capabilities deviceData;
     DeviceEntry.version := Js.orElse (Device.version deviceData) "unknown" |}.

(** getAvailableDevices. [snapshot] is what getDocs gives for the gym's
    devices: an error, or the documents in the order of the store.
    [localeCompare] is String.prototype.localeCompare, which depends on the
    browser's locale. [inl msg] is the Error thrown. *)
Definition getAvailableDevices (localeCompare : string -> string -> Z)
           (now : Z) (snapshot : string + list (string * Device.t))
  : string + list DeviceEntry.t :=
  match snapshot with
  | inl _ => inl "Could not fetch device list"
  | inr docs =>
      inr (sortBy (fun a b => localeCompare (DeviceEntry.location a)
                                            (DeviceEntry.location b))
                  (deviceEntry now <$> docs))
  end.

(** formatLastSeen of the device list (DeviceManagement.jsx); [timeDiff] in
    seconds, None for Infinity. *)
Definition formatLastSeen (lastSeen : option Z) (timeDiff : option Z)
  : string :=
  match lastSeen with
  | None => "Never"
  | Some _ =>
      match timeDiff with
      | None => "Infinityd ago"
      | Some timeDiff =>
          if timeDiff <? 60 then "Just now"
          else if timeDiff <? 3600
          then Js.numberToString (timeDiff / 60) +:+ "m ago"
          else if timeDiff <? 86400
          then Js.numberToString (timeDiff / 3600) +:+ "h ago"
          else Js.numberToString (timeDiff / 86400) +:+ "d ago"
      end
  end.

(** ** The passive listener and the page that uses it *)

(** What listenToEnrollmentStatus hands to its callback. *)
Module StatusUpdate.
Record t := {
  status : option string;
  fingerprintId : option Z;
  message : option string;
  memberName : option string;
  attempts : option Z;
  timestamp : option Z;
  tempId : option string
}.
End StatusUpdate.

(** What its listener is called with: a snapshot of the mailbox document,
    here with the attempts counter the device keeps in it, or an error. *)
Inductive StatusEvent :=
| StatusSnapshot (doc : option (Command.t * option Z))
| StatusError (msg : string).

(** [data.attempts || 0] *)
Definition attemptsOrZero (attempts : option Z) : Z := default 0 attempts.

Definition statusUpdateOf (data : Command.t) (attempts : option Z)
  : StatusUpdate.t :=
  {| StatusUpdate.status := Command.status data;
     StatusUpdate.fingerprintId := Command.fingerprintId data;
     StatusUpdate.message := Command.message data;
     StatusUpdate.memberName := Command.memberName data;
     StatusUpdate.attempts := Some (attemptsOrZero attempts);
     StatusUpdate.timestamp := Command.timestamp data;
     StatusUpdate.tempId := Command.tempId data |}.

Definition errorUpdate (msg : string) : StatusUpdate.t :=
  {| StatusUpdate.status := Some "error";
     StatusUpdate.fingerprintId := None;
     StatusUpdate.message := Some ("Connection error: " +:+ msg);
     StatusUpdate.memberName := None;
     StatusUpdate.attempts := None;
     StatusUpdate.timestamp := None;
     StatusUpdate.tempId := None |}.

(** listenToEnrollmentStatus: the calls of onStatusChange, in order, for
    the events its listener gets. Firestore ends a listener after its
    error callback. *)
Fixpoint listenToEnrollmentStatus (gymId deviceId : string)
         (events : list StatusEvent) : list StatusUpdate.t :=
  match events with
  | [] => []
  | StatusSnapshot (Some (data, attempts)) :: rest =>
      statusUpdateOf data attempts
      :: listenToEnrollmentStatus gymId deviceId rest
  | StatusSnapshot None :: rest =>
      listenToEnrollmentStatus gymId deviceId rest
  | StatusError msg :: _ => [errorUpdate msg]
  end.

(** The state of EnrollmentPage that the callback sets. *)
Record PageState := {
  enrollmentState : string;
  enrollmentStatus : string;
  assignedFingerprintId : option Z
}.

(** How a template literal prints a possibly missing number. *)
Definition showNumber (n : option Z) : string :=
  match n with
  | Some n => Js.numberToString n
  | None => "undefined"
  end.

(** The callback EnrollmentPage's handleSubmit gives to
    listenToEnrollmentStatus: the switch on statusUpdate.status. *)
Definition onStatusChange (statusUpdate : StatusUpdate.t) (page : PageState)
  : PageState :=
  let status := StatusUpdate.status statusUpdate in
  if bool_decide (status = Some "pending")
  then {| enrollmentState := "waiting";
          enrollmentStatus :=
            "Enrollment request sent to device. Please follow device instructions.";
          assignedFingerprintId := assignedFingerprintId page |}
  else if bool_decide (status = Some "in_progress")
  then {| enrollmentState := "processing";
          enrollmentStatus :=
            "Fingerprint enrollment in progress. Place finger on sensor as instructed.";
          assignedFingerprintId := assignedFingerprintId page |}
  else if bool_decide (status = Some "completed")
  then {| enrollmentState := "success";
          enrollmentStatus :=
            "Enrollment successful! Fingerprint ID: "
            +:+ showNumber (StatusUpdate.fingerprintId statusUpdate);
          assignedFingerprintId := StatusUpdate.fingerprintId statusUpdate |}
  else if bool_decide (status = Some "failed")
  then {| enrollmentState := "failed";
          enrollmentStatus :=
            "Enrollment failed: "
            +:+ Js.show (StatusUpdate.message statusUpdate);
          assignedFingerprintId := assignedFingerprintId page |}
  else if bool_decide (status = Some "cancelled")
  then {| enrollmentState := "failed";
          enrollmentStatus := "Enrollment was cancelled";
          assignedFingerprintId := assignedFingerprintId page |}
  else if bool_decide (status = Some "error")
  then {| enrollmentState := "failed";
          enrollmentStatus :=
            "Connection error: "
            +:+ Js.show (StatusUpdate.message statusUpdate);
          assignedFingerprintId := assignedFingerprintId page |}
  else {| enrollmentState := enrollmentState page;
          enrollmentStatus :=
            Js.orElse (StatusUpdate.message statusUpdate) "Processing...";
          assignedFingerprintId := assignedFingerprintId page |}.

(** The page after the callback has run for each update in turn. *)
Definition pageAfter (updates : list StatusUpdate.t) (page : PageState)
  : PageState :=
  foldl (fun page statusUpdate => onStatusChange statusUpdate page)
        page updates.

(** ** Enrollment statistics *)

(** What getEnrollmentStats reads of a member document. *)
Module StatsDoc.
Record t := {
  Name : option string;
  fingerprintId : option Z;
  enrollmentDate : option Z;
  enrolledBy : option string
}.
End StatsDoc.

Module RecentEnrollment.
Record t := {
  name : option string;
  fingerprintId : option Z;
  date : Z;
  device : string
}.
End RecentEnrollment.

(** The stats object. A device name that is a property of
    Object.prototype is outside of what [byDevice] models. *)
Module Stats.
Record t := {
  total : Z;
  today : Z;
  thisWeek : Z;
  thisMonth : Z;
  byDevice : gmap string Z;
  recentEnrollments : list RecentEnrollment.t
}.
End Stats.

Definition increment (condition : bool) (counter : Z) : Z :=
  if condition then counter + 1 else counter.

(** The body of members.forEach in getEnrollmentStats. [today],
    [thisWeek] and [thisMonth] are the three instants the counters compare
    with. *)
Definition countMember (today thisWeek thisMonth : Z) (stats : Stats.t)
           (member : StatsDoc.t) : Stats.t :=
  match StatsDoc.enrollmentDate member with
  | None => stats
  | Some enrollmentDate =>
      let device := Js.orElse (StatsDoc.enrolledBy member) "unknown" in
      {| Stats.total := Stats.total stats;
         Stats.today :=
           increment (today <=? enrollmentDate) (Stats.today stats);
         Stats.thisWeek :=
           increment (thisWeek <=? enrollmentDate) (Stats.thisWeek stats);
         Stats.thisMonth :=
           increment (thisMonth <=? enrollmentDate) (Stats.thisMonth stats);
         Stats.byDevice :=
           <[device := default 0 (Stats.byDevice stats !! device) + 1]>
             (Stats.byDevice stats);
         Stats.recentEnrollments :=
           if (length (Stats.recentEnrollments stats) <? 10)%nat
           then Stats.recentEnrollments stats
                ++ [{| RecentEnrollment.name := StatsDoc.Name member;
                       RecentEnrollment.fingerprintId :=
                         StatsDoc.fingerprintId member;
                       RecentEnrollment.date := enrollmentDate;
                       RecentEnrollment.device := device |}]
           else Stats.recentEnrollments stats |}
  end.

(** 7 * 24 * 60 * 60 * 1000 *)
Definition WEEK : Z := 604800000.

(** getEnrollmentStats. [today] is the start of the current day and
    [thisMonth] the start of the current month, in local time; [snapshot]
    is what getDocs gives for the gym's members, and the query keeps those
    enrolled by [deviceId] when one is given. [inl msg] is the Error
    thrown. *)
Definition getEnrollmentStats (today thisMonth : Z) (deviceId : option string)
           (snapshot : string + list StatsDoc.t) : string + Stats.t :=
  match snapshot with
  | inl _ => inl "Could not fetch enrollment statistics"
  | inr docs =>
      let members :=
        if Js.truthyString deviceId
        then List.filter
               (fun member => bool_decide (StatsDoc.enrolledBy member = deviceId))
               docs
        else docs in
      let thisWeek := today - WEEK in
      let stats :=
        foldl (countMember today thisWeek thisMonth)
              {| Stats.total := Z.of_nat (length members);
                 Stats.today := 0;
                 Stats.thisWeek := 0;
                 Stats.thisMonth := 0;
                 Stats.byDevice := ∅;
                 Stats.recentEnrollments := [] |}
              members in
      inr {| Stats.total := Stats.total stats;
             Stats.today := Stats.today stats;
             Stats.thisWeek := Stats.thisWeek stats;
             Stats.thisMonth := Stats.thisMonth stats;
             Stats.byDevice := Stats.byDevice stats;
             Stats.recentEnrollments :=
               sortBy (fun a b => RecentEnrollment.date b
                                  - RecentEnrollment.date a)
                      (Stats.recentEnrollments stats) |}
  end.

(** ** More scenarios *)

(** The device gives up. *)
Definition failed_update : Command.t :=
  device_update sample_tempId "failed" None (Some "sensor timeout").

(** The device reports progress. *)
Definition progress_update : Command.t :=
  device_update sample_tempId "in_progress" None None.

(** The device reports the fingerprint id 7. *)
Definition completed_update : Command.t :=
  device_update sample_tempId "completed" (Some 7) None.

(** The test validateMemberData makes of the required Name: it is missing,
    empty, or nothing but white space. *)
Definition nameMissing (memberData : MemberData) : bool :=
  negb (Js.truthyString (Name memberData))
  || bool_decide (Js.trim (default "" (Name memberData)) = "").

(** A name of two blanks, an age out of range, a bad phone number. *)
Definition blank_name : MemberData :=
  {| Name := Some "  ";
     Age := Some (AgeNumeral (Js.integer 200));
     Phone_Number := Some "call me";
     gymMemberId := None;
     otherFields := [] |}.

(** A scanner that reported five minutes ago and says busy. *)
Definition stale_device : Device.t :=
  {| Device.last_seen := Some 1699999760000;
     Device.status := Some "busy";
     Device.location := None;
     Device.version := None;
     Device.capabilities := [];
     Device.uptime_seconds := None |}.

(** The gym with the stale scanner. *)
Definition stale_store : Store :=
  {| devices := {[ ("gym1", "dev1") := stale_device ]};
     commands := ∅;
     members := ∅;
     journal := [] |}.

(** A localeCompare that orders strings by their code units. *)
Definition codeUnitCompare (a b : string) : Z :=
  match String.compare a b with
  | Lt => -1
  | Eq => 0
  | Gt => 1
  end.

(** The comparator getAvailableDevices sorts with. *)
Definition byLocation (localeCompare : string -> string -> Z)
           (a b : DeviceEntry.t) : Z :=
  localeCompare (DeviceEntry.location a) (DeviceEntry.location b).

(** [a] may stand before [b] in an array sorted with [cmp]. *)
Definition inOrder {A : Type} (cmp : A -> A -> Z) (a b : A) : Prop :=
  cmp a b <= 0.

(** The devices of a gym as the store lists them. *)
Definition sample_devices : list (string * Device.t) :=
  [("dev1", online_device); ("dev2", silent_device); ("dev3", stale_device)].

(** The number of members getDocs counts for a gym. *)
Definition memberCount (gymId : string) (st : Store) : Z :=
  Z.of_nat (size (membersOf gymId st)).

(** A store where the gym's members cannot be read. *)
Definition unreadable_members_env : Env :=
  {| now_checkDevice := 1700000060000;
     now_generateId := 1700000060001;
     now_tempId := 1700000060002;
     now_error := 1700000240000;
     random := "k3j9x0q2a";
     serverTime_command := 1700000060010;
     serverTime_member := 1700000100000;
     getDoc_error := None;
     getDocs_error := Some "permission-denied";
     setDoc_command_error := None;
     setDoc_member_error := None |}.

(** The store after Alice's enrollment with the fingerprint id 7. *)
Definition store_with_alice : Store :=
  (createMemberAndStartEnrollment sample_env "gym1" alice "dev1"
     [(2000, Snapshot (Some completed_update))] sample_store).2.

(** A second operator starts an attempt one second later. *)
Definition later_env : Env :=
  {| now_checkDevice := 1700000061000;
     now_generateId := 1700000061001;
     now_tempId := 1700000061002;
     now_error := 1700000241000;
     random := "k3j9x0q2a";
     serverTime_command := 1700000061010;
     serverTime_member := 1700000101000;
     getDoc_error := None;
     getDocs_error := None;
     setDoc_command_error := None;
     setDoc_member_error := None |}.

(** The gym while another attempt's command is pending in the mailbox. *)
Definition busy_store : Store :=
  {| devices := {[ ("gym1", "dev1") := online_device ]};
     commands := {[ ("gym1", "dev1") := enrollmentCommand later_env alice ]};
     members := ∅;
     journal := [] |}.

(** The members getEnrollmentStats asks the store for: all of the gym's,
    or those enrolled by [deviceId] when one is given. *)
Definition statsQuery (deviceId : option string) (docs : list StatsDoc.t)
  : list StatsDoc.t :=
  if Js.truthyString deviceId
  then List.filter
         (fun member => bool_decide (StatsDoc.enrolledBy member = deviceId))
         docs
  else docs.

(** The device a member is counted under. *)
Definition countedUnder (member : StatsDoc.t) : string :=
  Js.orElse (StatsDoc.enrolledBy member) "unknown".

(** The member has an enrollment date and is counted under [device]. *)
Definition datedUnder (device : string) (member : StatsDoc.t) : bool :=
  bool_decide (is_Some (StatsDoc.enrollmentDate member))
  && bool_decide (countedUnder member = device).

(** The members that have an enrollment date, as entries of
    recentEnrollments, in the order of the snapshot. *)
Definition datedEntries (members : list StatsDoc.t)
  : list RecentEnrollment.t :=
  omap (fun member =>
          (fun enrollmentDate =>
             {| RecentEnrollment.name := StatsDoc.Name member;
                RecentEnrollment.fingerprintId := StatsDoc.fingerprintId member;
                RecentEnrollment.date := enrollmentDate;
                RecentEnrollment.device := countedUnder member |})
          <$> StatsDoc.enrollmentDate member)
       members.

(** The comparator getEnrollmentStats sorts recentEnrollments with. *)
Definition newestFirst (a b : RecentEnrollment.t) : Z :=
  RecentEnrollment.date b - RecentEnrollment.date a.

(** The names that every JavaScript object inherits from Object.prototype;
    a plain object used as a map answers for them without having been
    given them. *)
Definition objectPrototypeNames : list string :=
  ["constructor"; "hasOwnProperty"; "isPrototypeOf"; "propertyIsEnumerable";
   "toLocaleString"; "toString"; "valueOf"; "__proto__";
   "__defineGetter__"; "__defineSetter__"; "__lookupGetter__";
   "__lookupSetter__"].

(** A member as the statistics read it. *)
Definition stats_member (name : string) (fingerprintId enrollmentDate : Z)
           (device : string) : StatsDoc.t :=
  {| StatsDoc.Name := Some name;
     StatsDoc.fingerprintId := Some fingerprintId;
     StatsDoc.enrollmentDate := Some enrollmentDate;
     StatsDoc.enrolledBy := Some device |}.

(** The mailbox as the previous enrollment left it. *)
Definition stale_completed : Command.t :=
  device_update "temp_1699990000000_aaaaaaaaa" "completed" (Some 3) None.

(** The page before anything has happened. *)
Definition idle_page : PageState :=
  {| enrollmentState := "requesting";
     enrollmentStatus := "Initializing enrollment process...";
     assignedFingerprintId := None |}.

(** ** The checks of EnrollmentPage before it starts an enrollment *)

(** The guards at the head of handleSubmit in EnrollmentPage.jsx: it shows
    a toast and returns, or goes on to start the enrollment. The page keeps
    [formData.Name] as a string; on a missing one [.trim()] would throw. *)
Inductive SubmitCheck : Type :=
| SubmitThrows
| SubmitRefused (toast : string)
| SubmitProceeds.

Definition handleSubmit_check (formData : MemberData)
           (gymInfo_id : option string) (devices : list DeviceEntry.t)
           (selectedDevice : string) : SubmitCheck :=
  match Name formData with
  | None => SubmitThrows
  | Some name =>
      if negb (Js.truthyString (Some (Js.trim name)))
      then SubmitRefused "Member name is required"
      else if negb (Js.truthyString gymInfo_id)
      then SubmitRefused "Gym information is not available"
      else
        match List.find
                (fun d => bool_decide (DeviceEntry.id d = selectedDevice))
                devices with
        | Some device =>
            if negb (DeviceEntry.isOnline device)
            then SubmitRefused "Selected device is offline. Please choose another device or check device status."
            else SubmitProceeds
        | None =>
            SubmitRefused "Selected device is offline. Please choose another device or check device status."
        end
  end.

(** * Properties *)

(** ** The promise, its timer and its listener go together *)

Lemma consistent_waiting : consistent waiting.
Proof. by split. Qed.

Lemma onTimeout_consistent st : consistent st -> consistent (onTimeout st).
Proof.
  unfold consistent, onTimeout, reject, settle, unsubscribe.
  destruct st as [[o|] armed sub]; simpl; intros [-> ->]; by simpl.
Qed.

Lemma onTimeout_settled st o :
  settled st = Some o -> consistent st -> onTimeout st = st.
Proof.
  unfold consistent, onTimeout. intros ->. by intros [-> _].
Qed.

Lemma onSnapshot_consistent deviceId tempId doc st :
  consistent st -> consistent (onSnapshot deviceId tempId doc st).
Proof.
  intros Hst. unfold onSnapshot.
  destruct doc as [data|]; [|done].
  repeat case_match; try done;
    destruct st as [[o|] armed sub]; destruct Hst as [? ?]; simplify_eq/=;
    by split.
Qed.

Lemma deliver_consistent deviceId tempId e st :
  consistent st -> consistent (deliver deviceId tempId e st).
Proof.
  intros Hst. unfold deliver. destruct (subscribed st) eqn:Hsub; [|done].
  destruct e as [doc|msg]; [by apply onSnapshot_consistent|].
  destruct st as [[o|] armed sub]; destruct Hst as [? ?]; simplify_eq/=;
    by split.
Qed.

Lemma deliver_settled deviceId tempId e st o :
  settled st = Some o -> consistent st -> deliver deviceId tempId e st = st.
Proof.
  unfold consistent, deliver. intros ->. by intros [_ ->].
Qed.

(** A settled promise stays as it is, whatever arrives later. *)
Lemma waitLoop_settled deviceId tempId events st o :
  settled st = Some o -> consistent st ->
  waitLoop deviceId tempId st events = st.
Proof.
  intros Ho Hst. induction events as [|[t e] rest IH]; simpl.
  - by eapply onTimeout_settled.
  - destruct (ENROLLMENT_TIMEOUT <=? t);
      rewrite ?(onTimeout_settled st o) by done;
      by rewrite (deliver_settled _ _ _ st o).
Qed.

Lemma waitLoop_consistent deviceId tempId events st :
  consistent st -> consistent (waitLoop deviceId tempId st events).
Proof.
  revert st. induction events as [|[t e] rest IH]; simpl; intros st Hst.
  - by apply onTimeout_consistent.
  - apply IH, deliver_consistent.
    destruct (ENROLLMENT_TIMEOUT <=? t); [by apply onTimeout_consistent|done].
Qed.

(** The promise of waitForEnrollmentCompletion always settles: the timer
    is the backstop. *)
Lemma waitLoop_settles deviceId tempId events st :
  consistent st -> is_Some (settled (waitLoop deviceId tempId st events)).
Proof.
  revert st. induction events as [|[t e] rest IH]; simpl; intros st Hst.
  - unfold consistent in Hst. unfold onTimeout, reject, settle.
    destruct st as [[o|] armed sub]; simpl in *; destruct Hst as [-> ->];
      simpl; eauto.
  - apply IH, deliver_consistent.
    destruct (ENROLLMENT_TIMEOUT <=? t); [by apply onTimeout_consistent|done].
Qed.

Lemma waitForEnrollmentCompletion_settles gymId deviceId tempId events :
  is_Some (settled (waitForEnrollmentCompletion gymId deviceId tempId events))
  /\ timeout_armed
       (waitForEnrollmentCompletion gymId deviceId tempId events) = false
  /\ subscribed
       (waitForEnrollmentCompletion gymId deviceId tempId events) = false.
Proof.
  unfold waitForEnrollmentCompletion.
  pose proof (waitLoop_settles deviceId tempId events waiting
                consistent_waiting) as [o Ho].
  pose proof (waitLoop_consistent deviceId tempId events waiting
                consistent_waiting) as Hc.
  unfold consistent in Hc. rewrite Ho in Hc. rewrite Ho. eauto.
Qed.

(** The loop is its deliveries, then the timer. *)
Lemma waitLoop_waitAfter deviceId tempId events st :
  waitLoop deviceId tempId st events
  = onTimeout (waitAfter deviceId tempId st events).
Proof.
  revert st. induction events as [|[t e] rest IH]; intros st; [done|].
  simpl. apply IH.
Qed.

Lemma waitAfter_app deviceId tempId before after st :
  waitAfter deviceId tempId st (before ++ after)
  = waitAfter deviceId tempId (waitAfter deviceId tempId st before) after.
Proof.
  revert st. induction before as [|[t e] before IH]; intros st; [done|].
  simpl. apply IH.
Qed.

Lemma waitAfter_consistent deviceId tempId events st :
  consistent st -> consistent (waitAfter deviceId tempId st events).
Proof.
  revert st. induction events as [|[t e] rest IH]; simpl; intros st Hst;
    [done|].
  apply IH, deliver_consistent.
  destruct (ENROLLMENT_TIMEOUT <=? t); [by apply onTimeout_consistent|done].
Qed.

(** ** Updates of another attempt *)

Lemma onSnapshot_foreign deviceId tempId d st :
  Command.tempId d <> Some tempId ->
  onSnapshot deviceId tempId (Some d) st = st.
Proof. intros Hne. unfold onSnapshot. by rewrite bool_decide_eq_false_2. Qed.

Lemma deliver_foreign deviceId tempId d st :
  Command.tempId d <> Some tempId ->
  deliver deviceId tempId (Snapshot (Some d)) st = st.
Proof.
  intros Hne. unfold deliver.
  destruct (subscribed st); [by apply onSnapshot_foreign|done].
Qed.

Lemma waitLoop_skip_foreign deviceId tempId d t before after st :
  Command.tempId d <> Some tempId ->
  t < ENROLLMENT_TIMEOUT ->
  waitLoop deviceId tempId st (before ++ (t, Snapshot (Some d)) :: after)
  = waitLoop deviceId tempId st (before ++ after).
Proof.
  intros Hne Ht. revert st.
  induction before as [|[t' e'] before IH]; intros st; simpl.
  - apply Z.leb_gt in Ht. rewrite Ht. by rewrite deliver_foreign.
  - apply IH.
Qed.

Lemma consistent_finished o : consistent (finished o).
Proof. by split. Qed.

Lemma pending_is_waiting st :
  consistent st -> settled st = None -> st = waiting.
Proof.
  unfold consistent. destruct st as [o armed sub]; simpl.
  intros H ->. by destruct H as [-> ->].
Qed.

Lemma settled_is_finished st o :
  consistent st -> settled st = Some o -> st = finished o.
Proof.
  unfold consistent. destruct st as [o' armed sub]; simpl.
  intros H ->. by destruct H as [-> ->].
Qed.

Lemma onTimeout_waiting : onTimeout waiting = finished (inl timeoutMessage).
Proof. reflexivity. Qed.

(** One step of the loop while the promise is pending. *)
Lemma waitLoop_waiting_cons deviceId tempId t e rest :
  waitLoop deviceId tempId waiting ((t, e) :: rest)
  = if ENROLLMENT_TIMEOUT <=? t then finished (inl timeoutMessage)
    else match settled (deliver deviceId tempId e waiting) with
         | Some o => finished o
         | None => waitLoop deviceId tempId waiting rest
         end.
Proof.
  simpl. destruct (ENROLLMENT_TIMEOUT <=? t).
  - rewrite onTimeout_waiting.
    by rewrite waitLoop_settled with (o := inl timeoutMessage).
  - pose proof (deliver_consistent deviceId tempId e waiting
                  consistent_waiting) as Hc.
    destruct (settled (deliver deviceId tempId e waiting)) as [o|] eqn:Hs.
    + rewrite (settled_is_finished _ o Hc Hs).
      by rewrite waitLoop_settled with (o := o).
    + by rewrite (pending_is_waiting _ Hc Hs).
Qed.

(** What settles a pending promise, seen from one delivery: a listener
    error, or an update that carries the promise's own tempId. *)
Lemma deliver_settles_only_on deviceId tempId e st :
  settled st = None ->
  is_Some (settled (deliver deviceId tempId e st)) ->
  (exists msg, e = ListenerError msg)
  \/ (exists d, e = Snapshot (Some d) /\ Command.tempId d = Some tempId).
Proof.
  intros Hpending Hsettled. destruct e as [[d|]|msg]; [| |by eauto].
  - right. exists d. split; [done|].
    destruct (decide (Command.tempId d = Some tempId)) as [|Hne]; [done|].
    rewrite deliver_foreign, Hpending in Hsettled by done.
    by destruct Hsettled.
  - unfold deliver, onSnapshot in Hsettled.
    destruct (subscribed st); rewrite Hpending in Hsettled;
      by destruct Hsettled.
Qed.

(** What the promise can have settled with, seen from the whole run: its
    own timeout, a listener error, or what a delivered update carrying its
    own tempId makes of a pending promise. *)
Lemma waitLoop_settled_by deviceId tempId events o :
  settled (waitLoop deviceId tempId waiting events) = Some o ->
  o = inl timeoutMessage
  \/ (exists t msg,
         In (t, ListenerError msg) events
         /\ o = inl ("Firebase connection error: " +:+ msg))
  \/ (exists t d,
         In (t, Snapshot (Some d)) events
         /\ Command.tempId d = Some tempId
         /\ settled (deliver deviceId tempId (Snapshot (Some d)) waiting)
            = Some o).
Proof.
  induction events as [|[t e] rest IH].
  - simpl. intros [= <-]. by left.
  - rewrite waitLoop_waiting_cons.
    destruct (ENROLLMENT_TIMEOUT <=? t); [simpl; intros [= <-]; by left|].
    destruct (settled (deliver deviceId tempId e waiting)) as [o'|] eqn:Hs.
    + simpl. intros [= <-].
      destruct (deliver_settles_only_on deviceId tempId e waiting)
        as [[msg ->]|(d & -> & Hd)]; [done|by rewrite Hs|..].
      * right; left. exists t, msg. split; [by left|].
        by simplify_eq/=.
      * right; right. exists t, d. split; [by left|done].
    + intros Ho. destruct (IH Ho) as [?|[(t'&msg&?&?)|(t'&d&?&?&?)]];
        [by left|right; left|right; right].
      * exists t', msg. split; [by right|done].
      * exists t', d. split; [by right|done].
Qed.

(** C2. Correlation isolation. An update delivered to attempt A's listener
    whose tempId is not A's own (it belongs to a concurrent attempt B on the
    same mailbox, or to none) leaves A's promise, timer and listener exactly
    as they were, so it neither resolves nor rejects A; and taking such an
    update out of the stream of deliveries does not change how A ends. What
    does settle the promise of waitForEnrollmentCompletion is its own
    timeout, a listener error, or an update carrying its own tempId. *)
Theorem correlation_isolation deviceId tempIdA (d : Command.t) :
  Command.tempId d <> Some tempIdA ->
  (forall stA, deliver deviceId tempIdA (Snapshot (Some d)) stA = stA)
  /\ (forall stA before after t,
         t < ENROLLMENT_TIMEOUT ->
         waitLoop deviceId tempIdA stA
                  (before ++ (t, Snapshot (Some d)) :: after)
         = waitLoop deviceId tempIdA stA (before ++ after))
  /\ (forall gymId events o,
         settled (waitForEnrollmentCompletion gymId deviceId tempIdA events)
         = Some o ->
         o = inl timeoutMessage
         \/ (exists t msg,
                In (t, ListenerError msg) events
                /\ o = inl ("Firebase connection error: " +:+ msg))
         \/ (exists t d',
                In (t, Snapshot (Some d')) events
                /\ Command.tempId d' = Some tempIdA
                /\ d' <> d
                /\ settled (deliver deviceId tempIdA (Snapshot (Some d'))
                                    waiting) = Some o)).
Proof.
  intros Hforeign. split; [|split].
  - intros stA. by apply deliver_foreign.
  - intros stA before after t Ht. by apply waitLoop_skip_foreign.
  - intros gymId events o Ho.
    destruct (waitLoop_settled_by deviceId tempIdA events o Ho)
      as [?|[?|(t & d' & Hin & Hd' & Hs)]]; [by left|by right; left|].
    right; right. exists t, d'. repeat split; [done..| |done].
    intros ->. by apply Hforeign.
Qed.

(** ** The steps before the wait *)

(** checkDeviceStatus always returns a status and never writes. *)
Lemma checkDeviceStatus_returns env gymId deviceId st :
  exists deviceStatus,
    checkDeviceStatus env gymId deviceId st = (inr deviceStatus, st).
Proof.
  unfold checkDeviceStatus, try_catch, bind, getDoc_device, ret.
  destruct (getDoc_error env); [by eauto|].
  destruct (devices st !! (gymId, deviceId)) as [deviceData|]; [|by eauto].
  repeat case_match; simplify_eq; eauto.
Qed.

Lemma checkDeviceStatus_eq env gymId deviceId st :
  checkDeviceStatus env gymId deviceId st
  = (inr (deviceStatusOf env gymId deviceId st), st).
Proof.
  unfold deviceStatusOf.
  destruct (checkDeviceStatus_returns env gymId deviceId st) as [ds ->].
  done.
Qed.

(** generateGymMemberId always returns an id that starts with FN, and never
    writes. *)
Lemma generateGymMemberId_returns env gymId st :
  exists digits,
    generateGymMemberId env gymId st = (inr ("FN" +:+ digits), st).
Proof.
  unfold generateGymMemberId, try_catch, bind, getDocs_members, ret.
  destruct (getDocs_error env); eauto.
Qed.

(** A call that does not get that far rejects and writes nothing at all. *)
Lemma not_issued_rejects env gymId memberData deviceId events st :
  commandIssued env gymId memberData deviceId st = false ->
  exists msg,
    createMemberAndStartEnrollment env gymId memberData deviceId events st
    = (Rejected (enhancedError env gymId memberData deviceId msg), st).
Proof.
  unfold commandIssued, createMemberAndStartEnrollment, enrollmentSteps.
  unfold bind at 1, lift.
  destruct (validateMemberData memberData) as [msg|[]] eqn:Hv;
    [by eexists|].
  rewrite bool_decide_eq_true_2 by done. simpl.
  unfold bind at 1. rewrite checkDeviceStatus_eq.
  destruct (DeviceStatus.available _) eqn:Hav; simpl; [|by eexists].
  unfold bind at 1.
  assert (exists id, (if Js.truthyString (gymMemberId memberData)
                      then ret (default "" (gymMemberId memberData))
                      else generateGymMemberId env gymId) st = (inr id, st))
    as [id ->].
  { destruct (Js.truthyString _); [by eexists|].
    destruct (generateGymMemberId_returns env gymId st) as [? ->]. eauto. }
  unfold bind at 1, setDoc_command.
  destruct (setDoc_command_error env) as [e|]; [by eexists|done].
Qed.

(** A call that gets that far ends as its wait ends. *)
Lemma issued_run env gymId memberData deviceId events st :
  commandIssued env gymId memberData deviceId st = true ->
  createMemberAndStartEnrollment env gymId memberData deviceId events st
  = let st1 := withCommand env gymId memberData deviceId st in
    let enhancedMemberData :=
      enhance memberData (gymMemberIdOf env gymId memberData st) in
    match settled (waitForEnrollmentCompletion gymId deviceId
                     (tempEnrollmentId env) events) with
    | Some (inr result) =>
        if WaitResult.success result
           && Js.truthyString (Some (WaitResult.fingerprintId result))
        then
          let final :=
            finalMemberData env enhancedMemberData deviceId result in
          match setDoc_member_error env with
          | None =>
              (Resolved
                 {| EnrollmentResult.success := WaitResult.success result;
                    EnrollmentResult.fingerprintId :=
                      WaitResult.fingerprintId result;
                    EnrollmentResult.memberName :=
                      WaitResult.memberName result;
                    EnrollmentResult.enrollmentTime :=
                      WaitResult.enrollmentTime result;
                    EnrollmentResult.deviceId := WaitResult.deviceId result;
                    EnrollmentResult.memberId :=
                      WaitResult.fingerprintId result;
                    EnrollmentResult.gymMemberId :=
                      gymMemberIdOf env gymId memberData st;
                    EnrollmentResult.message :=
                      "Member " +:+ Js.show (Name memberData)
                      +:+ " enrolled successfully with Fingerprint ID: "
                      +:+ WaitResult.fingerprintId result |},
               {| devices := devices st1;
                  commands := commands st1;
                  members :=
                    <[(gymId, WaitResult.fingerprintId result) := final]>
                      (members st1);
                  journal :=
                    journal st1
                    ++ [SetMember gymId (WaitResult.fingerprintId result)
                                  final] |})
          | Some e =>
              (Rejected (enhancedError env gymId memberData deviceId e), st1)
          end
        else
          (Rejected
             (enhancedError env gymId memberData deviceId
                (Js.orElse (Some (WaitResult.message result))
                           "Enrollment failed on the device.")), st1)
    | Some (inl msg) =>
        (Rejected (enhancedError env gymId memberData deviceId msg), st1)
    | None =>
        (Rejected (enhancedError env gymId memberData deviceId "pending"), st1)
    end.
Proof.
  unfold commandIssued. rewrite !andb_true_iff, !bool_decide_eq_true.
  intros [[Hv Hav] Hset].
  unfold createMemberAndStartEnrollment, enrollmentSteps.
  unfold bind at 1, lift. rewrite Hv. simpl.
  unfold bind at 1. rewrite checkDeviceStatus_eq, Hav. simpl.
  unfold bind at 1.
  assert ((if Js.truthyString (gymMemberId memberData)
           then ret (default "" (gymMemberId memberData))
           else generateGymMemberId env gymId) st
          = (inr (gymMemberIdOf env gymId memberData st), st)) as ->.
  { unfold gymMemberIdOf. destruct (Js.truthyString _); [done|].
    by destruct (generateGymMemberId_returns env gymId st) as [? ->]. }
  unfold bind at 1, setDoc_command. rewrite Hset.
  fold (withCommand env gymId memberData deviceId st).
  unfold bind at 1, await.
  destruct (settled _) as [[msg|result]|]; [done| |done].
  unfold ret. cbv zeta.
  destruct (WaitResult.success result && _); [|done].
  unfold bind, setDoc_member.
  by destruct (setDoc_member_error env).
Qed.

(** ** Numbers and their decimal form *)

Lemma digitValue_pretty_N_char (x : N) :
  (x < 10)%N -> Js.digitValue (pretty_N_char x) = Some (Z.of_N x).
Proof.
  intros Hx.
  assert (x = 0 \/ x = 1 \/ x = 2 \/ x = 3 \/ x = 4 \/ x = 5 \/ x = 6
          \/ x = 7 \/ x = 8 \/ x = 9)%N as Hcases by lia.
  by destruct_or!; subst.
Qed.

Lemma leadingDigit_pretty_N_char (x : N) :
  (0 < x < 10)%N -> leadingDigit (pretty_N_char x) = true.
Proof.
  intros Hx.
  assert (x = 1 \/ x = 2 \/ x = 3 \/ x = 4 \/ x = 5 \/ x = 6
          \/ x = 7 \/ x = 8 \/ x = 9)%N as Hcases by lia.
  by destruct_or!; subst.
Qed.

(** The digits of a positive number start with a digit that is not 0. *)
Lemma pretty_N_go_leading (x : N) :
  (0 < x)%N ->
  forall s, exists c rest,
    pretty_N_go x s = String c rest /\ leadingDigit c = true.
Proof.
  induction (N.lt_wf_0 x) as [x _ IH]. intros Hx s.
  rewrite pretty_N_go_step by done.
  destruct (decide (x `div` 10 = 0)%N) as [Hsmall|Hbig].
  - rewrite Hsmall, pretty_N_go_0. eexists _, _. split; [done|].
    apply leadingDigit_pretty_N_char.
    apply N.div_small_iff in Hsmall; [|done].
    rewrite N.mod_small by done. lia.
  - apply IH; [apply N.div_lt; lia|]. apply N.neq_0_lt_0. done.
Qed.

(** Reading the digits of a positive number back gives the number. *)
Lemma parseDigits_pretty_N_go (x : N) :
  (0 < x)%N ->
  exists k : nat, forall acc s,
    Js.parseDigits Js.digitValue 10 acc (pretty_N_go x s)
    = Js.parseDigits Js.digitValue 10
                     (Some (10 ^ Z.of_nat k * default 0 acc + Z.of_N x)) s.
Proof.
  induction (N.lt_wf_0 x) as [x _ IH]. intros Hx.
  assert (Z.of_N x = 10 * Z.of_N (x `div` 10) + Z.of_N (x `mod` 10))
    as Hsplit.
  { rewrite (N.div_mod' x 10) at 1. lia. }
  assert (x `mod` 10 < 10)%N as Hdigit by (by apply N.mod_lt).
  destruct (decide (x `div` 10 = 0)%N) as [Hsmall|Hbig].
  - exists 1%nat. intros acc s.
    rewrite pretty_N_go_step, Hsmall, pretty_N_go_0 by done.
    simpl. rewrite digitValue_pretty_N_char by done.
    rewrite Hsmall in Hsplit. do 2 f_equal. lia.
  - destruct (IH (x `div` 10)%N) as [k Hk];
      [apply N.div_lt; lia|by apply N.neq_0_lt_0|].
    exists (S k). intros acc s.
    rewrite pretty_N_go_step, Hk by done.
    simpl Js.parseDigits. rewrite digitValue_pretty_N_char by done.
    do 2 f_equal. simpl default.
    rewrite Nat2Z.inj_succ, Z.pow_succ_r by lia. lia.
Qed.

Lemma parseInt_leading c rest :
  leadingDigit c = true ->
  Js.parseInt (String c rest)
  = Js.parseDigits Js.digitValue 10 None (String c rest)
  /\ Js.parseUnsigned (String c rest)
     = Js.parseDigits Js.digitValue 10 None (String c rest).
Proof.
  destruct c as [[] [] [] [] [] [] [] []]; try discriminate; by intros _.
Qed.

(** parseInt undoes toString on every integer. *)
Lemma parseInt_numberToString (n : Z) :
  Js.parseInt (Js.numberToString n) = Some n.
Proof.
  unfold Js.numberToString, pretty, pretty_Z.
  assert (forall p : positive,
             exists c rest,
               pretty p = String c rest /\ leadingDigit c = true
               /\ Js.parseDigits Js.digitValue 10 None (pretty p)
                  = Some (Z.pos p)) as Hpos.
  { intros p. unfold pretty, pretty_positive, pretty, pretty_N.
    rewrite decide_False by done.
    destruct (pretty_N_go_leading (N.pos p) eq_refl "") as (c & rest & E & Hc).
    exists c, rest. split; [done|]. split; [done|].
    destruct (parseDigits_pretty_N_go (N.pos p) eq_refl) as [k Hk].
    rewrite Hk. simpl. f_equal. lia. }
  destruct n as [|p|p].
  - reflexivity.
  - destruct (Hpos p) as (c & rest & E & Hc & Hp).
    rewrite E in *. by rewrite (proj1 (parseInt_leading c rest Hc)).
  - destruct (Hpos p) as (c & rest & E & Hc & Hp).
    change (Js.parseInt ("-" +:+ pretty p))
      with (Z.opp <$> Js.parseUnsigned (pretty p)).
    rewrite E in *. by rewrite (proj2 (parseInt_leading c rest Hc)), Hp.
Qed.

(** The decimal form of a number is not empty and does not start with F. *)
Lemma numberToString_not_FN (n : Z) rest :
  Js.numberToString n <> "FN" +:+ rest.
Proof.
  intros E. pose proof (parseInt_numberToString n) as Hn.
  by rewrite E in Hn.
Qed.

Lemma numberToString_truthy (n : Z) :
  Js.truthyString (Some (Js.numberToString n)) = true.
Proof.
  pose proof (parseInt_numberToString n) as Hn.
  by destruct (Js.numberToString n).
Qed.

(** ** The timeout *)

Lemma deliver_uneventful deviceId tempId e st :
  uneventful tempId e -> deliver deviceId tempId e st = st.
Proof.
  unfold deliver. destruct (subscribed st); [|done].
  destruct e as [[d|]|msg]; simpl; [|done..].
  unfold terminalStatus. intros Hquiet.
  repeat case_bool_decide; try done; simpl;
    try (destruct (Js.truthyNumber _); try done); naive_solver.
Qed.

Lemma waitLoop_times_out deviceId tempId events :
  Forall (uneventful tempId) (dueBeforeTimeout events) ->
  waitLoop deviceId tempId waiting events = finished (inl timeoutMessage).
Proof.
  induction events as [|[t e] rest IH]; [done|].
  rewrite waitLoop_waiting_cons. simpl.
  destruct (ENROLLMENT_TIMEOUT <=? t); [done|].
  intros [He Hrest]%Forall_cons.
  rewrite deliver_uneventful by done. simpl. by apply IH.
Qed.

Lemma getErrorType_timeout : getErrorType timeoutMessage = "timeout".
Proof. reflexivity. Qed.

(** C6. Timeout. Once the command is issued, if nothing that is delivered
    before the 180000 ms timer is a listener error or an update with the
    attempt's tempId and a terminal status, the call rejects with the
    timeout error (type timeout), the listener is closed, and the only write
    the call has made is the command itself: the mailbox document is left
    as it was issued, status pending, and no member is written. *)
Theorem enrollment_times_out env gymId memberData deviceId events st :
  commandIssued env gymId memberData deviceId st = true ->
  Forall (uneventful (tempEnrollmentId env)) (dueBeforeTimeout events) ->
  let wait :=
    waitForEnrollmentCompletion gymId deviceId (tempEnrollmentId env) events in
  let run :=
    createMemberAndStartEnrollment env gymId memberData deviceId events st in
  settled wait = Some (inl timeoutMessage)
  /\ subscribed wait = false
  /\ run.1 = Rejected (enhancedError env gymId memberData deviceId
                                     timeoutMessage)
  /\ EnhancedError.type
       (enhancedError env gymId memberData deviceId timeoutMessage)
     = "timeout"
  /\ journal run.2
     = journal st
       ++ [SetCommand gymId deviceId (enrollmentCommand env memberData)]
  /\ commands run.2 !! (gymId, deviceId)
     = Some (enrollmentCommand env memberData)
  /\ Command.status (enrollmentCommand env memberData) = Some "pending"
  /\ members run.2 = members st.
Proof.
  intros Hissued Hquiet wait run. subst wait run.
  rewrite issued_run by done. cbv zeta.
  unfold waitForEnrollmentCompletion.
  rewrite waitLoop_times_out by done. simpl.
  repeat split. by rewrite lookup_insert_eq.
Qed.

(** ** Cancellation *)

Lemma waitLoop_stillWaiting deviceId tempId before rest :
  stillWaiting deviceId tempId before ->
  waitLoop deviceId tempId waiting (before ++ rest)
  = waitLoop deviceId tempId waiting rest.
Proof.
  induction before as [|[t e] before IH]; [done|].
  intros [[Ht He] Hbefore]%Forall_cons. simpl in Ht, He.
  rewrite <-app_comm_cons, waitLoop_waiting_cons.
  apply Z.leb_gt in Ht. rewrite Ht, He. by apply IH.
Qed.

(** Deliveries that do not settle the promise leave the wait as it began:
    pending, timer armed, listener open. *)
Lemma waitAfter_stillWaiting deviceId tempId before :
  stillWaiting deviceId tempId before ->
  waitAfter deviceId tempId waiting before = waiting.
Proof.
  induction before as [|[t e] before IH]; [done|].
  intros [[Ht He] Hbefore]%Forall_cons. simpl in Ht, He. simpl.
  apply Z.leb_gt in Ht. rewrite Ht.
  rewrite (pending_is_waiting (deliver deviceId tempId e waiting));
    [by apply IH| |done].
  apply deliver_consistent, consistent_waiting.
Qed.

Lemma cancelEnrollment_writes serverTime gymId deviceId st d :
  commands st !! (gymId, deviceId) = Some d ->
  cancelEnrollment None serverTime gymId deviceId st
  = (inr tt,
     {| devices := devices st;
        commands := <[(gymId, deviceId) := cancelled serverTime d]> (commands st);
        members := members st;
        journal :=
          journal st
          ++ [UpdateCommand gymId deviceId (cancelled serverTime d)] |}).
Proof.
  intros Hd. unfold cancelEnrollment, try_catch, updateDoc_command.
  by rewrite Hd.
Qed.

Lemma deliver_cancelled deviceId tempId serverTime d :
  Command.tempId d = Some tempId ->
  deliver deviceId tempId (Snapshot (Some (cancelled serverTime d))) waiting
  = finished (inl "Enrollment was cancelled").
Proof.
  intros Hd. unfold deliver, onSnapshot. simpl.
  by rewrite bool_decide_eq_true_2.
Qed.

(** C8. Cancellation. cancelEnrollment puts status cancelled into the
    device's mailbox document and keeps its tempId (and every other field
    but the timestamp and cancelledBy). An attempt whose tempId is the
    mailbox's is still in flight, its timer armed and its listener open,
    when this document is delivered to it; the delivery itself rejects the
    promise with the cancellation error, clears the timer and closes the
    listener, before the timer could run or anything else arrives. The
    call then rejects with that error (type user_cancelled), whatever is
    delivered afterwards, and writes no member. *)
Theorem cancel_rejects_in_flight
        serverTime gymId deviceId (st : Store) (d : Command.t)
        env memberData before t after (st0 : Store) :
  commands st !! (gymId, deviceId) = Some d ->
  Command.tempId d = Some (tempEnrollmentId env) ->
  commandIssued env gymId memberData deviceId st0 = true ->
  stillWaiting deviceId (tempEnrollmentId env) before ->
  t < ENROLLMENT_TIMEOUT ->
  exists d' st',
    cancelEnrollment None serverTime gymId deviceId st = (inr tt, st')
    /\ commands st' = <[(gymId, deviceId) := d']> (commands st)
    /\ members st' = members st
    /\ Command.status d' = Some "cancelled"
    /\ Command.tempId d' = Command.tempId d
    /\ Command.fingerprintId d' = Command.fingerprintId d
    /\ Command.memberName d' = Command.memberName d
    /\ let events := before ++ (t, Snapshot (Some d')) :: after in
       let inFlight :=
         waitAfter deviceId (tempEnrollmentId env) waiting before in
       let afterCancel :=
         waitAfter deviceId (tempEnrollmentId env) waiting
                   (before ++ [(t, Snapshot (Some d'))]) in
       let wait :=
         waitForEnrollmentCompletion gymId deviceId (tempEnrollmentId env)
                                     events in
       let run :=
         createMemberAndStartEnrollment env gymId memberData deviceId
                                        events st0 in
       inFlight = waiting
       /\ afterCancel
          = {| settled := Some (inl "Enrollment was cancelled");
               timeout_armed := false;
               subscribed := false |}
       /\ settled wait = Some (inl "Enrollment was cancelled")
       /\ timeout_armed wait = false
       /\ subscribed wait = false
       /\ run.1 = Rejected (enhancedError env gymId memberData deviceId
                                          "Enrollment was cancelled")
       /\ EnhancedError.type
            (enhancedError env gymId memberData deviceId
                           "Enrollment was cancelled") = "user_cancelled"
       /\ members run.2 = members st0.
Proof.
  intros Hd Htemp Hissued Hbefore Ht.
  eexists (cancelled serverTime d), _.
  split; [by apply cancelEnrollment_writes|].
  do 6 (split; [done|]). cbv zeta.
  split; [by apply waitAfter_stillWaiting|].
  split.
  { rewrite waitAfter_app, waitAfter_stillWaiting by done. simpl.
    apply Z.leb_gt in Ht. rewrite Ht. by rewrite deliver_cancelled. }
  rewrite issued_run by done. cbv zeta.
  unfold waitForEnrollmentCompletion.
  rewrite waitLoop_stillWaiting, waitLoop_waiting_cons by done.
  apply Z.leb_gt in Ht. rewrite Ht.
  rewrite deliver_cancelled by done. simpl.
  repeat split.
Qed.

(** ** The availability gate *)

(** When the device's document can be read, the device passes the gate
    exactly when the document exists, says online, and does not carry a
    last_seen older than 120000 ms. A document without last_seen passes. *)
Lemma available_iff env gymId deviceId st :
  getDoc_error env = None ->
  DeviceStatus.available (deviceStatusOf env gymId deviceId st) = true
  <-> exists deviceData,
        devices st !! (gymId, deviceId) = Some deviceData
        /\ Device.status deviceData = Some "online"
        /\ forall seen, Device.last_seen deviceData = Some seen ->
                        now_checkDevice env - seen <= OFFLINE_AFTER.
Proof.
  intros Hread.
  unfold deviceStatusOf, checkDeviceStatus, try_catch, bind, getDoc_device.
  rewrite Hread.
  destruct (devices st !! (gymId, deviceId)) as [deviceData|];
    [|simpl; split; [done|by intros (? & ? & _)]].
  destruct (Device.last_seen deviceData) as [seen|] eqn:Hseen; simpl.
  - destruct (OFFLINE_AFTER <? now_checkDevice env - seen) eqn:Hlate; simpl.
    + apply Z.ltb_lt in Hlate. split; [done|].
      intros (? & [= <-] & _ & Hle). specialize (Hle _ Hseen). lia.
    + apply Z.ltb_ge in Hlate.
      case_bool_decide as Honline; simpl; split; try done.
      * intros _. exists deviceData. rewrite Hseen.
        repeat split; [done|]. by intros ? [= <-].
      * by intros (? & [= <-] & ? & _).
  - case_bool_decide as Honline; simpl; split; try done.
    + intros _. exists deviceData. rewrite Hseen. by repeat split.
    + by intros (? & [= <-] & ? & _).
Qed.

(** When the read fails the device does not pass. *)
Lemma unreadable_unavailable env gymId deviceId st msg :
  getDoc_error env = Some msg ->
  DeviceStatus.available (deviceStatusOf env gymId deviceId st) = false.
Proof.
  intros Hread.
  unfold deviceStatusOf, checkDeviceStatus, try_catch, bind, getDoc_device.
  by rewrite Hread.
Qed.

(** A valid request for a device that does not pass the gate is rejected
    with the not-available error, and nothing is written. *)
Lemma unavailable_rejects env gymId memberData deviceId events st :
  validateMemberData memberData = inr tt ->
  DeviceStatus.available (deviceStatusOf env gymId deviceId st) = false ->
  createMemberAndStartEnrollment env gymId memberData deviceId events st
  = (Rejected
       (enhancedError env gymId memberData deviceId
          ("Device " +:+ deviceId +:+ " is not available: "
           +:+ DeviceStatus.reason (deviceStatusOf env gymId deviceId st))),
     st).
Proof.
  intros Hv Hav.
  unfold createMemberAndStartEnrollment, enrollmentSteps.
  unfold bind at 1, lift. rewrite Hv. simpl.
  unfold bind at 1. by rewrite checkDeviceStatus_eq, Hav.
Qed.

(** An invalid request is rejected with validation's error before the
    device is looked at, and nothing is written. *)
Lemma invalid_rejects env gymId memberData deviceId events st msg :
  validateMemberData memberData = inl msg ->
  createMemberAndStartEnrollment env gymId memberData deviceId events st
  = (Rejected (enhancedError env gymId memberData deviceId msg), st).
Proof.
  intros Hv.
  unfold createMemberAndStartEnrollment, enrollmentSteps.
  unfold bind at 1, lift. by rewrite Hv.
Qed.

(** Every issued call has the command as its first write. *)
Lemma issued_writes_command env gymId memberData deviceId events st :
  commandIssued env gymId memberData deviceId st = true ->
  let run :=
    createMemberAndStartEnrollment env gymId memberData deviceId events st in
  (exists more,
      journal run.2
      = journal st
        ++ SetCommand gymId deviceId (enrollmentCommand env memberData) :: more)
  /\ commands run.2 !! (gymId, deviceId)
     = Some (enrollmentCommand env memberData).
Proof.
  intros Hissued. cbv zeta. rewrite issued_run by done. cbv zeta.
  repeat case_match; simpl; rewrite ?lookup_insert_eq;
    (split; [|done]); try (by exists []).
  eexists [_]. by rewrite <-app_assoc.
Qed.

(** C10. A device whose document exists with status online and without any
    last_seen passes checkDeviceStatus (available: true), so a valid
    request goes on to write the enrollment command into the mailbox of a
    device that has never reported a heartbeat. *)
Theorem no_heartbeat_is_available
        env gymId deviceId (st : Store) (deviceData : Device.t)
        memberData events :
  getDoc_error env = None ->
  devices st !! (gymId, deviceId) = Some deviceData ->
  Device.status deviceData = Some "online" ->
  Device.last_seen deviceData = None ->
  validateMemberData memberData = inr tt ->
  setDoc_command_error env = None ->
  (exists deviceStatus,
      checkDeviceStatus env gymId deviceId st = (inr deviceStatus, st)
      /\ DeviceStatus.available deviceStatus = true
      /\ DeviceStatus.reason deviceStatus = "Device is online and ready")
  /\ let run :=
       createMemberAndStartEnrollment env gymId memberData deviceId events st
     in
     (exists more,
         journal run.2
         = journal st
           ++ SetCommand gymId deviceId (enrollmentCommand env memberData)
              :: more)
     /\ commands run.2 !! (gymId, deviceId)
        = Some (enrollmentCommand env memberData).
Proof.
  intros Hread Hdoc Hstatus Hseen Hvalid Hset.
  assert (checkDeviceStatus env gymId deviceId st
          = (inr {| DeviceStatus.available := true;
                    DeviceStatus.reason := "Device is online and ready";
                    DeviceStatus.deviceInfo :=
                      Some {| DeviceInfo.location := Device.location deviceData;
                              DeviceInfo.version := Device.version deviceData;
                              DeviceInfo.capabilities :=
                                Device.capabilities deviceData;
                              DeviceInfo.uptime :=
                                Device.uptime_seconds deviceData |} |}, st))
    as Hcheck.
  { unfold checkDeviceStatus, try_catch, bind, getDoc_device.
    by rewrite Hread, Hdoc, Hseen, Hstatus. }
  split; [by eexists|].
  apply issued_writes_command.
  unfold commandIssued, deviceStatusOf. by rewrite Hcheck, Hvalid, Hset.
Qed.

(** ** Validation *)

Lemma trim_empty_string : Js.trim "" = "".
Proof. reflexivity. Qed.

Lemma name_present_iff (name : option string) :
  negb (Js.truthyString name) || bool_decide (Js.trim (default "" name) = "")
  = false
  <-> exists name', name = Some name' /\ Js.trim name' <> "".
Proof.
  destruct name as [[|c name]|]; simpl.
  - split; [done|]. by intros (? & [= <-] & ?).
  - case_bool_decide as Htrim; split; try done.
    + by intros (? & [= <-] & ?).
    + intros _. by eexists.
  - split; [done|]. by intros (? & ? & _).
Qed.

Lemma age_in_range_iff (q : Q) :
  Js.lessThan (Js.Finite q) (Js.integer 1)
  || Js.lessThan (Js.integer 120) (Js.Finite q) = false
  <-> (1 <= q <= 120)%Q.
Proof.
  unfold Js.lessThan, Js.integer.
  rewrite orb_false_iff, !negb_false_iff, !Qle_bool_iff. reflexivity.
Qed.

Lemma age_check_iff memberData :
  ageTruthy (Age memberData)
  && from_option (fun a => Js.lessThan (ageToNumber a) (Js.integer 1)
                           || Js.lessThan (Js.integer 120) (ageToNumber a))
                 false (Age memberData) = false
  <-> ageAccepted memberData.
Proof.
  unfold ageAccepted.
  destruct (Age memberData) as [[x|x]|];
    cbn [ageTruthy from_option ageToNumber]; [| |done].
  - destruct x as [|[|]|q]; [done..|]. cbn [Js.truthy].
    destruct (Qeq_bool q 0) eqn:Hzero; cbn [negb andb].
    + apply Qeq_bool_iff in Hzero. split; [|done].
      intros _. right. split; [done|]. by eexists.
    + rewrite age_in_range_iff. split; [by left|].
      intros [Hin|[Hq _]]; [done|].
      apply Qeq_bool_iff in Hq. congruence.
  - destruct x as [|[|]|q]; [done..|]. cbn [andb].
    rewrite age_in_range_iff. split; [by left|].
    by intros [Hin|[_ [x [=]]]].
Qed.

Lemma phone_check_iff memberData :
  Js.truthyString (Phone_Number memberData)
  && negb (phonePattern (default "" (Phone_Number memberData))) = false
  <-> phoneAccepted memberData.
Proof.
  unfold phoneAccepted.
  destruct (Phone_Number memberData) as [[|c phone]|]; simpl; [done| |done].
  by rewrite negb_false_iff.
Qed.

(** What validateMemberData lets through. *)
Lemma validateMemberData_accepts_iff memberData :
  validateMemberData memberData = inr tt
  <-> nameAccepted memberData /\ ageAccepted memberData
      /\ phoneAccepted memberData.
Proof.
  rewrite <-age_check_iff, <-phone_check_iff.
  unfold validateMemberData, nameAccepted.
  change (textField memberData) with (textField memberData).
  simpl List.filter. unfold textField. simpl bool_decide. cbv iota.
  pose proof (name_present_iff (Name memberData)) as Hname.
  destruct (negb _ || _).
  { simpl. split; [done|]. intros [(name & Hn & Htrim & _) _].
    destruct Hname as [_ Hname]. by discriminate Hname; eauto. }
  destruct Hname as [(name & Hn & Htrim) _]; [done|].
  rewrite Hn. simpl.
  destruct (String.length name <? 2)%nat eqn:Hshort.
  { apply Nat.ltb_lt in Hshort. split; [done|].
    intros [(? & [= <-] & _ & ?) _]. lia. }
  apply Nat.ltb_ge in Hshort.
  destruct (50 <? String.length name)%nat eqn:Hlong.
  { apply Nat.ltb_lt in Hlong. split; [done|].
    intros [(? & [= <-] & _ & ?) _]. lia. }
  apply Nat.ltb_ge in Hlong.
  destruct (ageTruthy _ && _); [split; [done|by intros (_ & ? & _)]|].
  destruct (Js.truthyString _ && _); [split; [done|by intros (_ & _ & ?)]|].
  split; [|done]. intros _. split; [|done]. by exists name.
Qed.

(** ** What the listener observes, and when the wait resolves *)

Lemma observedFrom_closed deviceId tempId events st o :
  settled st = Some o -> consistent st ->
  observedFrom deviceId tempId st events = [].
Proof.
  intros Ho Hst. induction events as [|[t e] rest IH]; [done|]. simpl.
  destruct (ENROLLMENT_TIMEOUT <=? t);
    rewrite ?(onTimeout_settled st o) by done;
    rewrite (deliver_settled _ _ _ st o) by done;
    rewrite IH; unfold consistent in Hst; rewrite Ho in Hst;
    by destruct Hst as [_ ->].
Qed.

Lemma observedFrom_waiting_cons deviceId tempId t e rest :
  observedFrom deviceId tempId waiting ((t, e) :: rest)
  = if ENROLLMENT_TIMEOUT <=? t then []
    else match e with
         | Snapshot (Some d) => [d]
         | _ => []
         end
         ++ match settled (deliver deviceId tempId e waiting) with
            | Some _ => []
            | None => observedFrom deviceId tempId waiting rest
            end.
Proof.
  simpl. destruct (ENROLLMENT_TIMEOUT <=? t).
  - rewrite onTimeout_waiting. simpl.
    by rewrite observedFrom_closed with (o := inl timeoutMessage).
  - f_equal.
    pose proof (deliver_consistent deviceId tempId e waiting
                  consistent_waiting) as Hc.
    destruct (settled (deliver deviceId tempId e waiting)) as [o|] eqn:Hs.
    + by rewrite observedFrom_closed with (o := o).
    + by rewrite (pending_is_waiting _ Hc Hs).
Qed.

Lemma deliver_completedWithId deviceId tempId d :
  completedWithId tempId d ->
  deliver deviceId tempId (Snapshot (Some d)) waiting
  = finished (inr (resultOf deviceId d)).
Proof.
  intros (Htemp & Hstatus & fid & Hfid & Hnz).
  unfold deliver, onSnapshot, resultOf. simpl.
  rewrite !bool_decide_eq_true_2 by done. rewrite Hfid. simpl.
  apply Z.eqb_neq in Hnz. by rewrite Hnz.
Qed.

Lemma deliver_resolves deviceId tempId e r :
  settled (deliver deviceId tempId e waiting) = Some (inr r) ->
  exists d, e = Snapshot (Some d) /\ completedWithId tempId d
            /\ r = resultOf deviceId d.
Proof.
  destruct e as [[d|]|msg]; [|done..].
  unfold deliver, onSnapshot. simpl.
  case_bool_decide as Htemp; [|done].
  case_bool_decide as Hstatus; simpl.
  - destruct (Command.fingerprintId d) as [fid|] eqn:Hfid; simpl.
    + destruct (Z.eqb_spec fid 0) as [->|Hnz]; simpl.
      * repeat case_bool_decide; done.
      * intros [= <-]. exists d. split; [done|]. split.
        -- split; [done|]. split; [done|]. by exists fid.
        -- unfold resultOf. by rewrite Hfid.
    + repeat case_bool_decide; done.
  - repeat case_bool_decide; done.
Qed.

(** The wait resolves exactly when the listener has observed such an
    update, and then with the result made from it. *)
Lemma wait_resolves_iff deviceId tempId events r :
  settled (waitLoop deviceId tempId waiting events) = Some (inr r)
  <-> exists d, In d (observedFrom deviceId tempId waiting events)
                /\ completedWithId tempId d /\ r = resultOf deviceId d.
Proof.
  induction events as [|[t e] rest IH].
  - simpl. split; [done|]. by intros (? & [] & _).
  - rewrite waitLoop_waiting_cons, observedFrom_waiting_cons.
    destruct (ENROLLMENT_TIMEOUT <=? t).
    { simpl. split; [done|]. by intros (? & [] & _). }
    destruct (settled (deliver deviceId tempId e waiting)) as [o|] eqn:Hs.
    + rewrite app_nil_r. simpl. split.
      * intros [= ->].
        destruct (deliver_resolves _ _ _ _ Hs) as (d & -> & Hd & ->).
        exists d. split; [by left|done].
      * intros (d & Hin & Hd & ->).
        destruct e as [[d'|]|msg]; try (by destruct Hin).
        destruct Hin as [->|[]].
        rewrite deliver_completedWithId in Hs by done.
        by simplify_eq/=.
    + rewrite IH. split.
      * intros (d & Hin & Hd). exists d. split; [|done].
        apply in_or_app. by right.
      * intros (d & Hin & Hd & ->). exists d. split; [|done].
        apply in_app_or in Hin as [Hin|Hin]; [|done].
        destruct e as [[d'|]|msg]; try (by destruct Hin).
        destruct Hin as [->|[]].
        rewrite deliver_completedWithId in Hs by done. done.
Qed.

(** ** Finalization *)

Lemma callWrites_app st st' more :
  journal st' = journal st ++ more -> callWrites st st' = more.
Proof. unfold callWrites. intros ->. by rewrite drop_app_length. Qed.

(** How every call ends: it is rejected before any write; or it is
    rejected after the command, its only write; or its listener has seen
    the completed update with an id, the member write is accepted, and it
    resolves. *)
Lemma run_cases env gymId memberData deviceId events st :
  let run :=
    createMemberAndStartEnrollment env gymId memberData deviceId events st in
  let tempId := tempEnrollmentId env in
  (commandIssued env gymId memberData deviceId st = false
   /\ exists msg,
       run = (Rejected (enhancedError env gymId memberData deviceId msg), st))
  \/ (commandIssued env gymId memberData deviceId st = true
      /\ (exists msg,
             run = (Rejected (enhancedError env gymId memberData deviceId msg),
                    withCommand env gymId memberData deviceId st))
      /\ ~ (setDoc_member_error env = None
            /\ exists d, In d (observedFrom deviceId tempId waiting events)
                         /\ completedWithId tempId d))
  \/ (commandIssued env gymId memberData deviceId st = true
      /\ setDoc_member_error env = None
      /\ exists d result,
          In d (observedFrom deviceId tempId waiting events)
          /\ completedWithId tempId d
          /\ settled (waitForEnrollmentCompletion gymId deviceId tempId events)
             = Some (inr (resultOf deviceId d))
          /\ run.1 = Resolved result
          /\ devices run.2 = devices st
          /\ commands run.2
             = <[(gymId, deviceId) := enrollmentCommand env memberData]>
                 (commands st)
          /\ members run.2
             = <[(gymId, WaitResult.fingerprintId (resultOf deviceId d))
                 := finalMemberData env
                      (enhance memberData
                               (gymMemberIdOf env gymId memberData st))
                      deviceId (resultOf deviceId d)]> (members st)
          /\ journal run.2
             = journal st
               ++ [SetCommand gymId deviceId (enrollmentCommand env memberData);
                   SetMember gymId
                     (WaitResult.fingerprintId (resultOf deviceId d))
                     (finalMemberData env
                        (enhance memberData
                                 (gymMemberIdOf env gymId memberData st))
                        deviceId (resultOf deviceId d))]
          /\ EnrollmentResult.success result = true
          /\ EnrollmentResult.fingerprintId result
             = WaitResult.fingerprintId (resultOf deviceId d)
          /\ EnrollmentResult.memberId result
             = WaitResult.fingerprintId (resultOf deviceId d)
          /\ EnrollmentResult.gymMemberId result
             = gymMemberIdOf env gymId memberData st).
Proof.
  cbv zeta.
  destruct (commandIssued env gymId memberData deviceId st) eqn:Hissued.
  2: { left. split; [done|]. by apply not_issued_rejects. }
  right. rewrite issued_run by done. cbv zeta.
  unfold waitForEnrollmentCompletion.
  destruct (waitLoop_settles deviceId (tempEnrollmentId env) events waiting
              consistent_waiting) as [[msg|r] Ho]; rewrite Ho.
  - left. split; [done|]. split; [by eexists|].
    intros (_ & d & Hin & Hd).
    assert (settled (waitLoop deviceId (tempEnrollmentId env) waiting events)
            = Some (inr (resultOf deviceId d))) as Hr
      by (apply wait_resolves_iff; eauto).
    congruence.
  - pose proof Ho as Hr.
    apply wait_resolves_iff in Hr as (d & Hin & Hd & ->).
    assert (Js.truthyString
              (Some (WaitResult.fingerprintId (resultOf deviceId d))) = true)
      as -> by apply numberToString_truthy.
    cbn [WaitResult.success resultOf andb].
    destruct (setDoc_member_error env) as [e|] eqn:Hmember.
    + left. split; [done|]. split; [by eexists|]. by intros [? _].
    + right. split; [done|]. split; [done|].
      eexists d, _. split; [done|]. split; [done|]. split; [done|].
      split; [done|]. simpl. rewrite <-app_assoc. by repeat split.
Qed.

(** When the code writes a member. A call writes a Member document exactly
    when its own listener has observed an update with the attempt's tempId,
    status completed and a fingerprint id that JavaScript takes for present
    (a number other than 0), and the store accepts the write; it then
    resolves. Every call that is rejected (validation, device not
    available, failed, cancelled, timeout, listener error, a completed
    update whose id is missing or 0) has written no member and leaves the
    members collection as it was. *)
Theorem finalize_iff_completed env gymId memberData deviceId events st :
  let run :=
    createMemberAndStartEnrollment env gymId memberData deviceId events st in
  (memberPersisted gymId st run.2
   <-> setDoc_member_error env = None
       /\ exists d,
           In d (subscriptionObserved env gymId memberData deviceId events st)
           /\ completedWithId (tempEnrollmentId env) d)
  /\ (memberPersisted gymId st run.2 -> exists result, run.1 = Resolved result)
  /\ (forall error,
         run.1 = Rejected error ->
         ~ memberPersisted gymId st run.2 /\ members run.2 = members st).
Proof.
  cbv zeta. unfold subscriptionObserved, observed, memberPersisted.
  destruct (run_cases env gymId memberData deviceId events st)
    as [[Hissued [msg Hrun]]
       |[(Hissued & [msg Hrun] & Hnot)
        |(Hissued & Hmember & d & result & Hin & Hd & _ & Hres & _ & _
          & Hmembers & Hjournal & _)]];
    rewrite Hissued.
  - rewrite Hrun. simpl.
    rewrite (callWrites_app st st []) by (by rewrite app_nil_r).
    split; [split|split].
    + by intros (? & ? & []).
    + by intros (_ & ? & [] & _).
    + by intros (? & ? & []).
    + intros error _. split; [|done]. by intros (? & ? & []).
  - rewrite Hrun. simpl.
    rewrite (callWrites_app st _ [SetCommand gymId deviceId
                                    (enrollmentCommand env memberData)])
      by done.
    split; [split|split].
    + by intros (? & ? & [|[]]).
    + intros H. by destruct Hnot.
    + by intros (? & ? & [|[]]).
    + intros error _. split; [|done]. by intros (? & ? & [|[]]).
  - rewrite (callWrites_app _ _ _ Hjournal).
    split; [split|split].
    + intros _. split; [done|]. by exists d.
    + intros _. eexists _, _. right. by left.
    + intros _. by exists result.
    + intros error Herr. congruence.
Qed.

(** What the code writes then. When the attempt's listener observes an
    update with its tempId, status completed and a fingerprint id that is a
    safe integer other than 0, and the store accepts the member write, the
    call writes the Member document under the decimal form of that id as
    its key, with the id itself as the number in its fingerprintId field,
    and resolves with success and a memberId equal to that decimal form. *)
Theorem completed_update_finalizes
        env gymId memberData deviceId events st (d : Command.t) (fid : Z) :
  commandIssued env gymId memberData deviceId st = true ->
  In d (observed gymId deviceId (tempEnrollmentId env) events) ->
  Command.tempId d = Some (tempEnrollmentId env) ->
  Command.status d = Some "completed" ->
  Command.fingerprintId d = Some fid ->
  fid <> 0 ->
  Js.isSafeInteger fid = true ->
  setDoc_member_error env = None ->
  let run :=
    createMemberAndStartEnrollment env gymId memberData deviceId events st in
  exists result doc,
    run.1 = Resolved result
    /\ members run.2
       = <[(gymId, Js.numberToString fid) := doc]> (members st)
    /\ In (SetMember gymId (Js.numberToString fid) doc) (callWrites st run.2)
    /\ Member.fingerprintId doc = Some fid
    /\ Member.id doc = Js.numberToString fid
    /\ Member.data doc
       = enhance memberData (gymMemberIdOf env gymId memberData st)
    /\ Member.enrolledBy doc = deviceId
    /\ EnrollmentResult.success result = true
    /\ EnrollmentResult.memberId result = Js.numberToString fid
    /\ EnrollmentResult.fingerprintId result = Js.numberToString fid.
Proof.
  intros Hissued Hin Htemp Hstatus Hfid Hnz _ Hmember. cbv zeta.
  assert (completedWithId (tempEnrollmentId env) d) as Hd
    by (split; [done|]; split; [done|]; by exists fid).
  assert (settled (waitForEnrollmentCompletion gymId deviceId
                     (tempEnrollmentId env) events)
          = Some (inr (resultOf deviceId d))) as Hwait
    by (apply wait_resolves_iff; eauto).
  assert (WaitResult.fingerprintId (resultOf deviceId d)
          = Js.numberToString fid) as Hkey
    by (unfold resultOf; by rewrite Hfid).
  destruct (run_cases env gymId memberData deviceId events st)
    as [[Hno _]
       |[(_ & _ & Hnot)
        |(_ & _ & d' & result & _ & _ & Hwait' & Hres & _ & _
          & Hmembers & Hjournal & Hsuccess & Hrfid & Hrid & _)]].
  - congruence.
  - destruct Hnot. split; [done|]. by exists d.
  - assert (resultOf deviceId d' = resultOf deviceId d) as Hsame
      by congruence.
    rewrite Hsame in *. rewrite Hkey in *.
    eexists result, _. split; [done|]. split; [done|].
    rewrite (callWrites_app _ _ _ Hjournal).
    split; [right; by left|].
    cbn [finalMemberData Member.fingerprintId Member.id Member.data
         Member.enrolledBy].
    rewrite Hkey, parseInt_numberToString. by repeat split.
Qed.

(** The two forms of a generated id. *)
Lemma generateGymMemberId_forms env gymId st :
  (generateGymMemberId env gymId st).1
  = inr ("FN" +:+ Js.padStart 3 "0"
                    (Js.numberToString
                       (Z.of_nat (size (membersOf gymId st)) + 1)))
  \/ (generateGymMemberId env gymId st).1
     = inr ("FN" +:+ Js.slice (-6) (Js.numberToString (now_generateId env))).
Proof.
  unfold generateGymMemberId, try_catch, bind, getDocs_members, ret.
  destruct (getDocs_error env); [by right|by left].
Qed.

Lemma observedFrom_In deviceId tempId events st d :
  In d (observedFrom deviceId tempId st events) ->
  exists t, In (t, Snapshot (Some d)) events.
Proof.
  revert st. induction events as [|[t e] rest IH]; intros st; [done|].
  simpl. intros [Hhere|Hlater]%in_app_or.
  - destruct (subscribed _); [|done].
    destruct e as [[d'|]|msg]; try done.
    destruct Hhere as [->|[]]. exists t. by left.
  - destruct (IH _ Hlater) as [t' Hin]. exists t'. by right.
Qed.

Lemma safeIds_In events t d fid :
  safeIds events ->
  In (t, Snapshot (Some d)) events ->
  Command.fingerprintId d = Some fid ->
  Js.isSafeInteger fid = true.
Proof.
  intros Hsafe Hin Hfid. unfold safeIds in Hsafe.
  rewrite List.Forall_forall in Hsafe. specialize (Hsafe _ Hin).
  simpl in Hsafe. by rewrite Hfid in Hsafe.
Qed.

(** C9 (amended). The member of a successful enrollment is stored under
    the string form of the fingerprint id the device assigned, which is
    also the record's id and the memberId the call resolves with, and it
    carries the gymMemberId the call resolves with. When the caller
    supplies no gymMemberId (none, or an empty one), that is a generated
    one, FN followed by the zero-padded member count or by the last six
    digits of the clock, and it is never the string form of the
    fingerprint id (nor the decimal form of any number). When the caller
    supplies one, it is stored as given, whatever the fingerprint id is.
    Where the device's ids are safe integers, the string form is the
    decimal one and the record's fingerprintId field holds the id. *)
Theorem generated_gymMemberId_differs
        env gymId memberData deviceId events st result :
  (createMemberAndStartEnrollment env gymId memberData deviceId events st).1
  = Resolved result ->
  let run :=
    createMemberAndStartEnrollment env gymId memberData deviceId events st in
  let stored := EnrollmentResult.gymMemberId result in
  exists doc,
    members run.2 !! (gymId, EnrollmentResult.fingerprintId result) = Some doc
    /\ Member.id doc = EnrollmentResult.fingerprintId result
    /\ EnrollmentResult.memberId result = EnrollmentResult.fingerprintId result
    /\ gymMemberId (Member.data doc) = Some stored
    /\ (Js.truthyString (gymMemberId memberData) = false ->
        (stored
         = "FN" +:+ Js.padStart 3 "0"
                      (Js.numberToString
                         (Z.of_nat (size (membersOf gymId st)) + 1))
         \/ stored
            = "FN" +:+ Js.slice (-6) (Js.numberToString (now_generateId env)))
        /\ stored <> EnrollmentResult.fingerprintId result
        /\ forall n : Z, stored <> Js.numberToString n)
    /\ (Js.truthyString (gymMemberId memberData) = true ->
        gymMemberId memberData = Some stored)
    /\ (safeIds events ->
        exists fid,
          Js.isSafeInteger fid = true
          /\ EnrollmentResult.fingerprintId result = Js.numberToString fid
          /\ Member.fingerprintId doc = Some fid).
Proof.
  intros Hresolved. cbv zeta.
  destruct (run_cases env gymId memberData deviceId events st)
    as [[_ [msg Hrun]]
       |[(_ & [msg Hrun] & _)
        |(_ & _ & d & result' & Hobserved & Hd & _ & Hres & _ & _
          & Hmembers & _ & _ & Hrfid & Hrid & Hgym)]];
    [rewrite Hrun in Hresolved; discriminate..|].
  rewrite Hres in Hresolved. injection Hresolved as ->.
  destruct Hd as (_ & _ & fid & Hfid & _).
  assert (WaitResult.fingerprintId (resultOf deviceId d)
          = Js.numberToString fid) as Hkey
    by (unfold resultOf; by rewrite Hfid).
  rewrite Hkey in *. rewrite Hgym, Hrfid, Hrid.
  exists (finalMemberData env
            (enhance memberData (gymMemberIdOf env gymId memberData st))
            deviceId (resultOf deviceId d)).
  rewrite Hmembers, lookup_insert_eq.
  cbn [finalMemberData Member.fingerprintId Member.id Member.data enhance
       gymMemberId].
  rewrite Hkey.
  do 4 (split; [done|]).
  split; [|split].
  - intros Hnone.
    assert (exists digits,
               gymMemberIdOf env gymId memberData st = "FN" +:+ digits)
      as [digits Hfn].
    { unfold gymMemberIdOf. rewrite Hnone.
      by destruct (generateGymMemberId_returns env gymId st) as [digits ->];
        exists digits. }
    assert (forall n : Z,
               gymMemberIdOf env gymId memberData st <> Js.numberToString n)
      as Hdiffers.
    { intros n E. rewrite Hfn in E. by eapply numberToString_not_FN. }
    split; [|by split].
    unfold gymMemberIdOf. rewrite Hnone.
    destruct (generateGymMemberId_forms env gymId st) as [-> | ->]; eauto.
  - intros Hsupplied. unfold gymMemberIdOf. rewrite Hsupplied.
    by destruct (gymMemberId memberData).
  - intros Hsafe.
    destruct (observedFrom_In _ _ _ _ _ Hobserved) as [t Hin].
    exists fid. split; [by eapply safeIds_In|].
    split; [done|]. apply parseInt_numberToString.
Qed.

(** ** The claims on the scenarios *)

Lemma sample_tempId_eq : tempEnrollmentId sample_env = sample_tempId.
Proof. reflexivity. Qed.

(** C1, on the code. The device reports completed with the fingerprint id
    0 for the attempt, on a store that takes every write. The attempt's
    listener observes the update, and its id is not null; the code takes
    the id 0 for a missing one, so the call ends by its timeout with the
    command as its only write, and no member is persisted. *)
Theorem completed_with_id_zero_persists_no_member :
  let update := device_update sample_tempId "completed" (Some 0) None in
  let events := [(2000, Snapshot (Some update))] in
  let run :=
    createMemberAndStartEnrollment sample_env "gym1" alice "dev1" events
                                   sample_store in
  subscriptionObserved sample_env "gym1" alice "dev1" events sample_store
  = [update]
  /\ completedNonNull (tempEnrollmentId sample_env) update
  /\ setDoc_member_error sample_env = None
  /\ callWrites sample_store run.2
     = [SetCommand "gym1" "dev1" (enrollmentCommand sample_env alice)]
  /\ members run.2 = members sample_store
  /\ ~ memberPersisted "gym1" sample_store run.2
  /\ ~ finalize_iff_nonnull sample_env "gym1" alice "dev1" events
         sample_store.
Proof.
  cbv zeta.
  assert (~ memberPersisted "gym1" sample_store
            (createMemberAndStartEnrollment sample_env "gym1" alice "dev1"
               [(2000, Snapshot (Some (device_update sample_tempId
                                         "completed" (Some 0) None)))]
               sample_store).2) as Hnone.
  { intros (id & doc & Hin). vm_compute in Hin. by destruct Hin as [|[]]. }
  split; [reflexivity|]. split; [by repeat split|].
  do 3 (split; [reflexivity|]). split; [exact Hnone|].
  intros [_ Hpersisted]. apply Hnone, Hpersisted.
  eexists. split; [by left|]. by repeat split.
Qed.

(** C5, on the code. The device sends a progress note and then reports
    completed with the fingerprint id 0 for the attempt. The listener
    observes the update, with its id present; it leaves the wait as it
    was, pending with the timer armed, and the call is rejected by its
    timeout instead of resolving: there is no member under the key 0. *)
Theorem completed_with_id_zero_is_not_finalized :
  let update :=
    device_update sample_tempId "completed" (Some 0)
                  (Some "Fingerprint stored") in
  let events :=
    [(10, Snapshot (Some (device_update sample_tempId "in_progress"
                                        None None)));
     (2000, Snapshot (Some update))] in
  let run :=
    createMemberAndStartEnrollment sample_env "gym1" alice "dev1" events
                                   sample_store in
  In update (observed "gym1" "dev1" (tempEnrollmentId sample_env) events)
  /\ Command.fingerprintId update = Some 0
  /\ waitAfter "dev1" sample_tempId waiting events = waiting
  /\ run.1
     = Rejected
         {| EnhancedError.message := timeoutMessage;
            EnhancedError.type := "timeout";
            EnhancedError.timestamp := 1700000240000;
            EnhancedError.gymId := "gym1";
            EnhancedError.deviceId := "dev1";
            EnhancedError.memberName := Some "Alice" |}
  /\ members run.2 !! ("gym1", "0") = None
  /\ ~ present_id_finalizes sample_env "gym1" alice "dev1" events
         sample_store update.
Proof.
  cbv zeta. split; [right; by left|]. do 4 (split; [reflexivity|]).
  intros Hclaim.
  destruct Hclaim as [_ [result Hresolved]];
    [reflexivity|right; by left|by repeat split|].
  vm_compute in Hresolved. discriminate.
Qed.

(** C9, counterexample. The caller supplies the gymMemberId 7 and the
    device assigns the fingerprint id 7: the enrollment succeeds with a
    gymMemberId equal to the string form of the fingerprint id. *)
Lemma gymMemberId_never_fingerprintId_fails_for_supplied_id :
  ~ gymMemberId_never_fingerprintId sample_env "gym1" alice_numbered "dev1"
      [(2000, Snapshot (Some (device_update sample_tempId "completed"
                                            (Some 7) None)))]
      sample_store.
Proof.
  intros Hclaim. by eapply Hclaim.
Qed.

(** An update of the attempt that says completed and carries no
    fingerprint id (or the id 0) changes nothing. *)
Lemma deliver_completed_without_id deviceId tempId d st :
  Command.tempId d = Some tempId ->
  Command.status d = Some "completed" ->
  Js.truthyNumber (Command.fingerprintId d) = false ->
  deliver deviceId tempId (Snapshot (Some d)) st = st.
Proof.
  intros Htemp Hstatus Hfid. unfold deliver, onSnapshot.
  destruct (subscribed st); [|done].
  rewrite (bool_decide_eq_true_2 _ Htemp), Hstatus, Hfid. reflexivity.
Qed.

(** C3, on the code. The device reports completed without a fingerprint id
    for the attempt. The update changes nothing: the promise stays pending,
    and with nothing else delivered the call is rejected by its timeout,
    with the timeout message and type, not with a protocol error. *)
Theorem completed_without_id_is_ignored :
  let update := device_update sample_tempId "completed" None None in
  let run :=
    createMemberAndStartEnrollment sample_env "gym1" alice "dev1"
      [(2000, Snapshot (Some update))] sample_store in
  deliver "dev1" sample_tempId (Snapshot (Some update)) waiting = waiting
  /\ run.1
     = Rejected
         {| EnhancedError.message := timeoutMessage;
            EnhancedError.type := "timeout";
            EnhancedError.timestamp := 1700000240000;
            EnhancedError.gymId := "gym1";
            EnhancedError.deviceId := "dev1";
            EnhancedError.memberName := Some "Alice" |}.
Proof. by split. Qed.

(** C4, on the code. The device's document says online and has no
    last_seen. getAvailableDevices lists such a device as not online, yet
    checkDeviceStatus lets it pass, and the call is not rejected as
    unavailable: it writes the enrollment command into the mailbox and then
    waits (here until its timeout). *)
Theorem silent_device_passes_the_gate :
  let run :=
    createMemberAndStartEnrollment sample_env "gym1" alice "dev1" []
                                   silent_store in
  getAvailableDevices_isOnline (now_checkDevice sample_env) silent_device
  = false
  /\ DeviceStatus.available
       (deviceStatusOf sample_env "gym1" "dev1" silent_store) = true
  /\ journal run.2
     = [SetCommand "gym1" "dev1" (enrollmentCommand sample_env alice)]
  /\ commands run.2 !! ("gym1", "dev1")
     = Some (enrollmentCommand sample_env alice)
  /\ exists error,
      run.1 = Rejected error
      /\ EnhancedError.message error = timeoutMessage.
Proof.
  cbv zeta. do 4 (split; [done|]).
  eexists. by split.
Qed.


(** ** The theorems at work on the scenarios *)

(** The first scenario of the specification with a progress note on the
    way: in_progress, then completed with fingerprint id 7. *)
Lemma finalize_iff_completed_scenario :
  memberPersisted "gym1" sample_store
    (createMemberAndStartEnrollment sample_env "gym1" alice "dev1"
       [(10, Snapshot (Some (device_update sample_tempId "in_progress"
                                           None None)));
        (2000, Snapshot (Some (device_update sample_tempId "completed"
                                             (Some 7) None)))]
       sample_store).2.
Proof.
  apply (finalize_iff_completed sample_env "gym1" alice "dev1"
           [(10, Snapshot (Some (device_update sample_tempId "in_progress"
                                               None None)));
            (2000, Snapshot (Some (device_update sample_tempId "completed"
                                                 (Some 7) None)))]
           sample_store).
  split; [reflexivity|].
  exists (device_update sample_tempId "completed" (Some 7) None).
  split; [right; left; reflexivity|].
  split; [reflexivity|]. split; [reflexivity|].
  exists 7. split; [reflexivity|discriminate].
Defined.

(** C2 at the fifth scenario: a second attempt has taken the mailbox over
    and the device completes that one. *)
Lemma correlation_isolation_scenario :
  Command.tempId (device_update "temp_1700000061000_zzzzzzzzz" "completed"
                                (Some 9) None)
  <> Some sample_tempId
  /\ deliver "dev1" sample_tempId
             (Snapshot (Some (device_update "temp_1700000061000_zzzzzzzzz"
                                            "completed" (Some 9) None)))
             waiting
     = waiting.
Proof.
  split; [discriminate|].
  apply (correlation_isolation "dev1" sample_tempId
           (device_update "temp_1700000061000_zzzzzzzzz" "completed"
                          (Some 9) None)).
  discriminate.
Defined.

(** The first scenario of the specification: the device reports the
    fingerprint id 7. *)
Lemma completed_update_finalizes_scenario :
  exists result doc,
    (createMemberAndStartEnrollment sample_env "gym1" alice "dev1"
       [(2000, Snapshot (Some (device_update sample_tempId "completed"
                                             (Some 7) None)))]
       sample_store).1 = Resolved result
    /\ members
         (createMemberAndStartEnrollment sample_env "gym1" alice "dev1"
            [(2000, Snapshot (Some (device_update sample_tempId "completed"
                                                  (Some 7) None)))]
            sample_store).2
       = <[("gym1", Js.numberToString 7) := doc]> (members sample_store)
    /\ Member.fingerprintId doc = Some 7
    /\ EnrollmentResult.memberId result = Js.numberToString 7.
Proof.
  destruct (completed_update_finalizes sample_env "gym1" alice "dev1"
              [(2000, Snapshot (Some (device_update sample_tempId "completed"
                                                    (Some 7) None)))]
              sample_store
              (device_update sample_tempId "completed" (Some 7) None) 7)
    as (result & doc & Hres & Hmembers & _ & Hfid & _ & _ & _ & _ & Hid & _).
  - reflexivity.
  - left. reflexivity.
  - reflexivity.
  - reflexivity.
  - reflexivity.
  - discriminate.
  - reflexivity.
  - reflexivity.
  - exists result, doc. split; [exact Hres|]. split; [exact Hmembers|].
    split; [exact Hfid|exact Hid].
Defined.

(** C6 at the fourth scenario, with a progress note on the way and a
    completion that comes too late. *)
Lemma enrollment_times_out_scenario :
  (createMemberAndStartEnrollment sample_env "gym1" alice "dev1"
     [(10, Snapshot (Some (device_update sample_tempId "in_progress"
                                         None None)));
      (181000, Snapshot (Some (device_update sample_tempId "completed"
                                             (Some 7) None)))]
     sample_store).1
  = Rejected (enhancedError sample_env "gym1" alice "dev1" timeoutMessage).
Proof.
  apply (enrollment_times_out sample_env "gym1" alice "dev1"
           [(10, Snapshot (Some (device_update sample_tempId "in_progress"
                                               None None)));
            (181000, Snapshot (Some (device_update sample_tempId "completed"
                                                   (Some 7) None)))]
           sample_store).
  - reflexivity.
  - simpl. constructor; [|constructor].
    simpl. unfold terminalStatus. simpl.
    intros [_ [H|[H|H]]]; discriminate H.
Defined.

(** C8: the operator cancels while the device is capturing. *)
Lemma cancel_rejects_in_flight_scenario :
  exists d' st',
    cancelEnrollment None 1700000095000 "gym1" "dev1"
      (withCommand sample_env "gym1" alice "dev1" sample_store)
    = (inr tt, st')
    /\ Command.status d' = Some "cancelled"
    /\ Command.tempId d' = Some sample_tempId
    /\ waitAfter "dev1" sample_tempId waiting
         ([(10, Snapshot (Some (device_update sample_tempId "in_progress"
                                              None None)))]
          ++ [(35000, Snapshot (Some d'))])
       = {| settled := Some (inl "Enrollment was cancelled");
            timeout_armed := false;
            subscribed := false |}
    /\ (createMemberAndStartEnrollment sample_env "gym1" alice "dev1"
          [(10, Snapshot (Some (device_update sample_tempId "in_progress"
                                              None None)));
           (35000, Snapshot (Some d'))]
          sample_store).1
       = Rejected (enhancedError sample_env "gym1" alice "dev1"
                                 "Enrollment was cancelled").
Proof.
  destruct (cancel_rejects_in_flight 1700000095000 "gym1" "dev1"
              (withCommand sample_env "gym1" alice "dev1" sample_store)
              (enrollmentCommand sample_env alice)
              sample_env alice
              [(10, Snapshot (Some (device_update sample_tempId "in_progress"
                                                  None None)))]
              35000 [] sample_store)
    as (d' & st' & Hcancel & _ & _ & Hstatus & Htemp & _ & _ & Hrun).
  - reflexivity.
  - reflexivity.
  - reflexivity.
  - constructor; [|constructor]. split; reflexivity.
  - reflexivity.
  - exists d', st'. split; [exact Hcancel|]. split; [exact Hstatus|].
    split; [exact Htemp|].
    destruct Hrun as (_ & Hafter & _ & _ & _ & Hrejected & _).
    split; [exact Hafter|exact Hrejected].
Defined.

(** C9 at the first scenario: the first member of the gym gets FN001. *)
Lemma generated_gymMemberId_differs_scenario :
  exists result,
    (createMemberAndStartEnrollment sample_env "gym1" alice "dev1"
       [(2000, Snapshot (Some (device_update sample_tempId "completed"
                                             (Some 7) None)))]
       sample_store).1 = Resolved result
    /\ EnrollmentResult.gymMemberId result = "FN001"
    /\ EnrollmentResult.gymMemberId result
       <> EnrollmentResult.fingerprintId result.
Proof.
  eexists. split; [reflexivity|]. split; [reflexivity|].
  destruct (generated_gymMemberId_differs sample_env "gym1" alice "dev1"
              [(2000, Snapshot (Some (device_update sample_tempId "completed"
                                                    (Some 7) None)))]
              sample_store _ eq_refl)
    as (doc & _ & _ & _ & _ & Hgenerated & _).
  destruct Hgenerated as (_ & Hdiffers & _); [reflexivity|exact Hdiffers].
Defined.

(** C10 at the silent scanner. *)
Lemma no_heartbeat_is_available_scenario :
  exists deviceStatus,
    checkDeviceStatus sample_env "gym1" "dev1" silent_store
    = (inr deviceStatus, silent_store)
    /\ DeviceStatus.available deviceStatus = true.
Proof.
  destruct (no_heartbeat_is_available sample_env "gym1" "dev1" silent_store
              silent_device alice [])
    as [(deviceStatus & Hcheck & Havailable & _) _].
  - reflexivity.
  - reflexivity.
  - reflexivity.
  - reflexivity.
  - reflexivity.
  - reflexivity.
  - exists deviceStatus. split; [exact Hcheck|exact Havailable].
Defined.

(** * More properties of the service *)

(** ** The wait *)

(** X1. The promise of waitForEnrollmentCompletion, its timer and its
    listener go together at every moment of a wait. After any number of
    deliveries the promise is either pending, with the timer armed and the
    listener open, or settled, with the timer cleared (or run) and the
    listener closed: whatever settles the promise, an update, a listener
    error or the timer, takes the timer and the listener away in the same
    step (after a listener error it is Firestore that ends the listener).
    And every wait ends settled, the timer being the backstop. *)
Theorem wait_always_cleans_up gymId deviceId tempId events :
  let wait := waitForEnrollmentCompletion gymId deviceId tempId events in
  (forall n,
      let now := waitAfter deviceId tempId waiting (take n events) in
      match settled now with
      | None => timeout_armed now = true /\ subscribed now = true
      | Some _ => timeout_armed now = false /\ subscribed now = false
      end)
  /\ is_Some (settled wait)
  /\ timeout_armed wait = false
  /\ subscribed wait = false.
Proof.
  split; [|apply waitForEnrollmentCompletion_settles].
  intros n. apply (waitAfter_consistent deviceId tempId (take n events)).
  apply consistent_waiting.
Qed.

(** X2. The first delivery that settles the promise decides the outcome:
    whatever is delivered after it (a later completion, a cancellation, an
    error) changes nothing. *)
Theorem first_settling_delivery_wins
        gymId deviceId tempId before t e after o :
  stillWaiting deviceId tempId before ->
  t < ENROLLMENT_TIMEOUT ->
  settled (deliver deviceId tempId e waiting) = Some o ->
  waitForEnrollmentCompletion gymId deviceId tempId
                              (before ++ (t, e) :: after)
  = finished o.
Proof.
  intros Hbefore Ht Hsettles. unfold waitForEnrollmentCompletion.
  rewrite waitLoop_stillWaiting, waitLoop_waiting_cons by done.
  apply Z.leb_gt in Ht. by rewrite Ht, Hsettles.
Qed.

Lemma first_settling_delivery_wins_scenario :
  waitForEnrollmentCompletion "gym1" "dev1" sample_tempId
    ([(10, Snapshot (Some progress_update))]
     ++ (5000, Snapshot (Some failed_update))
        :: [(6000, Snapshot (Some completed_update));
            (7000, ListenerError "offline")])
  = finished (inl "sensor timeout").
Proof.
  apply (first_settling_delivery_wins "gym1" "dev1" sample_tempId
           [(10, Snapshot (Some progress_update))] 5000
           (Snapshot (Some failed_update))
           [(6000, Snapshot (Some completed_update));
            (7000, ListenerError "offline")]
           (inl "sensor timeout")).
  - constructor; [|constructor]. split; reflexivity.
  - reflexivity.
  - reflexivity.
Defined.

Lemma deliver_failed deviceId tempId d :
  Command.tempId d = Some tempId ->
  Command.status d = Some "failed" ->
  deliver deviceId tempId (Snapshot (Some d)) waiting
  = finished (inl (Js.orElse (Command.message d)
                             "Enrollment failed - unknown error")).
Proof.
  intros Htemp Hstatus. unfold deliver, onSnapshot. simpl.
  by rewrite (bool_decide_eq_true_2 _ Htemp), Hstatus.
Qed.

(** X3. When the device reports failed for the attempt, the call rejects
    with the device's message, or with "Enrollment failed - unknown error"
    when the device gave none (or an empty one); the command is the call's
    only write and no member is written. *)
Theorem failed_update_rejects
        env gymId memberData deviceId before t (d : Command.t) after st :
  commandIssued env gymId memberData deviceId st = true ->
  stillWaiting deviceId (tempEnrollmentId env) before ->
  t < ENROLLMENT_TIMEOUT ->
  Command.tempId d = Some (tempEnrollmentId env) ->
  Command.status d = Some "failed" ->
  createMemberAndStartEnrollment env gymId memberData deviceId
    (before ++ (t, Snapshot (Some d)) :: after) st
  = (Rejected
       (enhancedError env gymId memberData deviceId
          (Js.orElse (Command.message d) "Enrollment failed - unknown error")),
     withCommand env gymId memberData deviceId st).
Proof.
  intros Hissued Hbefore Ht Htemp Hstatus.
  rewrite issued_run by done. cbv zeta.
  unfold waitForEnrollmentCompletion.
  rewrite waitLoop_stillWaiting, waitLoop_waiting_cons by done.
  apply Z.leb_gt in Ht. rewrite Ht.
  by rewrite deliver_failed.
Qed.

Lemma failed_update_rejects_scenario :
  (createMemberAndStartEnrollment sample_env "gym1" alice "dev1"
     ([(10, Snapshot (Some progress_update))]
      ++ (5000, Snapshot (Some failed_update)) :: [])
     sample_store).1
  = Rejected (enhancedError sample_env "gym1" alice "dev1" "sensor timeout").
Proof.
  rewrite (failed_update_rejects sample_env "gym1" alice "dev1"
             [(10, Snapshot (Some progress_update))] 5000 failed_update []
             sample_store).
  - reflexivity.
  - reflexivity.
  - constructor; [|constructor]. split; reflexivity.
  - reflexivity.
  - reflexivity.
  - reflexivity.
Defined.

(** ** Searching a message for a word *)

Lemma toLowerCase_app s1 s2 :
  Js.toLowerCase (s1 +:+ s2) = Js.toLowerCase s1 +:+ Js.toLowerCase s2.
Proof.
  induction s1 as [|c s1 IH]; [done|].
  change (Js.toLowerCase (String c (s1 +:+ s2))
          = String (Js.lowerChar c) (Js.toLowerCase s1 +:+ Js.toLowerCase s2)).
  simpl. by rewrite IH.
Qed.

Lemma includes_app_r s1 s2 sub :
  Js.includes s2 sub = true -> Js.includes (s1 +:+ s2) sub = true.
Proof.
  intros Hs2. induction s1 as [|c s1 IH]; [done|].
  change (Js.includes (String c (s1 +:+ s2)) sub = true).
  simpl. rewrite IH. by rewrite orb_true_r.
Qed.

Lemma includes_cons y s p :
  Js.includes (String y s) p
  = String.prefix p (String y s) || Js.includes s p.
Proof. reflexivity. Qed.

(** A pattern that does not contain [c] cannot lie across a [c]. *)
Lemma prefix_app_sep (p a b : string) (c : ascii) :
  allChars (fun x => negb (bool_decide (x = c))) p = true ->
  p <> "" ->
  String.prefix p (a +:+ String c b) = String.prefix p a.
Proof.
  revert p. induction a as [|y a IH]; intros [|x p] Hp Hne; try done.
  - simpl in Hp. apply andb_true_iff in Hp as [Hx _].
    apply negb_true_iff, bool_decide_eq_false in Hx.
    change (String.prefix (String x p) (String c b) = false).
    simpl. by destruct (ascii_dec x c).
  - change (String.prefix (String x p) (String y (a +:+ String c b))
            = String.prefix (String x p) (String y a)).
    simpl. destruct (ascii_dec x y); [|done].
    destruct p as [|x' p]; [by destruct a|].
    apply IH; [|done]. simpl in Hp. by apply andb_true_iff in Hp as [_ Hp].
Qed.

Lemma includes_app_sep (p a b : string) (c : ascii) :
  allChars (fun x => negb (bool_decide (x = c))) p = true ->
  p <> "" ->
  Js.includes (a +:+ String c b) p = Js.includes a p || Js.includes b p.
Proof.
  intros Hp Hne. induction a as [|y a IH].
  - change (Js.includes (String c b) p
            = Js.includes "" p || Js.includes b p).
    pose proof (prefix_app_sep p "" b c Hp Hne) as Hpre.
    change (String.prefix p (String c b) = String.prefix p "") in Hpre.
    rewrite includes_cons, Hpre. by destruct p.
  - change (Js.includes (String y (a +:+ String c b)) p
            = Js.includes (String y a) p || Js.includes b p).
    pose proof (prefix_app_sep p (String y a) b c Hp Hne) as Hpre.
    change (String.prefix p (String y (a +:+ String c b))
            = String.prefix p (String y a)) in Hpre.
    rewrite !includes_cons, Hpre, IH. by rewrite orb_assoc.
Qed.

(** A text without the first character of a pattern adds nothing to a
    search for it. *)
Lemma includes_app_without (s rest p : string) (c : ascii) :
  allChars (fun x => negb (bool_decide (x = c))) s = true ->
  Js.includes (s +:+ rest) (String c p) = Js.includes rest (String c p).
Proof.
  induction s as [|y s IH]; [done|]. simpl. intros [Hy Hs]%andb_true_iff.
  apply negb_true_iff, bool_decide_eq_false in Hy.
  change (Js.includes (String y (s +:+ rest)) (String c p)
          = Js.includes rest (String c p)).
  rewrite includes_cons. simpl String.prefix.
  destruct (ascii_dec c y) as [->|_]; [done|]. by apply IH.
Qed.

Lemma allChars_toLowerCase (P : ascii -> bool) s :
  allChars P (Js.toLowerCase s) = allChars (fun c => P (Js.lowerChar c)) s.
Proof. induction s as [|c s IH]; [done|]. simpl. by rewrite IH. Qed.

Lemma pretty_N_go_allChars (P : ascii -> bool) (x : N) s :
  (forall d, P (pretty_N_char d) = true) ->
  allChars P s = true ->
  allChars P (pretty_N_go x s) = true.
Proof.
  intros Hdigit. revert s. induction (N.lt_wf_0 x) as [x _ IH]. intros s Hs.
  destruct (decide (x = 0)%N) as [->|Hx]; [by rewrite pretty_N_go_0|].
  rewrite pretty_N_go_step by (by apply N.neq_0_lt_0).
  apply IH; [apply N.div_lt; [by apply N.neq_0_lt_0|done]|].
  simpl. by rewrite Hs, Hdigit.
Qed.

Lemma numberToString_allChars (P : ascii -> bool) (n : Z) :
  (forall d, P (pretty_N_char d) = true) ->
  P "-"%char = true ->
  allChars P (Js.numberToString n) = true.
Proof.
  intros Hdigit Hminus.
  assert (forall p : positive, allChars P (pretty p) = true) as Hpos.
  { intros p. unfold pretty, pretty_positive, pretty, pretty_N.
    rewrite decide_False by done. by apply pretty_N_go_allChars. }
  destruct n as [|p|p]; [|apply Hpos|].
  { change (P (pretty_N_char 0) && true = true). by rewrite Hdigit. }
  change (Js.numberToString (Z.neg p)) with (String "-" (pretty p)).
  simpl. by rewrite Hminus, Hpos.
Qed.

(** In front of a listener error's message, "Firebase connection error: "
    brings in the word firebase and none of timeout, device, offline. *)
Lemma getErrorType_firebase msg :
  getErrorType ("Firebase connection error: " +:+ msg)
  = if Js.includes (Js.toLowerCase msg) "timeout" then "timeout"
    else if Js.includes (Js.toLowerCase msg) "device"
            && Js.includes (Js.toLowerCase msg) "offline"
    then "device_offline"
    else "database_error".
Proof.
  unfold getErrorType. rewrite toLowerCase_app.
  change (Js.toLowerCase "Firebase connection error: ")
    with "firebase connection error: ".
  change (Js.includes ("firebase connection error: " +:+ Js.toLowerCase msg)
                      "timeout")
    with (Js.includes (Js.toLowerCase msg) "timeout").
  change (Js.includes ("firebase connection error: " +:+ Js.toLowerCase msg)
                      "device")
    with (Js.includes (Js.toLowerCase msg) "device").
  change (Js.includes ("firebase connection error: " +:+ Js.toLowerCase msg)
                      "offline")
    with (Js.includes (Js.toLowerCase msg) "offline").
  destruct (Js.includes _ "timeout"); [done|].
  destruct (Js.includes _ "device" && Js.includes _ "offline"); [done|].
  reflexivity.
Qed.

(** X4. When the listener reports an error while the attempt is in flight,
    the call rejects with "Firebase connection error: " followed by the
    error's message, the command is the call's only write and no member is
    written. The type of the rejection is decided by the error's own
    message: timeout when it contains that word, else device_offline when
    it contains both device and offline, else database_error (letter case
    aside). *)
Theorem listener_error_rejects
        env gymId memberData deviceId before t msg after st :
  commandIssued env gymId memberData deviceId st = true ->
  stillWaiting deviceId (tempEnrollmentId env) before ->
  t < ENROLLMENT_TIMEOUT ->
  let run :=
    createMemberAndStartEnrollment env gymId memberData deviceId
      (before ++ (t, ListenerError msg) :: after) st in
  let error :=
    enhancedError env gymId memberData deviceId
                  ("Firebase connection error: " +:+ msg) in
  run = (Rejected error, withCommand env gymId memberData deviceId st)
  /\ EnhancedError.message error = "Firebase connection error: " +:+ msg
  /\ EnhancedError.type error
     = (if Js.includes (Js.toLowerCase msg) "timeout" then "timeout"
        else if Js.includes (Js.toLowerCase msg) "device"
                && Js.includes (Js.toLowerCase msg) "offline"
        then "device_offline"
        else "database_error").
Proof.
  intros Hissued Hbefore Ht. cbv zeta.
  split; [|split; [done|apply getErrorType_firebase]].
  rewrite issued_run by done. cbv zeta.
  unfold waitForEnrollmentCompletion.
  rewrite waitLoop_stillWaiting, waitLoop_waiting_cons by done.
  apply Z.leb_gt in Ht. by rewrite Ht.
Qed.

Lemma listener_error_rejects_scenario :
  createMemberAndStartEnrollment sample_env "gym1" alice "dev1"
    ([] ++ (300, ListenerError "permission-denied") :: []) sample_store
  = (Rejected
       (enhancedError sample_env "gym1" alice "dev1"
          ("Firebase connection error: " +:+ "permission-denied")),
     withCommand sample_env "gym1" alice "dev1" sample_store)
  /\ EnhancedError.type
       (enhancedError sample_env "gym1" alice "dev1"
          ("Firebase connection error: " +:+ "permission-denied"))
     = "database_error".
Proof.
  destruct (listener_error_rejects sample_env "gym1" alice "dev1" [] 300
              "permission-denied" [] sample_store)
    as (Hrun & _ & Htype).
  - reflexivity.
  - constructor.
  - reflexivity.
  - split; [exact Hrun|exact Htype].
Defined.

(** ** Validation and the type of its errors *)

(** X5. A request that validation rejects is rejected with validation's
    message and nothing is written; getErrorType files it under
    validation_error only when the name is missing or blank, and under
    unknown_error when the name is too short or too long, the age out of
    range or the phone number malformed. *)
Theorem validation_error_types
        env gymId memberData deviceId events st msg :
  validateMemberData memberData = inl msg ->
  createMemberAndStartEnrollment env gymId memberData deviceId events st
  = (Rejected (enhancedError env gymId memberData deviceId msg), st)
  /\ ((nameMissing memberData = true
       /\ msg = "Missing required fields: Name"
       /\ getErrorType msg = "validation_error")
      \/ (nameMissing memberData = false
          /\ (msg = "Name must be at least 2 characters long"
              \/ msg = "Name must be less than 50 characters long"
              \/ msg = "Age must be between 1 and 120"
              \/ msg = "Phone number contains invalid characters")
          /\ getErrorType msg = "unknown_error")).
Proof.
  intros Hv. split; [by apply invalid_rejects|].
  revert Hv. unfold validateMemberData, nameMissing.
  simpl List.filter. unfold textField. simpl bool_decide. cbv iota.
  destruct (negb _ || _); [intros [= <-]; by left|].
  right. split; [done|]. revert Hv. simpl.
  repeat case_match; intros [= <-]; split; eauto.
Qed.

Lemma validation_error_types_scenario :
  createMemberAndStartEnrollment sample_env "gym1" blank_name "dev1" []
                                 sample_store
  = (Rejected (enhancedError sample_env "gym1" blank_name "dev1"
                             "Missing required fields: Name"),
     sample_store).
Proof.
  apply (validation_error_types sample_env "gym1" blank_name "dev1" []
           sample_store "Missing required fields: Name").
  reflexivity.
Defined.

(** X6. validateMemberData accepts exactly the data whose Name is present,
    not blank and 2 to 50 characters long (counted before trimming); whose
    Age is missing (or the empty text), or reads as NaN (the number NaN, a
    text that is not a numeral), or is the number 0, or has a value, whole
    or not, within 1 to 120; and whose Phone_Number is missing, empty, or
    made of digits, white space and the characters - + ( ) only. The text
    0, a blank text and the infinities are rejected as ages. *)
Theorem validateMemberData_accepts_exactly memberData :
  validateMemberData memberData = inr tt
  <-> nameAccepted memberData /\ ageAccepted memberData
      /\ phoneAccepted memberData.
Proof. apply validateMemberData_accepts_iff. Qed.

(** ** checkDeviceStatus *)

(** X7. checkDeviceStatus never throws and never writes: it always returns
    a status and leaves the store as it was. When the device's document
    cannot be read the device is reported unavailable with the reason
    "Error checking device: " and the error's message; when there is no
    such document, with the not-found reason. *)
Theorem checkDeviceStatus_never_throws env gymId deviceId st :
  exists deviceStatus,
    checkDeviceStatus env gymId deviceId st = (inr deviceStatus, st)
    /\ (forall msg,
           getDoc_error env = Some msg ->
           DeviceStatus.available deviceStatus = false
           /\ DeviceStatus.reason deviceStatus
              = "Error checking device: " +:+ msg)
    /\ (getDoc_error env = None ->
        devices st !! (gymId, deviceId) = None ->
        DeviceStatus.available deviceStatus = false
        /\ DeviceStatus.reason deviceStatus
           = "Device not found - check device ID and ensure ESP32 is registered").
Proof.
  unfold checkDeviceStatus, try_catch, bind, getDoc_device, ret.
  destruct (getDoc_error env) as [e|].
  { eexists. split; [done|]. split; [by intros ? [= <-]|done]. }
  destruct (devices st !! (gymId, deviceId)) as [deviceData|].
  - repeat case_match; simplify_eq; eexists; (split; [done|]); by split.
  - eexists. split; [done|]. by split.
Qed.

(** X8. When the device's document can be read, checkDeviceStatus reports
    the device available exactly when the document exists, its status is
    online, and its last_seen, if it has one, is at most 120000 ms old; a
    document without last_seen and one seen exactly 120000 ms ago both
    pass. *)
Theorem checkDeviceStatus_available_exactly env gymId deviceId st :
  getDoc_error env = None ->
  DeviceStatus.available (deviceStatusOf env gymId deviceId st) = true
  <-> exists deviceData,
        devices st !! (gymId, deviceId) = Some deviceData
        /\ Device.status deviceData = Some "online"
        /\ forall seen, Device.last_seen deviceData = Some seen ->
                        now_checkDevice env - seen <= OFFLINE_AFTER.
Proof. apply available_iff. Qed.

Lemma checkDeviceStatus_available_exactly_scenario :
  DeviceStatus.available (deviceStatusOf sample_env "gym1" "dev1" sample_store)
  = true
  <-> exists deviceData,
        devices sample_store !! ("gym1", "dev1") = Some deviceData
        /\ Device.status deviceData = Some "online"
        /\ forall seen, Device.last_seen deviceData = Some seen ->
                        now_checkDevice sample_env - seen <= OFFLINE_AFTER.
Proof.
  apply (checkDeviceStatus_available_exactly sample_env "gym1" "dev1"
           sample_store).
  reflexivity.
Defined.

(** X9. A device last seen more than 120000 ms ago is reported offline
    whatever its status field says: the staleness test comes first. The
    reason gives the age in whole seconds, which is at least 120. *)
Theorem stale_device_reports_offline
        env gymId deviceId st (deviceData : Device.t) seen :
  getDoc_error env = None ->
  devices st !! (gymId, deviceId) = Some deviceData ->
  Device.last_seen deviceData = Some seen ->
  OFFLINE_AFTER < now_checkDevice env - seen ->
  checkDeviceStatus env gymId deviceId st
  = (inr {| DeviceStatus.available := false;
            DeviceStatus.reason :=
              "Device offline - last seen "
              +:+ Js.numberToString ((now_checkDevice env - seen) / 1000)
              +:+ "s ago";
            DeviceStatus.deviceInfo := None |}, st)
  /\ 120 <= (now_checkDevice env - seen) / 1000.
Proof.
  intros Hread Hdoc Hseen Hstale. split.
  - unfold checkDeviceStatus, try_catch, bind, getDoc_device, ret.
    rewrite Hread, Hdoc, Hseen. simpl.
    apply Z.ltb_lt in Hstale. by rewrite Hstale.
  - apply Z.div_le_lower_bound; unfold OFFLINE_AFTER in *; lia.
Qed.

Lemma stale_device_reports_offline_scenario :
  checkDeviceStatus sample_env "gym1" "dev1" stale_store
  = (inr {| DeviceStatus.available := false;
            DeviceStatus.reason := "Device offline - last seen 300s ago";
            DeviceStatus.deviceInfo := None |}, stale_store).
Proof.
  apply (stale_device_reports_offline sample_env "gym1" "dev1" stale_store
           stale_device 1699999760000).
  - reflexivity.
  - reflexivity.
  - reflexivity.
  - reflexivity.
Defined.

(** ** Sorting *)

Lemma insertSorted_perm {A} (cmp : A -> A -> Z) x l :
  insertSorted cmp x l ≡ₚ x :: l.
Proof.
  induction l as [|y l IH]; simpl; [done|].
  destruct (cmp x y <=? 0); [done|].
  rewrite IH. apply Permutation_swap.
Qed.

Lemma sortBy_perm {A} (cmp : A -> A -> Z) l : sortBy cmp l ≡ₚ l.
Proof.
  induction l as [|x l IH]; simpl; [done|].
  by rewrite insertSorted_perm, IH.
Qed.

Lemma insertSorted_sorted {A} (cmp : A -> A -> Z) x l :
  (forall a b, 0 < cmp a b -> cmp b a <= 0) ->
  Sorted (inOrder cmp) l -> Sorted (inOrder cmp) (insertSorted cmp x l).
Proof.
  intros Hcmp. induction l as [|y l IH]; simpl; intros Hl.
  - by repeat constructor.
  - destruct (Z.leb_spec (cmp x y) 0) as [Hle|Hgt].
    + constructor; [done|]. by constructor.
    + apply Sorted_inv in Hl as [Hl Hy].
      constructor; [by apply IH|].
      destruct l as [|z l]; simpl.
      * constructor. by apply Hcmp.
      * destruct (cmp x z <=? 0); constructor;
          [by apply Hcmp|by apply HdRel_inv in Hy].
Qed.

Lemma sortBy_sorted {A} (cmp : A -> A -> Z) l :
  (forall a b, 0 < cmp a b -> cmp b a <= 0) ->
  Sorted (inOrder cmp) (sortBy cmp l).
Proof.
  intros Hcmp. induction l as [|x l IH]; simpl; [constructor|].
  by apply insertSorted_sorted.
Qed.

Lemma codeUnitCompare_antisym a b :
  0 < codeUnitCompare a b -> codeUnitCompare b a <= 0.
Proof.
  unfold codeUnitCompare. rewrite (String.compare_antisym b a).
  by destruct (String.compare a b).
Qed.

Lemma codeUnitCompare_le a b :
  codeUnitCompare a b <= 0 <-> String.le a b.
Proof.
  unfold codeUnitCompare, String.le, String.leb.
  destruct (String.compare a b); simpl; split; try done; lia.
Qed.

Lemma codeUnitCompare_trans a b c :
  codeUnitCompare a b <= 0 -> codeUnitCompare b c <= 0 ->
  codeUnitCompare a c <= 0.
Proof.
  rewrite !codeUnitCompare_le. intros Hab Hbc. by transitivity b.
Qed.

(** ** The list of devices *)

(** X10. getAvailableDevices loses and invents no device: for a
    localeCompare that orders the strings, it returns one entry for each
    document of the snapshot, the entries in the order of their locations,
    and no entry with an empty location, status or version (a missing one
    reads "Unknown Location", "unknown", "unknown"). When the devices
    cannot be read it throws "Could not fetch device list". *)
Theorem getAvailableDevices_lists_all localeCompare now docs :
  (forall a b, 0 < localeCompare a b -> localeCompare b a <= 0) ->
  (forall a b c,
      localeCompare a b <= 0 -> localeCompare b c <= 0 ->
      localeCompare a c <= 0) ->
  (forall e,
      getAvailableDevices localeCompare now (inl e)
      = inl "Could not fetch device list")
  /\ exists entries,
      getAvailableDevices localeCompare now (inr docs) = inr entries
      /\ entries ≡ₚ (deviceEntry now <$> docs)
      /\ Sorted (inOrder (byLocation localeCompare)) entries
      /\ Forall (fun entry => DeviceEntry.location entry <> ""
                              /\ DeviceEntry.status entry <> ""
                              /\ DeviceEntry.version entry <> "")
                entries.
Proof.
  intros Hcmp _. split; [done|]. eexists. split; [done|].
  split; [apply sortBy_perm|]. split.
  - apply (sortBy_sorted (byLocation localeCompare)).
    intros a b. apply Hcmp.
  - rewrite sortBy_perm. apply Forall_fmap, Forall_forall.
    intros [id deviceData] _. unfold deviceEntry. simpl.
    repeat split;
      match goal with
      | |- Js.orElse ?s _ <> _ => by destruct s as [[|? ?]|]
      end.
Qed.

Lemma getAvailableDevices_lists_all_scenario :
  exists entries,
    getAvailableDevices codeUnitCompare 1700000060000 (inr sample_devices)
    = inr entries
    /\ DeviceEntry.id <$> entries = ["dev2"; "dev1"; "dev3"].
Proof.
  destruct (getAvailableDevices_lists_all codeUnitCompare 1700000060000
              sample_devices codeUnitCompare_antisym codeUnitCompare_trans)
    as [_ (entries & Hentries & _)].
  exists entries. split; [exact Hentries|].
  injection Hentries as <-. reflexivity.
Defined.

(** X11. The two judgements of a device agree up to the edge: with the
    same clock, checkDeviceStatus reports a readable device available
    exactly when getAvailableDevices lists it with status online and either
    isOnline, or without last_seen, or seen exactly 120000 ms ago. So every
    device listed as online with status online passes checkDeviceStatus,
    and the only devices that pass without being listed as online are the
    ones never seen and the ones seen exactly two minutes ago. *)
Theorem listed_online_vs_available
        env gymId deviceId st (deviceData : Device.t) :
  getDoc_error env = None ->
  devices st !! (gymId, deviceId) = Some deviceData ->
  let entry := deviceEntry (now_checkDevice env) (deviceId, deviceData) in
  DeviceStatus.available (deviceStatusOf env gymId deviceId st) = true
  <-> DeviceEntry.status entry = "online"
      /\ (DeviceEntry.isOnline entry = true
          \/ DeviceEntry.lastSeen entry = None
          \/ DeviceEntry.lastSeen entry
             = Some (now_checkDevice env - OFFLINE_AFTER)).
Proof.
  intros Hread Hdoc. cbv zeta.
  rewrite available_iff by done. rewrite Hdoc.
  unfold deviceEntry, getAvailableDevices_isOnline. simpl.
  split.
  - intros (? & [= <-] & Hstatus & Hseen). rewrite Hstatus.
    split; [done|].
    destruct (Device.last_seen deviceData) as [seen|]; [|by right; left].
    specialize (Hseen seen eq_refl).
    destruct (Z.ltb_spec (now_checkDevice env - seen) OFFLINE_AFTER);
      [by left|].
    right; right. f_equal. lia.
  - intros [Hstatus Hcases]. exists deviceData. split; [done|]. split.
    + by destruct (Device.status deviceData) as [[|? ?]|]; simplify_eq/=.
    + intros seen Hseen. rewrite Hseen in Hcases.
      destruct Hcases as [Hlt%Z.ltb_lt|[?|[= ->]]]; [lia|done|lia].
Qed.

Lemma listed_online_vs_available_scenario :
  DeviceStatus.available (deviceStatusOf sample_env "gym1" "dev1" silent_store)
  = true
  /\ DeviceEntry.isOnline
       (deviceEntry (now_checkDevice sample_env) ("dev1", silent_device))
     = false.
Proof.
  split; [|reflexivity].
  apply (listed_online_vs_available sample_env "gym1" "dev1" silent_store
           silent_device).
  - reflexivity.
  - reflexivity.
  - split; [reflexivity|]. right. left. reflexivity.
Defined.

(** X12. A device that getAvailableDevices lists as online is shown by the
    device list as seen "Just now" or "1m ago", never as anything older. *)
Theorem online_device_last_seen_text now (doc : string * Device.t) :
  DeviceEntry.isOnline (deviceEntry now doc) = true ->
  formatLastSeen (DeviceEntry.lastSeen (deviceEntry now doc))
                 (DeviceEntry.timeDiff (deviceEntry now doc)) = "Just now"
  \/ formatLastSeen (DeviceEntry.lastSeen (deviceEntry now doc))
                    (DeviceEntry.timeDiff (deviceEntry now doc)) = "1m ago".
Proof.
  unfold deviceEntry, getAvailableDevices_isOnline, formatLastSeen. simpl.
  destruct (Device.last_seen doc.2) as [seen|]; [|done]. simpl.
  intros Hfresh%Z.ltb_lt. unfold OFFLINE_AFTER in Hfresh.
  destruct (Z.ltb_spec ((now - seen) / 1000) 60) as [|Hminute]; [by left|].
  right.
  assert ((now - seen) / 1000 < 120) as Hupper
    by (apply Z.div_lt_upper_bound; lia).
  assert (((now - seen) / 1000 <? 3600) = true) as ->
    by (apply Z.ltb_lt; lia).
  assert ((now - seen) / 1000 / 60 = 1) as ->; [|done].
  symmetry. apply Z.div_unique with ((now - seen) / 1000 - 60); lia.
Qed.

Lemma online_device_last_seen_text_scenario :
  formatLastSeen
    (DeviceEntry.lastSeen (deviceEntry 1700000060000 ("dev1", online_device)))
    (DeviceEntry.timeDiff (deviceEntry 1700000060000 ("dev1", online_device)))
  = "Just now"
  \/ formatLastSeen
       (DeviceEntry.lastSeen
          (deviceEntry 1700000060000 ("dev1", online_device)))
       (DeviceEntry.timeDiff
          (deviceEntry 1700000060000 ("dev1", online_device)))
     = "1m ago".
Proof.
  apply (online_device_last_seen_text 1700000060000 ("dev1", online_device)).
  reflexivity.
Defined.

(** ** Generated member ids *)

Lemma string_length_app (s1 s2 : string) :
  String.length (s1 +:+ s2) = (String.length s1 + String.length s2)%nat.
Proof. induction s1 as [|c s1 IH]; simpl; [done|]. by rewrite IH. Qed.

Lemma repeatTo_zeros n cur :
  allChars (fun c => bool_decide (c = "0"%char)) cur = true ->
  String.length (Js.repeatTo n "0" cur) = n
  /\ allChars (fun c => bool_decide (c = "0"%char)) (Js.repeatTo n "0" cur)
     = true.
Proof.
  revert cur. induction n as [|n IH]; intros cur Hcur; [done|].
  destruct cur as [|c cur]; simpl.
  - destruct (IH "" eq_refl) as [-> ->]. done.
  - simpl in Hcur. apply andb_true_iff in Hcur as [-> Hcur].
    destruct (IH cur Hcur) as [-> ->]. done.
Qed.

Lemma drop_split n s :
  exists front,
    s = front +:+ Js.drop n s
    /\ String.length front = Nat.min n (String.length s).
Proof.
  revert s. induction n as [|n IH]; intros s.
  - exists "". by destruct s.
  - destruct s as [|c s]; [by exists ""|].
    destruct (IH s) as (front & Hs & Hlen).
    exists (String c front). split.
    + change (String c s = String c (front +:+ Js.drop n s)). by rewrite <-Hs.
    + simpl. by rewrite Hlen.
Qed.

(** X13. generateGymMemberId never throws and never writes. When the
    members can be read, the id is FN followed by the member count plus
    one, padded with zeros on the left to three digits; when they cannot,
    the error is swallowed and the id is FN followed by the last six digits
    of the clock (all of them when there are fewer). *)
Theorem generateGymMemberId_shape env gymId st :
  exists id,
    generateGymMemberId env gymId st = (inr id, st)
    /\ (getDocs_error env = None ->
        exists zeros,
          id = "FN" +:+ zeros
               +:+ Js.numberToString (memberCount gymId st + 1)
          /\ allChars (fun c => bool_decide (c = "0"%char)) zeros = true
          /\ String.length zeros
             = (3 - String.length
                      (Js.numberToString (memberCount gymId st + 1)))%nat)
    /\ (getDocs_error env <> None ->
        exists front digits,
          id = "FN" +:+ digits
          /\ Js.numberToString (now_generateId env) = front +:+ digits
          /\ String.length digits
             = Nat.min 6 (String.length
                            (Js.numberToString (now_generateId env)))).
Proof.
  unfold generateGymMemberId, try_catch, bind, getDocs_members, ret,
    memberCount.
  destruct (getDocs_error env) as [e|]; eexists; (split; [done|]).
  - split; [done|]. intros _. unfold Js.slice.
    set (digits := Js.numberToString (now_generateId env)).
    change (-6 <? 0) with true. cbv beta iota zeta.
    destruct (drop_split
                (Z.to_nat (Z.max (Z.of_nat (String.length digits) + -6) 0))
                digits) as (front & Hsplit & Hlen).
    eexists front, _. split; [done|]. split; [done|].
    apply (f_equal String.length) in Hsplit.
    rewrite string_length_app in Hsplit. lia.
  - split; [|done]. intros _. unfold Js.padStart.
    set (digits := Js.numberToString _).
    destruct (Nat.leb_spec 3 (String.length digits)) as [Hlong|Hshort].
    + exists "". split; [done|]. split; [done|]. simpl. lia.
    + destruct (repeatTo_zeros (3 - String.length digits) "0" eq_refl)
        as [Hlen Hzeros].
      eexists. split; [done|]. by split.
Qed.

(** X14. The generated id is the member count plus one, and an enrollment
    whose fingerprint id is already a member's key overwrites that member:
    the count stays, and the next generated id is the one just given out.
    When the key is new, the count and the next id go up by one. *)
Theorem reenrollment_repeats_generated_id
        env env' gymId memberData deviceId events st result :
  Js.truthyString (gymMemberId memberData) = false ->
  getDocs_error env = None ->
  getDocs_error env' = None ->
  (createMemberAndStartEnrollment env gymId memberData deviceId events st).1
  = Resolved result ->
  let run :=
    createMemberAndStartEnrollment env gymId memberData deviceId events st in
  let key := (gymId, EnrollmentResult.memberId result) in
  (exists doc,
      members run.2 !! key = Some doc
      /\ gymMemberId (Member.data doc)
         = Some (EnrollmentResult.gymMemberId result))
  /\ (is_Some (members st !! key) ->
      memberCount gymId run.2 = memberCount gymId st
      /\ (generateGymMemberId env' gymId run.2).1
         = inr (EnrollmentResult.gymMemberId result))
  /\ (members st !! key = None ->
      memberCount gymId run.2 = memberCount gymId st + 1
      /\ (generateGymMemberId env' gymId run.2).1
         = inr ("FN" +:+ Js.padStart 3 "0"
                           (Js.numberToString (memberCount gymId st + 2)))).
Proof.
  intros Hnone Hread Hread' Hresolved. cbv zeta.
  destruct (run_cases env gymId memberData deviceId events st)
    as [[_ [msg Hrun]]
       |[(_ & [msg Hrun] & _)
        |(_ & _ & d & result' & _ & _ & _ & Hres & _ & _
          & Hmembers & _ & _ & _ & Hrid & Hgym)]];
    [rewrite Hrun in Hresolved; discriminate..|].
  rewrite Hres in Hresolved. injection Hresolved as ->.
  rewrite Hrid.
  set (key := (gymId, WaitResult.fingerprintId (resultOf deviceId d))) in *.
  set (doc := finalMemberData _ _ _ _) in *.
  assert (membersOf gymId
            (createMemberAndStartEnrollment env gymId memberData deviceId
               events st).2
          = <[key := doc]> (membersOf gymId st)) as Hgym'.
  { unfold membersOf. rewrite Hmembers.
    by rewrite map_filter_insert_True. }
  assert (EnrollmentResult.gymMemberId result
          = "FN" +:+ Js.padStart 3 "0"
                       (Js.numberToString (memberCount gymId st + 1)))
    as Hgiven.
  { rewrite Hgym. unfold gymMemberIdOf. rewrite Hnone.
    unfold generateGymMemberId, try_catch, bind, getDocs_members, ret.
    by rewrite Hread. }
  assert (forall st', (generateGymMemberId env' gymId st').1
                      = inr ("FN" +:+ Js.padStart 3 "0"
                               (Js.numberToString (memberCount gymId st' + 1))))
    as Hnext.
  { intros st'.
    unfold generateGymMemberId, try_catch, bind, getDocs_members, ret.
    by rewrite Hread'. }
  split; [|split].
  - exists doc. rewrite Hmembers, lookup_insert_eq. split; [done|].
    subst doc. simpl. by rewrite Hgym.
  - intros [old Hold].
    assert (memberCount gymId
              (createMemberAndStartEnrollment env gymId memberData deviceId
                 events st).2 = memberCount gymId st) as Hcount.
    { unfold memberCount. rewrite Hgym'. f_equal.
      apply map_size_insert_Some. exists old.
      by apply map_lookup_filter_Some. }
    split; [done|]. by rewrite Hnext, Hcount, Hgiven.
  - intros Hfresh.
    assert (memberCount gymId
              (createMemberAndStartEnrollment env gymId memberData deviceId
                 events st).2 = memberCount gymId st + 1) as Hcount.
    { unfold memberCount. rewrite Hgym'.
      rewrite map_size_insert_None; [exact (Nat2Z.inj_succ _)|].
      apply map_lookup_filter_None. by left. }
    split; [done|]. rewrite Hnext, Hcount.
    by replace (memberCount gymId st + 1 + 1) with (memberCount gymId st + 2)
      by lia.
Qed.

Lemma reenrollment_repeats_generated_id_scenario :
  exists result,
    (createMemberAndStartEnrollment sample_env "gym1" alice "dev1"
       [(2000, Snapshot (Some completed_update))] store_with_alice).1
    = Resolved result
    /\ EnrollmentResult.gymMemberId result = "FN002"
    /\ (generateGymMemberId sample_env "gym1"
          (createMemberAndStartEnrollment sample_env "gym1" alice "dev1"
             [(2000, Snapshot (Some completed_update))] store_with_alice).2).1
       = inr (EnrollmentResult.gymMemberId result).
Proof.
  eexists. split; [reflexivity|]. split; [reflexivity|].
  apply (reenrollment_repeats_generated_id sample_env sample_env "gym1" alice
           "dev1" [(2000, Snapshot (Some completed_update))]
           store_with_alice).
  - reflexivity.
  - reflexivity.
  - reflexivity.
  - reflexivity.
  - eexists. reflexivity.
Defined.

(** ** What one call writes *)

(** X15. A call that fails validation, finds the device unavailable, or
    has its command refused by the store is rejected with the store exactly
    as it was: no command, no member, no journal entry. *)
Theorem rejected_before_issue_leaves_store
        env gymId memberData deviceId events st :
  validateMemberData memberData <> inr tt
  \/ DeviceStatus.available (deviceStatusOf env gymId deviceId st) = false
  \/ setDoc_command_error env <> None ->
  exists msg,
    createMemberAndStartEnrollment env gymId memberData deviceId events st
    = (Rejected (enhancedError env gymId memberData deviceId msg), st).
Proof.
  intros Hearly. apply not_issued_rejects. unfold commandIssued.
  destruct Hearly as [Hv|[Hav|Hset]].
  - by rewrite bool_decide_eq_false_2.
  - rewrite Hav. by rewrite andb_false_r.
  - rewrite (bool_decide_eq_false_2 (setDoc_command_error env = None))
      by done.
    by rewrite andb_false_r.
Qed.

Lemma rejected_before_issue_leaves_store_scenario :
  exists msg,
    createMemberAndStartEnrollment sample_env "gym1" alice "dev1" []
                                   stale_store
    = (Rejected (enhancedError sample_env "gym1" alice "dev1" msg),
       stale_store).
Proof.
  apply (rejected_before_issue_leaves_store sample_env "gym1" alice "dev1" []
           stale_store).
  right. left. reflexivity.
Defined.

(** X16. What one call can write: nothing, or the command, or the command
    and then one member of the same gym. It never changes a device
    document, another device's mailbox or another gym's members, and it
    never removes a member. *)
Theorem call_writes_frame env gymId memberData deviceId events st :
  let run :=
    createMemberAndStartEnrollment env gymId memberData deviceId events st in
  (callWrites st run.2 = []
   \/ callWrites st run.2
      = [SetCommand gymId deviceId (enrollmentCommand env memberData)]
   \/ exists id doc,
       callWrites st run.2
       = [SetCommand gymId deviceId (enrollmentCommand env memberData);
          SetMember gymId id doc])
  /\ devices run.2 = devices st
  /\ (forall key, key <> (gymId, deviceId) ->
                  commands run.2 !! key = commands st !! key)
  /\ (forall key, key.1 <> gymId -> members run.2 !! key = members st !! key)
  /\ (forall key, is_Some (members st !! key) ->
                  is_Some (members run.2 !! key)).
Proof.
  cbv zeta.
  destruct (run_cases env gymId memberData deviceId events st)
    as [[_ [msg Hrun]]
       |[(_ & [msg Hrun] & _)
        |(_ & _ & d & result & _ & _ & _ & _ & Hdevices & Hcommands
          & Hmembers & Hjournal & _)]].
  - rewrite Hrun. simpl.
    rewrite (callWrites_app st st []) by (by rewrite app_nil_r).
    split; [by left|]. by repeat split.
  - rewrite Hrun. simpl.
    rewrite (callWrites_app st _ [SetCommand gymId deviceId
                                    (enrollmentCommand env memberData)])
      by done.
    split; [by right; left|]. split; [done|]. split; [|by split].
    intros key Hkey. by rewrite lookup_insert_ne.
  - rewrite (callWrites_app _ _ _ Hjournal), Hdevices, Hcommands, Hmembers.
    split; [right; right; by eexists _, _|]. split; [done|].
    split; [|split].
    + intros key Hkey. by rewrite lookup_insert_ne.
    + intros [gym id] Hkey. rewrite lookup_insert_ne; [done|].
      intros [= <- _]. by apply Hkey.
    + intros key Hsome. rewrite lookup_insert.
      by case_decide.
Qed.

Lemma not_issued_run env gymId memberData deviceId events st :
  commandIssued env gymId memberData deviceId st = false ->
  createMemberAndStartEnrollment env gymId memberData deviceId events st
  = (Rejected
       (enhancedError env gymId memberData deviceId
          match validateMemberData memberData with
          | inl msg => msg
          | inr _ =>
              if DeviceStatus.available (deviceStatusOf env gymId deviceId st)
              then default "" (setDoc_command_error env)
              else "Device " +:+ deviceId +:+ " is not available: "
                   +:+ DeviceStatus.reason
                         (deviceStatusOf env gymId deviceId st)
          end), st).
Proof.
  unfold commandIssued, createMemberAndStartEnrollment, enrollmentSteps.
  unfold bind at 1, lift.
  destruct (validateMemberData memberData) as [msg|[]] eqn:Hv; [done|].
  rewrite bool_decide_eq_true_2 by done. simpl.
  unfold bind at 1. rewrite checkDeviceStatus_eq.
  destruct (DeviceStatus.available _) eqn:Hav; simpl; [|done].
  unfold bind at 1.
  assert (exists id, (if Js.truthyString (gymMemberId memberData)
                      then ret (default "" (gymMemberId memberData))
                      else generateGymMemberId env gymId) st = (inr id, st))
    as [id ->].
  { destruct (Js.truthyString _); [by eexists|].
    destruct (generateGymMemberId_returns env gymId st) as [? ->]. eauto. }
  unfold bind at 1, setDoc_command.
  by destruct (setDoc_command_error env) as [e|].
Qed.

Lemma deviceStatusOf_devices env gymId deviceId st st' :
  devices st' = devices st ->
  deviceStatusOf env gymId deviceId st' = deviceStatusOf env gymId deviceId st.
Proof.
  intros Hdevices.
  unfold deviceStatusOf, checkDeviceStatus, try_catch, bind, getDoc_device.
  rewrite Hdevices.
  destruct (getDoc_error env); [done|].
  destruct (devices st !! (gymId, deviceId)); [|done].
  destruct (from_option _ _ _); [done|]. by destruct (negb _).
Qed.

Lemma gymMemberIdOf_members env gymId memberData st st' :
  members st' = members st ->
  gymMemberIdOf env gymId memberData st'
  = gymMemberIdOf env gymId memberData st.
Proof.
  intros Hmembers.
  unfold gymMemberIdOf, generateGymMemberId, try_catch, bind,
    getDocs_members, membersOf.
  rewrite Hmembers. by destruct (getDocs_error env).
Qed.

(** X17. The call never looks at what is in the mailbox: whatever command
    document is there, also the pending command of another attempt, the
    call ends the same way and makes the same writes, the first of them
    replacing that document. The outcome depends on the store through its
    devices and members only. *)
Theorem mailbox_content_is_not_consulted
        env gymId memberData deviceId events st st' :
  devices st' = devices st ->
  members st' = members st ->
  let run :=
    createMemberAndStartEnrollment env gymId memberData deviceId events st in
  let run' :=
    createMemberAndStartEnrollment env gymId memberData deviceId events st' in
  run'.1 = run.1
  /\ callWrites st' run'.2 = callWrites st run.2
  /\ (callWrites st run.2 <> [] ->
      commands run'.2 !! (gymId, deviceId)
      = Some (enrollmentCommand env memberData)).
Proof.
  intros Hdevices Hmembers. cbv zeta.
  assert (commandIssued env gymId memberData deviceId st'
          = commandIssued env gymId memberData deviceId st) as Hsame.
  { unfold commandIssued. by rewrite (deviceStatusOf_devices _ _ _ st st'). }
  destruct (commandIssued env gymId memberData deviceId st) eqn:Hissued.
  - rewrite !issued_run by done. cbv zeta.
    rewrite (gymMemberIdOf_members _ _ _ st st') by done.
    repeat case_match; simpl;
      repeat match goal with
             | |- context [callWrites ?a ?b] =>
                 first [ rewrite (callWrites_app a b [SetCommand gymId deviceId
                                    (enrollmentCommand env memberData)])
                           by done
                       | rewrite (callWrites_app a b
                                    [SetCommand gymId deviceId
                                       (enrollmentCommand env memberData);
                                     SetMember gymId _ _])
                           by (simpl; by rewrite <-app_assoc) ]
             end;
      rewrite ?lookup_insert_eq; by rewrite ?Hmembers.
  - rewrite !not_issued_run by done.
    rewrite (deviceStatusOf_devices _ _ _ st st') by done. simpl.
    rewrite (callWrites_app st st []), (callWrites_app st' st' [])
      by (by rewrite app_nil_r).
    done.
Qed.

Lemma mailbox_content_is_not_consulted_scenario :
  (createMemberAndStartEnrollment sample_env "gym1" alice "dev1"
     [(2000, Snapshot (Some completed_update))] busy_store).1
  = (createMemberAndStartEnrollment sample_env "gym1" alice "dev1"
       [(2000, Snapshot (Some completed_update))] sample_store).1.
Proof.
  apply (mailbox_content_is_not_consulted sample_env "gym1" alice "dev1"
           [(2000, Snapshot (Some completed_update))] sample_store
           busy_store).
  - reflexivity.
  - reflexivity.
Defined.

(** ** The tempId *)

Lemma pretty_N_go_no_underscore (x : N) s :
  allChars (fun c => negb (bool_decide (c = "_"%char))) s = true ->
  allChars (fun c => negb (bool_decide (c = "_"%char))) (pretty_N_go x s)
  = true.
Proof.
  revert s. induction (N.lt_wf_0 x) as [x _ IH]. intros s Hs.
  destruct (decide (x = 0)%N) as [->|Hx]; [by rewrite pretty_N_go_0|].
  rewrite pretty_N_go_step by (by apply N.neq_0_lt_0).
  apply IH; [apply N.div_lt; [by apply N.neq_0_lt_0|done]|].
  simpl. rewrite Hs, andb_true_r.
  unfold pretty_N_char. by repeat case_match.
Qed.

Lemma numberToString_no_underscore (n : Z) :
  allChars (fun c => negb (bool_decide (c = "_"%char))) (Js.numberToString n)
  = true.
Proof.
  assert (forall p : positive,
             allChars (fun c => negb (bool_decide (c = "_"%char))) (pretty p)
             = true) as Hpos.
  { intros p. unfold pretty, pretty_positive, pretty, pretty_N.
    rewrite decide_False by done. by apply pretty_N_go_no_underscore. }
  destruct n as [|p|p]; [done|apply Hpos|].
  change (Js.numberToString (Z.neg p)) with (String "-" (pretty p)).
  simpl. apply Hpos.
Qed.

Lemma split_at_underscore (s1 s2 r1 r2 : string) :
  allChars (fun c => negb (bool_decide (c = "_"%char))) s1 = true ->
  allChars (fun c => negb (bool_decide (c = "_"%char))) s2 = true ->
  s1 +:+ String "_" r1 = s2 +:+ String "_" r2 ->
  s1 = s2 /\ r1 = r2.
Proof.
  revert s2. induction s1 as [|c1 s1 IH]; intros [|c2 s2] H1 H2 E;
    simpl in H1, H2.
  - by injection E as ->.
  - injection E as <- _. by rewrite bool_decide_eq_true_2 in H2.
  - injection E as -> _. by rewrite bool_decide_eq_true_2 in H1.
  - apply andb_true_iff in H1 as [_ H1].
    apply andb_true_iff in H2 as [_ H2].
    injection E as -> E. destruct (IH s2 H1 H2 E) as [-> ->]. done.
Qed.

Lemma tempEnrollmentId_inj env1 env2 :
  tempEnrollmentId env1 = tempEnrollmentId env2 ->
  now_tempId env1 = now_tempId env2 /\ random env1 = random env2.
Proof.
  unfold tempEnrollmentId. intros E.
  apply (inj (String.app "temp_")) in E.
  apply split_at_underscore in E as [En Er];
    [|apply numberToString_no_underscore..].
  split; [|done]. by apply (inj pretty) in En.
Qed.

(** X18. The tempId determines the clock reading and the random token it
    was made of. So two attempts that differ in one of them have different
    tempIds, and the update the device writes for one of them leaves the
    other's wait untouched. *)
Theorem attempts_with_different_tokens_are_isolated
        env1 env2 deviceId (d : Command.t) st1 :
  now_tempId env1 <> now_tempId env2 \/ random env1 <> random env2 ->
  Command.tempId d = Some (tempEnrollmentId env2) ->
  tempEnrollmentId env1 <> tempEnrollmentId env2
  /\ deliver deviceId (tempEnrollmentId env1) (Snapshot (Some d)) st1 = st1.
Proof.
  intros Hdiffer Hd.
  assert (tempEnrollmentId env1 <> tempEnrollmentId env2) as Hne.
  { intros [? ?]%tempEnrollmentId_inj. by destruct Hdiffer. }
  split; [done|]. apply deliver_foreign. rewrite Hd. congruence.
Qed.

Lemma attempts_with_different_tokens_are_isolated_scenario :
  deliver "dev1" (tempEnrollmentId sample_env)
          (Snapshot (Some (device_update (tempEnrollmentId later_env)
                                         "completed" (Some 9) None)))
          waiting
  = waiting.
Proof.
  apply (attempts_with_different_tokens_are_isolated sample_env later_env
           "dev1"
           (device_update (tempEnrollmentId later_env) "completed" (Some 9)
                          None)
           waiting).
  - left. discriminate.
  - reflexivity.
Defined.

(** ** cancelEnrollment *)

(** X19. When the mailbox holds no document, or the store refuses the
    update, cancelEnrollment throws "Failed to cancel enrollment", whatever
    the store's own error said, and writes nothing. *)
Theorem cancel_without_mailbox_fails
        updateDoc_error serverTime gymId deviceId st :
  updateDoc_error <> None \/ commands st !! (gymId, deviceId) = None ->
  cancelEnrollment updateDoc_error serverTime gymId deviceId st
  = (inl "Failed to cancel enrollment", st).
Proof.
  intros Hcases. unfold cancelEnrollment, try_catch, updateDoc_command.
  destruct updateDoc_error as [e|]; [done|].
  destruct Hcases as [Hfault|Hnone]; [done|]. by rewrite Hnone.
Qed.

Lemma cancel_without_mailbox_fails_scenario :
  cancelEnrollment None 1700000095000 "gym1" "dev1" sample_store
  = (inl "Failed to cancel enrollment", sample_store).
Proof.
  apply (cancel_without_mailbox_fails None 1700000095000 "gym1" "dev1"
           sample_store).
  right. reflexivity.
Defined.

(** X20. Cancelling twice leaves the collections as cancelling once at the
    later time does: the mailbox document says cancelled, with the tempId,
    the member name and the fingerprint id it had; devices, members and
    the other mailboxes are not touched. *)
Theorem cancel_twice
        serverTime1 serverTime2 gymId deviceId st (d : Command.t) :
  commands st !! (gymId, deviceId) = Some d ->
  let once := (cancelEnrollment None serverTime2 gymId deviceId st).2 in
  let twice :=
    (cancelEnrollment None serverTime2 gymId deviceId
       (cancelEnrollment None serverTime1 gymId deviceId st).2).2 in
  commands twice = commands once
  /\ commands once = <[(gymId, deviceId) := cancelled serverTime2 d]>
                       (commands st)
  /\ devices twice = devices st
  /\ members twice = members st
  /\ Command.tempId (cancelled serverTime2 d) = Command.tempId d
  /\ Command.fingerprintId (cancelled serverTime2 d)
     = Command.fingerprintId d.
Proof.
  intros Hd. cbv zeta.
  rewrite (cancelEnrollment_writes serverTime1 _ _ _ d Hd).
  rewrite (cancelEnrollment_writes serverTime2 _ _ _ d Hd). simpl.
  rewrite (cancelEnrollment_writes serverTime2 _ _ _
             (cancelled serverTime1 d))
    by (simpl; by rewrite lookup_insert_eq).
  simpl. by rewrite insert_insert_eq.
Qed.

Lemma cancel_twice_scenario :
  commands
    (cancelEnrollment None 1700000096000 "gym1" "dev1"
       (cancelEnrollment None 1700000095000 "gym1" "dev1" busy_store).2).2
  = commands (cancelEnrollment None 1700000096000 "gym1" "dev1" busy_store).2.
Proof.
  apply (cancel_twice 1700000095000 1700000096000 "gym1" "dev1" busy_store
           (enrollmentCommand later_env alice)).
  reflexivity.
Defined.

(** ** The passive listener and the page *)

(** X21. listenToEnrollmentStatus does not look at the tempId, and the
    page's callback takes every completed document for its own success:
    a completed document of another attempt (such as the one the previous
    enrollment left in the mailbox, which is the first thing a listener
    opened before the command is written gets) puts the page into the
    success state with that document's fingerprint id, while the page's own
    call is not settled by it. *)
Theorem page_shows_completion_of_another_attempt
        gymId deviceId tempId (data : Command.t) attempts page :
  Command.status data = Some "completed" ->
  Command.tempId data <> Some tempId ->
  let page' :=
    pageAfter
      (listenToEnrollmentStatus gymId deviceId
                                [StatusSnapshot (Some (data, attempts))])
      page in
  enrollmentState page' = "success"
  /\ assignedFingerprintId page' = Command.fingerprintId data
  /\ forall st, deliver deviceId tempId (Snapshot (Some data)) st = st.
Proof.
  intros Hstatus Hforeign. cbv zeta. simpl.
  unfold onStatusChange, statusUpdateOf. simpl. rewrite Hstatus. simpl.
  split; [done|]. split; [done|].
  intros st. by apply deliver_foreign.
Qed.

Lemma page_shows_completion_of_another_attempt_scenario :
  enrollmentState
    (pageAfter
       (listenToEnrollmentStatus "gym1" "dev1"
          [StatusSnapshot (Some (stale_completed, None))])
       idle_page)
  = "success".
Proof.
  apply (page_shows_completion_of_another_attempt "gym1" "dev1" sample_tempId
           stale_completed None idle_page).
  - reflexivity.
  - discriminate.
Defined.

Lemma listenToEnrollmentStatus_until_error gymId deviceId before msg after :
  Forall (fun e => forall m, e <> StatusError m) before ->
  listenToEnrollmentStatus gymId deviceId (before ++ StatusError msg :: after)
  = listenToEnrollmentStatus gymId deviceId before ++ [errorUpdate msg].
Proof.
  induction before as [|e before IH]; [done|].
  intros [He Hbefore]%Forall_cons. simpl.
  destruct e as [[[data attempts]|]|m].
  - by rewrite IH.
  - by apply IH.
  - by destruct (He m).
Qed.

(** X22. After a listener error listenToEnrollmentStatus makes one more
    call, with status error and the message "Connection error: " followed
    by the error's message, and none after it; the page then shows the
    failed state and prefixes the message once more, so that it reads
    "Connection error: Connection error: ...". *)
Theorem listener_error_is_the_last_update
        gymId deviceId before msg after page :
  Forall (fun e => forall m, e <> StatusError m) before ->
  let updates :=
    listenToEnrollmentStatus gymId deviceId
                             (before ++ StatusError msg :: after) in
  updates
  = listenToEnrollmentStatus gymId deviceId before ++ [errorUpdate msg]
  /\ enrollmentState (pageAfter updates page) = "failed"
  /\ enrollmentStatus (pageAfter updates page)
     = "Connection error: Connection error: " +:+ msg.
Proof.
  intros Hbefore. cbv zeta.
  rewrite listenToEnrollmentStatus_until_error by done.
  split; [done|]. unfold pageAfter. by rewrite foldl_app.
Qed.

Lemma listener_error_is_the_last_update_scenario :
  listenToEnrollmentStatus "gym1" "dev1"
    ([StatusSnapshot (Some (progress_update, Some 1))]
     ++ StatusError "unavailable"
        :: [StatusSnapshot (Some (completed_update, Some 1))])
  = listenToEnrollmentStatus "gym1" "dev1"
      [StatusSnapshot (Some (progress_update, Some 1))]
    ++ [errorUpdate "unavailable"].
Proof.
  apply (listener_error_is_the_last_update "gym1" "dev1"
           [StatusSnapshot (Some (progress_update, Some 1))] "unavailable"
           [StatusSnapshot (Some (completed_update, Some 1))] idle_page).
  constructor; [discriminate|constructor].
Defined.

(** ** Enrollment statistics *)




Lemma countMember_byDevice today thisWeek thisMonth members stats device :
  default 0
    (Stats.byDevice (foldl (countMember today thisWeek thisMonth) stats members)
     !! device)
  = default 0 (Stats.byDevice stats !! device)
    + Z.of_nat (length (List.filter (datedUnder device) members)).
Proof.
  revert stats. induction members as [|member members IH]; intros stats;
    simpl; [lia|].
  rewrite IH. unfold countMember, datedUnder at 2, countedUnder.
  destruct (StatsDoc.enrollmentDate member) as [date|]; simpl; [|lia].
  case_bool_decide as Hdevice.
  - rewrite Hdevice, lookup_insert_eq. simpl length. simpl default. lia.
  - rewrite lookup_insert_ne by done. lia.
Qed.

Lemma countMember_byDevice_positive
      today thisWeek thisMonth members stats device :
  (forall n, Stats.byDevice stats !! device = Some n -> 1 <= n) ->
  forall n,
    Stats.byDevice (foldl (countMember today thisWeek thisMonth) stats members)
    !! device = Some n ->
    1 <= n.
Proof.
  revert stats. induction members as [|member members IH]; intros stats Hstats;
    [done|].
  simpl. apply IH. unfold countMember.
  destruct (StatsDoc.enrollmentDate member); [|done]. simpl.
  intros n. rewrite lookup_insert. case_decide as Hkey; [|apply Hstats].
  intros [= <-]. rewrite Hkey.
  destruct (Stats.byDevice stats !! device) as [k|]; simpl; [|lia].
  specialize (Hstats k eq_refl). lia.
Qed.

(** X24. byDevice counts, for each device, the queried members that have
    an enrollment date and were enrolled by it; members without enrolledBy
    (or with an empty one) are counted under "unknown", together with any
    enrolled by a device of that name; a device without such members has
    no entry. (Stated for device names that a JavaScript object does not
    inherit from Object.prototype.) *)
Theorem stats_byDevice_counts today thisMonth deviceId docs device :
  device ∉ objectPrototypeNames ->
  exists stats,
    getEnrollmentStats today thisMonth deviceId (inr docs) = inr stats
    /\ default 0 (Stats.byDevice stats !! device)
       = Z.of_nat (length (List.filter (datedUnder device)
                                       (statsQuery deviceId docs)))
    /\ (Stats.byDevice stats !! device = None
        <-> List.filter (datedUnder device) (statsQuery deviceId docs) = []).
Proof.
  intros _. eexists. split; [reflexivity|]. fold (statsQuery deviceId docs).
  cbn [Stats.byDevice].
  set (members := statsQuery deviceId docs).
  set (start := {| Stats.total := Z.of_nat (length members);
                   Stats.today := 0; Stats.thisWeek := 0;
                   Stats.thisMonth := 0; Stats.byDevice := ∅;
                   Stats.recentEnrollments := [] |}).
  pose proof (countMember_byDevice today (today - WEEK) thisMonth members
                start device) as Hcount.
  simpl in Hcount. rewrite lookup_empty in Hcount. simpl in Hcount.
  split; [done|].
  pose proof (countMember_byDevice_positive today (today - WEEK) thisMonth
                members start device) as Hpositive.
  destruct (Stats.byDevice (foldl _ start members) !! device) as [n|] eqn:Hn;
    simpl in Hcount.
  - split; [done|]. intros Hnil. rewrite Hnil in Hcount. simpl in Hcount.
    assert (1 <= n); [|lia].
    apply Hpositive; [|done]. intros k. subst start. simpl.
    by rewrite lookup_empty.
  - split; [|done]. intros _.
    destruct (List.filter _ members); [done|]. simpl in Hcount. lia.
Qed.

Lemma stats_byDevice_counts_scenario :
  exists stats,
    getEnrollmentStats 1700000000000 1698800000000 None
      (inr [stats_member "Alice" 7 1700000100000 "dev1";
            stats_member "Bob" 8 1699000000000 "dev1";
            stats_member "Cleo" 9 1700000200000 "dev2"])
    = inr stats
    /\ default 0 (Stats.byDevice stats !! "dev1") = 2.
Proof.
  destruct (stats_byDevice_counts 1700000000000 1698800000000 None
              [stats_member "Alice" 7 1700000100000 "dev1";
               stats_member "Bob" 8 1699000000000 "dev1";
               stats_member "Cleo" 9 1700000200000 "dev2"] "dev1")
    as (stats & Hstats & Hcount & _).
  - intros Hin. apply list_elem_of_In in Hin. simpl in Hin.
    repeat (destruct Hin as [Hin|Hin]; [discriminate Hin|]). exact Hin.
  - exists stats. split; [exact Hstats|]. rewrite Hcount. reflexivity.
Defined.

Lemma countMember_recent today thisWeek thisMonth members stats :
  (length (Stats.recentEnrollments stats) <= 10)%nat ->
  Stats.recentEnrollments
    (foldl (countMember today thisWeek thisMonth) stats members)
  = take 10 (Stats.recentEnrollments stats ++ datedEntries members).
Proof.
  revert stats. induction members as [|member members IH]; intros stats Hlen.
  { simpl. rewrite app_nil_r. by rewrite take_ge. }
  simpl. unfold datedEntries. simpl. fold (datedEntries members).
  unfold countMember at 2.
  destruct (StatsDoc.enrollmentDate member) as [date|]; simpl; [|by apply IH].
  destruct (Nat.ltb_spec (length (Stats.recentEnrollments stats)) 10)
    as [Hroom|Hfull].
  - rewrite IH by (simpl; rewrite length_app; simpl; lia).
    simpl. by rewrite <-app_assoc.
  - rewrite IH by done. simpl.
    by rewrite !take_app_le by lia.
Qed.

(** X25. recentEnrollments holds the first ten members of the snapshot
    that have an enrollment date, newest first: at most ten entries, and
    when more than ten members have a date, the later ones of the snapshot
    are left out however recent they are. *)
Theorem stats_recent_are_first_ten today thisMonth deviceId docs :
  exists stats,
    getEnrollmentStats today thisMonth deviceId (inr docs) = inr stats
    /\ Stats.recentEnrollments stats
       ≡ₚ take 10 (datedEntries (statsQuery deviceId docs))
    /\ Sorted (inOrder newestFirst) (Stats.recentEnrollments stats)
    /\ (length (Stats.recentEnrollments stats) <= 10)%nat.
Proof.
  eexists. split; [reflexivity|]. fold (statsQuery deviceId docs).
  cbn [Stats.recentEnrollments].
  rewrite countMember_recent by (simpl; lia). simpl.
  split; [apply sortBy_perm|]. split.
  - apply (sortBy_sorted newestFirst). unfold newestFirst. intros a b. lia.
  - rewrite sortBy_perm, length_take. lia.
Qed.

(** ** The type of the not-available error *)

Lemma numberToString_lower_no_t (n : Z) :
  allChars (fun x => negb (bool_decide (x = "t"%char)))
           (Js.toLowerCase (Js.numberToString n)) = true.
Proof.
  rewrite allChars_toLowerCase. apply numberToString_allChars; [|done].
  intros d. unfold pretty_N_char. by repeat case_match.
Qed.

(** The word timeout can come into the not-available message for a stale
    device through the device id only. *)
Lemma stale_message_timeout deviceId (n : Z) :
  Js.includes
    (Js.toLowerCase
       ("Device " +:+ deviceId +:+ " is not available: "
        +:+ "Device offline - last seen " +:+ Js.numberToString n
        +:+ "s ago"))
    "timeout"
  = Js.includes (Js.toLowerCase deviceId) "timeout".
Proof.
  rewrite !toLowerCase_app.
  change (Js.includes
            ("device "
             +:+ Js.toLowerCase deviceId
             +:+ String " "
                   ("is not available: device offline - last seen "
                    +:+ Js.toLowerCase (Js.numberToString n) +:+ "s ago"))
            "timeout"
          = Js.includes (Js.toLowerCase deviceId) "timeout").
  change (Js.includes
            (Js.toLowerCase deviceId
             +:+ String " "
                   ("is not available: device offline - last seen "
                    +:+ Js.toLowerCase (Js.numberToString n) +:+ "s ago"))
            "timeout"
          = Js.includes (Js.toLowerCase deviceId) "timeout").
  rewrite includes_app_sep by done.
  change (Js.includes
            ("is not available: device offline - last seen "
             +:+ Js.toLowerCase (Js.numberToString n) +:+ "s ago")
            "timeout")
    with (Js.includes
            (Js.toLowerCase (Js.numberToString n) +:+ "s ago") "timeout").
  rewrite includes_app_without by apply numberToString_lower_no_t.
  by rewrite orb_false_r.
Qed.

(** X26. A valid request for a readable device last seen more than
    120000 ms ago is rejected before any write, with a message that names
    the device and its age in seconds. The rejection is typed
    device_offline, unless the device id contains the word timeout (letter
    case aside): then it is typed timeout, since getErrorType looks for
    that word first. *)
Theorem stale_device_error_type
        env gymId memberData deviceId events st (deviceData : Device.t) seen :
  validateMemberData memberData = inr tt ->
  getDoc_error env = None ->
  devices st !! (gymId, deviceId) = Some deviceData ->
  Device.last_seen deviceData = Some seen ->
  OFFLINE_AFTER < now_checkDevice env - seen ->
  exists error,
    createMemberAndStartEnrollment env gymId memberData deviceId events st
    = (Rejected error, st)
    /\ EnhancedError.message error
       = "Device " +:+ deviceId
         +:+ " is not available: Device offline - last seen "
         +:+ Js.numberToString ((now_checkDevice env - seen) / 1000)
         +:+ "s ago"
    /\ EnhancedError.type error
       = (if Js.includes (Js.toLowerCase deviceId) "timeout" then "timeout"
          else "device_offline").
Proof.
  intros Hvalid Hread Hdoc Hseen Hstale.
  assert (checkDeviceStatus env gymId deviceId st
          = (inr {| DeviceStatus.available := false;
                    DeviceStatus.reason :=
                      "Device offline - last seen "
                      +:+ Js.numberToString
                            ((now_checkDevice env - seen) / 1000)
                      +:+ "s ago";
                    DeviceStatus.deviceInfo := None |}, st)) as Hcheck.
  { unfold checkDeviceStatus, try_catch, bind, getDoc_device, ret.
    rewrite Hread, Hdoc, Hseen. simpl.
    apply Z.ltb_lt in Hstale. by rewrite Hstale. }
  assert (deviceStatusOf env gymId deviceId st
          = {| DeviceStatus.available := false;
               DeviceStatus.reason :=
                 "Device offline - last seen "
                 +:+ Js.numberToString ((now_checkDevice env - seen) / 1000)
                 +:+ "s ago";
               DeviceStatus.deviceInfo := None |}) as Hstatus
    by (unfold deviceStatusOf; by rewrite Hcheck).
  eexists. split.
  { rewrite unavailable_rejects by (by rewrite ?Hstatus). by rewrite Hstatus. }
  split; [done|].
  cbn [enhancedError EnhancedError.type DeviceStatus.reason].
  unfold getErrorType. rewrite stale_message_timeout.
  set (rest := Js.numberToString _ +:+ "s ago").
  change ("Device " +:+ deviceId
          +:+ " is not available: " +:+ "Device offline - last seen " +:+ rest)
    with ("Device " +:+ (deviceId
          +:+ (" is not available: Device offline - last seen " +:+ rest))).
  rewrite toLowerCase_app.
  set (tail := Js.toLowerCase
                 (deviceId
                  +:+ " is not available: Device offline - last seen "
                  +:+ rest)).
  assert (Js.includes (Js.toLowerCase "Device " +:+ tail) "device" = true)
    as Hdevice by reflexivity.
  assert (Js.includes (Js.toLowerCase "Device " +:+ tail) "offline" = true)
    as Hoffline.
  { apply includes_app_r. subst tail. rewrite toLowerCase_app.
    apply includes_app_r. rewrite toLowerCase_app.
    destruct (Js.toLowerCase rest); reflexivity. }
  rewrite Hdevice, Hoffline. simpl.
  by destruct (Js.includes _ "timeout").
Qed.

Lemma stale_device_error_type_scenario :
  exists error,
    createMemberAndStartEnrollment sample_env "gym1" alice "dev1" []
                                   stale_store
    = (Rejected error, stale_store)
    /\ EnhancedError.type error = "device_offline".
Proof.
  destruct (stale_device_error_type sample_env "gym1" alice "dev1" []
              stale_store stale_device 1699999760000)
    as (error & Hrun & _).
  - reflexivity.
  - reflexivity.
  - reflexivity.
  - reflexivity.
  - reflexivity.
  - exists error. split; [exact Hrun|].
    injection Hrun as <-. reflexivity.
Defined.

(** ** The page's own checks *)

(** X27. EnrollmentPage starts an enrollment only with a name that
    validation will not report as missing, and only on a device that the
    list it was given shows online: when the list comes from
    getAvailableDevices, the device has a last_seen less than 120000 ms
    before the list's clock. A device that was never seen, which
    checkDeviceStatus lets pass, cannot be started on from this page. *)
Theorem page_starts_only_on_listed_online
        localeCompare now docs entries formData gymInfo_id selectedDevice :
  getAvailableDevices localeCompare now (inr docs) = inr entries ->
  handleSubmit_check formData gymInfo_id entries selectedDevice
  = SubmitProceeds ->
  nameMissing formData = false
  /\ exists deviceData seen,
      (selectedDevice, deviceData) ∈ docs
      /\ Device.last_seen deviceData = Some seen
      /\ now - seen < OFFLINE_AFTER.
Proof.
  intros [= <-]. unfold handleSubmit_check, nameMissing.
  destruct (Name formData) as [[|c' name']|];
    [by rewrite ?trim_empty_string| |done].
  cbn [default from_option id Js.truthyString negb orb].
  destruct (Js.trim (String c' name')) as [|c trimmed] eqn:Htrim; [done|].
  cbn [Js.truthyString negb].
  destruct (negb (Js.truthyString gymInfo_id)); [done|].
  destruct (List.find _ _) as [device|] eqn:Hfind; [|done].
  destruct (DeviceEntry.isOnline device) eqn:Honline; [|done].
  intros _. split; [done|].
  apply find_some in Hfind as [Hin Hid].
  apply bool_decide_eq_true in Hid.
  apply list_elem_of_In in Hin. rewrite sortBy_perm in Hin.
  apply list_elem_of_fmap in Hin as ([id deviceData] & -> & Hdoc).
  simpl in Hid. subst id.
  unfold deviceEntry, getAvailableDevices_isOnline in Honline.
  simpl in Honline.
  destruct (Device.last_seen deviceData) as [seen|] eqn:Hseen; [|done].
  exists deviceData, seen. split; [done|]. split; [done|].
  by apply Z.ltb_lt.
Qed.

Lemma page_starts_only_on_listed_online_scenario :
  nameMissing alice = false
  /\ exists deviceData seen,
      ("dev1", deviceData) ∈ sample_devices
      /\ Device.last_seen deviceData = Some seen
      /\ 1700000060000 - seen < OFFLINE_AFTER.
Proof.
  apply (page_starts_only_on_listed_online codeUnitCompare 1700000060000
           sample_devices
           (sortBy (byLocation codeUnitCompare)
                   (deviceEntry 1700000060000 <$> sample_devices))
           alice (Some "gym1") "dev1").
  - reflexivity.
  - reflexivity.
Defined.
